(** * OpenList library refresh: a shallow embedding of
    [src/lib/openlist-refresh.ts] and the properties of its scan.

    The TypeScript module exports [startOpenListRefresh], which checks the
    configuration, creates a scan task and runs [performScan] in the
    background.  [performScan] talks to five collaborators whose code lives
    in other modules: the OpenList client, the TMDB search client, the
    key-value store [db], the in-memory metainfo cache and the scan-task
    tracker.  Here every collaborator call is an [Event] appended to a
    trace, the answers of the remote services are read from a record of
    oracles, and the store, the cache and the admin configuration are
    explicit components of the [World] the code runs in. *)

From Stdlib Require Import ZArith QArith_base Lia.
From stdpp Require Import base strings gmap list stringmap.

Local Open Scope string_scope.
Local Open Scope list_scope.
Local Open Scope nat_scope.

(** ** Results of effectful code

    A piece of the code either returns, throws an [Error] with a message,
    or is still running when the fuel of the model is exhausted.  [Diverge]
    only arises from the [while (true)] loop of the listing phase. *)

Inductive Res (A : Type) : Type :=
| Ret (a : A)
| Throw (message : string)
| Diverge.
Arguments Ret {A} a.
Arguments Throw {A} message.
Arguments Diverge {A}.

(** What a collaborator's promise settles to: a value, or a rejection with
    the message of its [Error].  Collaborators are assumed to answer. *)
Inductive Answer (A : Type) : Type :=
| Resolved (a : A)
| Rejected (message : string).
Arguments Resolved {A} a.
Arguments Rejected {A} message.

(** ** JavaScript truthiness of the values the code tests *)

(** [!s] for a [string | undefined]: [undefined] and [''] are falsy. *)
Definition truthy (s : option string) : bool :=
  match s with
  | Some s => negb (String.eqb s "")
  | None => false
  end.

(** [a || b] where [a : string | undefined] and [b : string]. *)
Definition js_or (a : option string) (b : string) : string :=
  match a with
  | Some s => if String.eqb s "" then b else s
  | None => b
  end.

(** [n] as a condition, for [n : number | null | undefined]: [0] is falsy. *)
Definition truthy_num (n : option Z) : bool :=
  match n with
  | Some n => negb (Z.eqb n 0)
  | None => false
  end.

(** [n || undefined]. *)
Definition num_or_undefined (n : option Z) : option Z :=
  if truthy_num n then n else None.

(** ** Data model *)

(** One entry of [metaInfo.folders]. [season_number] and [season_name] are
    only assigned on the TV path, so they are optional. *)
Record FolderInfo : Type := {
  folderName : string;
  tmdb_id : Z;
  title : string;
  poster_path : option string;
  release_date : string;
  overview : string;
  vote_average : Q;
  media_type : string;
  last_updated : Z;
  failed : bool;
  season_number : option Z;
  season_name : option string
}.

Record MetaInfo : Type := {
  folders : gmap string FolderInfo;
  last_refresh : Z
}.

(** Field assignments [folderInfo.f = v] of the TV branch. *)
Definition set_title (v : string) (f : FolderInfo) : FolderInfo :=
  {| folderName := folderName f; tmdb_id := tmdb_id f; title := v;
     poster_path := poster_path f; release_date := release_date f;
     overview := overview f; vote_average := vote_average f;
     media_type := media_type f; last_updated := last_updated f;
     failed := failed f; season_number := season_number f;
     season_name := season_name f |}.

Definition set_poster_path (v : option string) (f : FolderInfo) : FolderInfo :=
  {| folderName := folderName f; tmdb_id := tmdb_id f; title := title f;
     poster_path := v; release_date := release_date f;
     overview := overview f; vote_average := vote_average f;
     media_type := media_type f; last_updated := last_updated f;
     failed := failed f; season_number := season_number f;
     season_name := season_name f |}.

Definition set_release_date (v : string) (f : FolderInfo) : FolderInfo :=
  {| folderName := folderName f; tmdb_id := tmdb_id f; title := title f;
     poster_path := poster_path f; release_date := v;
     overview := overview f; vote_average := vote_average f;
     media_type := media_type f; last_updated := last_updated f;
     failed := failed f; season_number := season_number f;
     season_name := season_name f |}.

Definition set_overview (v : string) (f : FolderInfo) : FolderInfo :=
  {| folderName := folderName f; tmdb_id := tmdb_id f; title := title f;
     poster_path := poster_path f; release_date := release_date f;
     overview := v; vote_average := vote_average f;
     media_type := media_type f; last_updated := last_updated f;
     failed := failed f; season_number := season_number f;
     season_name := season_name f |}.

Definition set_season_number (v : option Z) (f : FolderInfo) : FolderInfo :=
  {| folderName := folderName f; tmdb_id := tmdb_id f; title := title f;
     poster_path := poster_path f; release_date := release_date f;
     overview := overview f; vote_average := vote_average f;
     media_type := media_type f; last_updated := last_updated f;
     failed := failed f; season_number := v;
     season_name := season_name f |}.

Definition set_season_name (v : option string) (f : FolderInfo) : FolderInfo :=
  {| folderName := folderName f; tmdb_id := tmdb_id f; title := title f;
     poster_path := poster_path f; release_date := release_date f;
     overview := overview f; vote_average := vote_average f;
     media_type := media_type f; last_updated := last_updated f;
     failed := failed f; season_number := season_number f;
     season_name := v |}.

(** The answers of the OpenList client ([client.listDirectory]). *)
Module Listing.
Record Item : Type := { name : string; is_dir : bool }.
Record Response : Type := { code : Z; total : Z; content : list Item }.
End Listing.

(** The answers of [searchTMDB]. *)
Module Search.
Record Result : Type := {
  id : Z;
  title : option string;
  name : option string;
  poster_path : option string;
  release_date : option string;
  first_air_date : option string;
  overview : string;
  vote_average : Q;
  media_type : string
}.
Record Response : Type := { code : Z; result : option Result }.
End Search.

(** The answers of [getTVSeasonDetails]. *)
Module Season.
Record Details : Type := {
  season_number : Z;
  name : string;
  poster_path : option string;
  overview : option string;
  air_date : option string
}.
Record Response : Type := { code : Z; season : option Details }.
End Season.

(** The value [parseSeasonFromTitle] returns. *)
Record SeasonInfo : Type := {
  cleanTitle : string;
  seasonNumber : option Z;
  year : option Z
}.

(** The part of the admin configuration the module reads and writes. *)
Record OpenListSettings : Type := {
  Enabled : bool;
  URL : option string;
  Username : option string;
  Password : option string;
  RootPath : option string;
  LastRefreshTime : Z;
  ResourceCount : nat
}.

Record SiteSettings : Type := {
  TMDBApiKey : option string;
  TMDBProxy : option string
}.

Record AdminConfig : Type := {
  OpenListConfig : option OpenListSettings;
  SiteConfig : SiteSettings
}.

(** [new OpenListClient(url, username, password)]. *)
Record OpenListClient : Type := {
  client_url : string;
  client_username : string;
  client_password : string
}.

(** ** Collaborator calls *)

Inductive Event : Type :=
| EvCleanupOldTasks
| EvCreateScanTask (taskId : string)
| EvUpdateScanTaskProgress (taskId : string) (current total : nat)
    (currentItem : option string)
| EvCompleteScanTask (taskId : string) (total new existing errors : nat)
| EvFailScanTask (taskId : string) (message : string)
| EvGetGlobalValue (key : string)
| EvSetGlobalValue (key value : string)
| EvSaveAdminConfig (cfg : AdminConfig)
| EvInvalidateMetaInfoCache (rootPath : string)
| EvSetCachedMetaInfo (rootPath : string) (m : MetaInfo)
| EvListDirectory (path : string) (page perPage : nat) (refresh : bool)
| EvSearchTMDB (folder : string) (apiKey query : string)
    (proxy : option string) (year : option Z)
| EvGetTVSeasonDetails (folder : string) (apiKey : string) (id season : Z)
    (proxy : option string)
| EvDelay (ms : nat).

(** Places where the code reads [Date.now()]; each is executed at most once
    per scan, so an oracle indexed by the place gives every read its own
    value. *)
Inductive ClockSite : Type :=
| NowEmptyMetaInfo
| NowFolder (i : nat)
| NowLastRefresh
| NowLastRefreshTime.

(** What the world outside the module answers.  [searchTMDB] and
    [getTVSeasonDetails] carry the index of the folder being resolved as a
    first argument, so that two calls with equal arguments may still be
    answered differently.  A page of a directory is requested at most once
    per scan, so [listDirectory] needs no such index.  [JSON_parse] either
    throws or yields a value of the shape the code declares for it.
    [generateFolderKey] (from [src/lib/crypto]) is a plain function of the
    name and of the keys in use.  The three [_fault] fields say whether the
    corresponding [db] call rejects, and with which message;
    [createScanTask] gives the id of the task created after the calls made
    so far. *)
Record Collaborators : Type := {
  listDirectory :
    OpenListClient → string → nat → nat → bool → Answer Listing.Response;
  parseSeasonFromTitle : string → Answer SeasonInfo;
  searchTMDB :
    nat → string → string → option string → option Z
    → Answer Search.Response;
  getTVSeasonDetails :
    nat → string → Z → Z → option string → Answer Season.Response;
  generateFolderKey : string → gset string → string;
  Date_now : ClockSite → Z;
  JSON_parse : string → Answer MetaInfo;
  JSON_stringify : MetaInfo → string;
  getGlobalValue_fault : option string;
  setGlobalValue_fault : option string;
  saveAdminConfig_fault : option string;
  createScanTask : list Event → string
}.

(** ** The world the code runs in *)

Record World : Type := {
  store : gmap string string;
  cache : gmap string MetaInfo;
  config : AdminConfig;
  trace : list Event
}.

Definition log (evs : list Event) (w : World) : World :=
  {| store := store w; cache := cache w; config := config w;
     trace := trace w ++ evs |}.

Definition with_store (s : gmap string string) (w : World) : World :=
  {| store := s; cache := cache w; config := config w; trace := trace w |}.

Definition with_cache (c : gmap string MetaInfo) (w : World) : World :=
  {| store := store w; cache := c; config := config w; trace := trace w |}.

Definition with_config (c : AdminConfig) (w : World) : World :=
  {| store := store w; cache := cache w; config := c; trace := trace w |}.

(** ** A state-and-exception monad for [async] code *)

Definition M (A : Type) : Type := World → Res A * World.

Definition ret {A} (a : A) : M A := λ w, (Ret a, w).

Definition throw {A} (message : string) : M A := λ w, (Throw message, w).

Definition bind {A B} (m : M A) (k : A → M B) : M B :=
  λ w, match m w with
       | (Ret a, w') => k a w'
       | (Throw msg, w') => (Throw msg, w')
       | (Diverge, w') => (Diverge, w')
       end.

(** [try { m } catch (error) { h (error.message) }]. *)
Definition try_catch {A} (m : M A) (h : string → M A) : M A :=
  λ w, match m w with
       | (Throw msg, w') => h msg w'
       | other => other
       end.

(** [await p] for a promise that settles to [r]; also a plain call that
    returns or throws. *)
Definition lift {A} (r : Answer A) : M A :=
  λ w, match r with
       | Resolved a => (Ret a, w)
       | Rejected msg => (Throw msg, w)
       end.

(** The model has run out of fuel. *)
Definition diverge {A} : M A := λ w, (Diverge, w).

Definition emit (e : Event) : M unit := λ w, (Ret tt, log [e] w).

Declare Scope scan_scope.
Delimit Scope scan_scope with scan.
Notation "'let*' x ':=' m 'in' k" := (bind m (λ x, k))
  (at level 10, x name, m at level 100, k at level 200) : scan_scope.
Notation "m ;; k" := (bind m (λ _, k))
  (at level 100, k at level 200, right associativity) : scan_scope.
Local Open Scope scan_scope.

(** ** The collaborators' operations *)

(** The scan-task tracker of [src/lib/scan-task] is only called, never read,
    by this module: each call is recorded in the trace. *)
Definition updateScanTaskProgress (taskId : string) (current total : nat)
    (currentItem : option string) : M unit :=
  emit (EvUpdateScanTaskProgress taskId current total currentItem).

Definition completeScanTask (taskId : string)
    (total new existing errors : nat) : M unit :=
  emit (EvCompleteScanTask taskId total new existing errors).

Definition failScanTask (taskId : string) (message : string) : M unit :=
  emit (EvFailScanTask taskId message).

Definition cleanupOldTasks : M unit := emit EvCleanupOldTasks.

(** Modelled from the spec: the Progress Cache of [src/lib/openlist-cache]
    is a mapping from a root path to its last-known MetaInfo;
    [invalidateMetaInfoCache] drops the entry of a root and
    [setCachedMetaInfo] stores one. *)
Definition invalidateMetaInfoCache (rootPath : string) : M unit :=
  emit (EvInvalidateMetaInfoCache rootPath) ;;
  λ w, (Ret tt, with_cache (delete rootPath (cache w)) w).

Definition setCachedMetaInfo (rootPath : string) (m : MetaInfo) : M unit :=
  emit (EvSetCachedMetaInfo rootPath m) ;;
  λ w, (Ret tt, with_cache (<[rootPath := m]> (cache w)) w).

(** [await getConfig()]: the admin configuration object held in memory. *)
Definition getConfig : M AdminConfig := λ w, (Ret (config w), w).

(** Assignments to [config.OpenListConfig!.f] mutate that object. *)
Definition setConfig (c : AdminConfig) : M unit :=
  λ w, (Ret tt, with_config c w).

Definition delay (ms : nat) : M unit := emit (EvDelay ms).

Section Scan.

Context (env : Collaborators).

Definition createTask : M string :=
  λ w, let taskId := createScanTask env (trace w) in
       (Ret taskId, log [EvCreateScanTask taskId] w).

(** [db.getGlobalValue(key)]: [null] when the key is absent. *)
Definition db_getGlobalValue (key : string) : M (option string) :=
  emit (EvGetGlobalValue key) ;;
  match getGlobalValue_fault env with
  | Some msg => throw msg
  | None => λ w, (Ret (store w !! key), w)
  end.

(** [db.setGlobalValue(key, value)]; a rejected write leaves the store as
    it was. *)
Definition db_setGlobalValue (key value : string) : M unit :=
  emit (EvSetGlobalValue key value) ;;
  match setGlobalValue_fault env with
  | Some msg => throw msg
  | None => λ w, (Ret tt, with_store (<[key := value]> (store w)) w)
  end.

Definition db_saveAdminConfig (c : AdminConfig) : M unit :=
  emit (EvSaveAdminConfig c) ;;
  match saveAdminConfig_fault env with
  | Some msg => throw msg
  | None => ret tt
  end.

Definition client_listDirectory (client : OpenListClient) (path : string)
    (page perPage : nat) (refresh : bool) : M Listing.Response :=
  emit (EvListDirectory path page perPage refresh) ;;
  lift (listDirectory env client path page perPage refresh).

Definition call_searchTMDB (i : nat) (folder apiKey query : string)
    (proxy : option string) (yr : option Z) : M Search.Response :=
  emit (EvSearchTMDB folder apiKey query proxy yr) ;;
  lift (searchTMDB env i apiKey query proxy yr).

Definition call_getTVSeasonDetails (i : nat) (folder apiKey : string)
    (id season : Z) (proxy : option string) : M Season.Response :=
  emit (EvGetTVSeasonDetails folder apiKey id season proxy) ;;
  lift (getTVSeasonDetails env i apiKey id season proxy).

(** ** [performScan], phase by phase *)

(** [{ folders: {}, last_refresh: Date.now() }] *)
Definition emptyMetaInfo : MetaInfo :=
  {| folders := ∅; last_refresh := Date_now env NowEmptyMetaInfo |}.

(** Lines 85-110: the MetaInfo the scan starts from. *)
Definition loadMetaInfo (clearMetaInfo : bool) : M MetaInfo :=
  if clearMetaInfo then ret emptyMetaInfo
  else
    try_catch
      (let* metainfoContent := db_getGlobalValue "video.metainfo" in
       if truthy metainfoContent
       then lift (JSON_parse env (default "" metainfoContent))
       else ret emptyMetaInfo)
      (λ _, ret emptyMetaInfo).

Definition pageSize : nat := 100.

(** Lines 119-135: the [while (true)] loop; [fuel] bounds the number of
    iterations the model runs. *)
Fixpoint listLoop (fuel : nat) (client : OpenListClient) (rootPath : string)
    (currentPage : nat) (folders : list Listing.Item)
    : M (list Listing.Item) :=
  match fuel with
  | O => diverge
  | S fuel' =>
      let* listResponse :=
        client_listDirectory client rootPath currentPage pageSize true in
      if negb (Listing.code listResponse =? 200)%Z
      then throw "OpenList 列表获取失败"
      else
        let total := Listing.total listResponse in
        let pageFolders :=
          filter (λ item, Listing.is_dir item = true)
                 (Listing.content listResponse) in
        let folders := folders ++ pageFolders in
        if (total <=? Z.of_nat (List.length folders))%Z
        then ret folders
        else listLoop fuel' client rootPath (S currentPage) folders
  end.

(** Lines 145-148: the reverse index from [folderName] to key.  Only
    [folderNameToKey.has] is ever used. *)
Definition folderNameToKey (m : MetaInfo) : gmap string string :=
  foldl (λ acc entry, <[folderName entry.2 := entry.1]> acc) ∅
        (map_to_list (folders m)).

Definition has (m : gmap string string) (k : string) : bool :=
  match m !! k with
  | Some _ => true
  | None => false
  end.

(** The variables the [for] loop updates. *)
Record ScanState : Type := {
  metaInfo : MetaInfo;
  existingKeys : gset string;
  newCount : nat;
  existingCount : nat;
  errorCount : nat
}.

(** [existingCount++] *)
Definition count_existing (st : ScanState) : ScanState :=
  {| metaInfo := metaInfo st; existingKeys := existingKeys st;
     newCount := newCount st; existingCount := S (existingCount st);
     errorCount := errorCount st |}.

(** [newCount++] *)
Definition count_new (st : ScanState) : ScanState :=
  {| metaInfo := metaInfo st; existingKeys := existingKeys st;
     newCount := S (newCount st); existingCount := existingCount st;
     errorCount := errorCount st |}.

(** [errorCount++] *)
Definition count_error (st : ScanState) : ScanState :=
  {| metaInfo := metaInfo st; existingKeys := existingKeys st;
     newCount := newCount st; existingCount := existingCount st;
     errorCount := S (errorCount st) |}.

(** [existingKeys.add(folderKey)] *)
Definition add_key (folderKey : string) (st : ScanState) : ScanState :=
  {| metaInfo := metaInfo st;
     existingKeys := {[folderKey]} ∪ existingKeys st;
     newCount := newCount st; existingCount := existingCount st;
     errorCount := errorCount st |}.

(** [metaInfo.folders[folderKey] = folderInfo] *)
Definition set_folder (folderKey : string) (folderInfo : FolderInfo)
    (st : ScanState) : ScanState :=
  {| metaInfo :=
       {| folders := <[folderKey := folderInfo]> (folders (metaInfo st));
          last_refresh := last_refresh (metaInfo st) |};
     existingKeys := existingKeys st;
     newCount := newCount st; existingCount := existingCount st;
     errorCount := errorCount st |}.

(** Lines 232-243 and 250-261: the placeholder of a folder whose
    resolution failed. *)
Definition failedEntry (name : string) (now : Z) : FolderInfo :=
  {| folderName := name; tmdb_id := 0; title := name;
     poster_path := None; release_date := ""; overview := "";
     vote_average := 0%Q; media_type := "movie"; last_updated := now;
     failed := true; season_number := None; season_name := None |}.

(** Lines 180-191: the entry built from the best match. *)
Definition matchedEntry (name : string) (result : Search.Result) (now : Z)
    : FolderInfo :=
  {| folderName := name;
     tmdb_id := Search.id result;
     title := js_or (Search.title result) (js_or (Search.name result) name);
     poster_path := Search.poster_path result;
     release_date :=
       js_or (Search.release_date result)
             (js_or (Search.first_air_date result) "");
     overview := Search.overview result;
     vote_average := Search.vote_average result;
     media_type := Search.media_type result;
     last_updated := now;
     failed := false;
     season_number := None;
     season_name := None |}.

(** Lines 203-218: what a found season changes in the entry. *)
Definition applySeasonDetails (season : Season.Details)
    (folderInfo : FolderInfo) : FolderInfo :=
  let folderInfo :=
    set_season_number (Some (Season.season_number season)) folderInfo in
  let folderInfo := set_season_name (Some (Season.name season)) folderInfo in
  let folderInfo :=
    if (1 <? Season.season_number season)%Z
    then set_title (title folderInfo +:+ " " +:+ Season.name season)
                   folderInfo
    else folderInfo in
  let folderInfo :=
    if truthy (Season.poster_path season)
    then set_poster_path (Season.poster_path season) folderInfo
    else folderInfo in
  let folderInfo :=
    if truthy (Season.overview season)
    then set_overview (default "" (Season.overview season)) folderInfo
    else folderInfo in
  if truthy (Season.air_date season)
  then set_release_date (default "" (Season.air_date season)) folderInfo
  else folderInfo.

(** Lines 193-227.  The assignments after the [await] cannot throw, so
    the [catch] always sees the entry as it was before the [try]. *)
Definition resolveSeason (i : nat) (folder tmdbApiKey : string)
    (tmdbProxy : option string) (result : Search.Result)
    (seasonInfo : SeasonInfo) (folderInfo : FolderInfo) : M FolderInfo :=
  if String.eqb (Search.media_type result) "tv"
     && truthy_num (seasonNumber seasonInfo)
  then
    try_catch
      (let* seasonDetails :=
         call_getTVSeasonDetails i folder tmdbApiKey (Search.id result)
           (default 0%Z (seasonNumber seasonInfo)) tmdbProxy in
       match (if (Season.code seasonDetails =? 200)%Z
              then Season.season seasonDetails else None) with
       | Some season => ret (applySeasonDetails season folderInfo)
       | None =>
           ret (set_season_number (seasonNumber seasonInfo) folderInfo)
       end)
      (λ _, ret (set_season_number (seasonNumber seasonInfo) folderInfo))
  else ret folderInfo.

(** Lines 151-263: one iteration of the [for] loop.  Nothing after the
    writes to [metaInfo.folders] and to the counters can throw inside the
    [try] (only the timer remains), so the [catch] always starts from the
    state reached just after [existingKeys.add]. *)
Definition processFolder (taskId tmdbApiKey : string)
    (tmdbProxy : option string) (clearMetaInfo : bool)
    (nameToKey : gmap string string) (total : nat)
    (i : nat) (folder : Listing.Item) (st : ScanState) : M ScanState :=
  let name := Listing.name folder in
  updateScanTaskProgress taskId (i + 1) total (Some name) ;;
  if negb clearMetaInfo && has nameToKey name
  then ret (count_existing st)
  else
    let folderKey := generateFolderKey env name (existingKeys st) in
    let st := add_key folderKey st in
    try_catch
      (let* seasonInfo := lift (parseSeasonFromTitle env name) in
       let searchQuery := js_or (Some (cleanTitle seasonInfo)) name in
       let* searchResult :=
         call_searchTMDB i name tmdbApiKey searchQuery tmdbProxy
           (num_or_undefined (year seasonInfo)) in
       let* st' :=
         match (if (Search.code searchResult =? 200)%Z
                then Search.result searchResult else None) with
         | Some result =>
             let folderInfo :=
               matchedEntry name result (Date_now env (NowFolder i)) in
             let* folderInfo :=
               resolveSeason i name tmdbApiKey tmdbProxy result seasonInfo
                 folderInfo in
             ret (count_new (set_folder folderKey folderInfo st))
         | None =>
             ret (count_error
                    (set_folder folderKey
                       (failedEntry name (Date_now env (NowFolder i))) st))
         end in
       delay 300 ;;
       ret st')
      (λ _,
         ret (count_error
                (set_folder folderKey
                   (failedEntry name (Date_now env (NowFolder i))) st))).

(** Lines 150-264: [for (let i = 0; i < folders.length; i++)], entered
    at index [i] with the folders from [i] on still to do. *)
Fixpoint scanLoop (taskId tmdbApiKey : string) (tmdbProxy : option string)
    (clearMetaInfo : bool) (nameToKey : gmap string string) (total : nat)
    (i : nat) (rest : list Listing.Item) (st : ScanState) : M ScanState :=
  match rest with
  | [] => ret st
  | folder :: rest' =>
      let* st' :=
        processFolder taskId tmdbApiKey tmdbProxy clearMetaInfo nameToKey
          total i folder st in
      scanLoop taskId tmdbApiKey tmdbProxy clearMetaInfo nameToKey total
        (S i) rest' st'
  end.

(** Lines 266-284: the persisting phase. *)
Definition persist (taskId rootPath : string) (total : nat)
    (st : ScanState) : M unit :=
  let metaInfo :=
    {| folders := folders (metaInfo st);
       last_refresh := Date_now env NowLastRefresh |} in
  let metainfoContent := JSON_stringify env metaInfo in
  db_setGlobalValue "video.metainfo" metainfoContent ;;
  invalidateMetaInfoCache rootPath ;;
  setCachedMetaInfo rootPath metaInfo ;;
  let* config := getConfig in
  match OpenListConfig config with
  | None =>
      throw "Cannot set properties of undefined (setting 'LastRefreshTime')"
  | Some openListConfig =>
      let config :=
        {| OpenListConfig :=
             Some {| Enabled := Enabled openListConfig;
                     URL := URL openListConfig;
                     Username := Username openListConfig;
                     Password := Password openListConfig;
                     RootPath := RootPath openListConfig;
                     LastRefreshTime := Date_now env NowLastRefreshTime;
                     ResourceCount := size (folders metaInfo) |};
           SiteConfig := SiteConfig config |} in
      setConfig config ;;
      db_saveAdminConfig config ;;
      completeScanTask taskId total (newCount st) (existingCount st)
        (errorCount st)
  end.

(** Lines 85-284: the body of the outer [try]. *)
Definition scanBody (fuel : nat) (taskId : string) (client : OpenListClient)
    (rootPath tmdbApiKey : string) (tmdbProxy : option string)
    (clearMetaInfo : bool) : M unit :=
  let* metaInfo := loadMetaInfo clearMetaInfo in
  invalidateMetaInfoCache rootPath ;;
  let* remoteFolders := listLoop fuel client rootPath 1 [] in
  updateScanTaskProgress taskId 0 (List.length remoteFolders) None ;;
  let st :=
    {| metaInfo := metaInfo; existingKeys := dom (folders metaInfo);
       newCount := 0; existingCount := 0; errorCount := 0 |} in
  let* st :=
    scanLoop taskId tmdbApiKey tmdbProxy clearMetaInfo
      (folderNameToKey metaInfo) (List.length remoteFolders) 0
      remoteFolders st in
  persist taskId rootPath (List.length remoteFolders) st.

(** Lines 70-290. *)
Definition performScan (fuel : nat) (taskId url rootPath tmdbApiKey : string)
    (tmdbProxy : option string) (username password : string)
    (clearMetaInfo : bool) : M unit :=
  let client :=
    {| client_url := url; client_username := username;
       client_password := password |} in
  updateScanTaskProgress taskId 0 0 None ;;
  try_catch
    (scanBody fuel taskId client rootPath tmdbApiKey tmdbProxy
       clearMetaInfo)
    (λ message, failScanTask taskId message ;; throw message).

(** [performScan(...).catch(...)] is not awaited: whatever the scan does
    happens in the world, and its outcome never reaches the caller. *)
Definition background (m : M unit) : M unit :=
  λ w, (Ret tt, (m w).2).

(** Lines 26-65. *)
Definition startOpenListRefresh (fuel : nat) (clearMetaInfo : bool)
    : M string :=
  let* config := getConfig in
  match OpenListConfig config with
  | None => throw "OpenList 未配置或未启用"
  | Some openListConfig =>
      if negb (Enabled openListConfig)
         || negb (truthy (URL openListConfig))
         || negb (truthy (Username openListConfig))
         || negb (truthy (Password openListConfig))
      then throw "OpenList 未配置或未启用"
      else
        let tmdbApiKey := TMDBApiKey (SiteConfig config) in
        let tmdbProxy := TMDBProxy (SiteConfig config) in
        if negb (truthy tmdbApiKey)
        then throw "TMDB API Key 未配置"
        else
          cleanupOldTasks ;;
          let* taskId := createTask in
          background
            (try_catch
               (performScan fuel taskId
                  (default "" (URL openListConfig))
                  (js_or (RootPath openListConfig) "/")
                  (default "" tmdbApiKey)
                  tmdbProxy
                  (default "" (Username openListConfig))
                  (default "" (Password openListConfig))
                  clearMetaInfo)
               (λ message, failScanTask taskId message)) ;;
          ret taskId
  end.

End Scan.


(** * The runs of the scan

    Each phase of [performScan] is described once as a relation between
    what the collaborators answer, the value the phase produces and the
    calls it makes.  The lemmas of the second half of the file show that
    the functions above always realise one of the runs below; the
    properties of the scan are then read off the runs. *)

(** The calls a scan has added to the trace. *)
Definition new_events (w w' : World) : list Event :=
drop (List.length (trace w)) (trace w').

(** The calls made while a folder is being resolved. *)
Definition isHandlingEvent (e : Event) : bool :=
match e with
| EvSearchTMDB _ _ _ _ _ | EvGetTVSeasonDetails _ _ _ _ _ | EvDelay _ => true
| _ => false
end.

(** The calls of the [for] loop. *)
Definition isLoopEvent (e : Event) : bool :=
match e with
| EvUpdateScanTaskProgress _ _ _ _ => true
| _ => isHandlingEvent e
end.

(** The calls of the persisting phase. *)
Definition isPersistEvent (e : Event) : bool :=
match e with
| EvSetGlobalValue _ _ | EvInvalidateMetaInfoCache _
| EvSetCachedMetaInfo _ _ | EvSaveAdminConfig _
| EvCompleteScanTask _ _ _ _ _ => true
| _ => false
end.

(** The invariant of the data model: a failed entry is a bare placeholder. *)
Definition placeholderInvariant (f : FolderInfo) : Prop :=
failed f = true → tmdb_id f = 0%Z ∧ overview f = "".

Section Runs.

Context (env : Collaborators) (taskId tmdbApiKey : string)
  (tmdbProxy : option string) (clearMetaInfo : bool)
  (nameToKey : gmap string string) (total : nat).

(** The test of line 155. *)
Definition skipped (name : string) : bool :=
negb clearMetaInfo && has nameToKey name.

Definition progressEvent (i : nat) (name : string) : Event :=
EvUpdateScanTaskProgress taskId (i + 1) total (Some name).

Definition searchEvent (name : string) (seasonInfo : SeasonInfo) : Event :=
EvSearchTMDB name tmdbApiKey (js_or (Some (cleanTitle seasonInfo)) name)
  tmdbProxy (num_or_undefined (year seasonInfo)).

Definition seasonEvent (name : string) (result : Search.Result)
    (seasonInfo : SeasonInfo) : Event :=
EvGetTVSeasonDetails name tmdbApiKey (Search.id result)
  (default 0%Z (seasonNumber seasonInfo)) tmdbProxy.

(** The test of line 193. *)
Definition wantsSeason (result : Search.Result) (seasonInfo : SeasonInfo)
    : bool :=
String.eqb (Search.media_type result) "tv"
&& truthy_num (seasonNumber seasonInfo).

Inductive SeasonRun (i : nat) (name : string) (result : Search.Result)
    (seasonInfo : SeasonInfo) (folderInfo : FolderInfo)
    : FolderInfo → list Event → Prop :=
| SeasonNotAsked :
    wantsSeason result seasonInfo = false →
    SeasonRun i name result seasonInfo folderInfo folderInfo []
| SeasonFound resp season :
    wantsSeason result seasonInfo = true →
    getTVSeasonDetails env i tmdbApiKey (Search.id result)
      (default 0%Z (seasonNumber seasonInfo)) tmdbProxy = Resolved resp →
    Season.code resp = 200%Z →
    Season.season resp = Some season →
    SeasonRun i name result seasonInfo folderInfo
      (applySeasonDetails season folderInfo)
      [seasonEvent name result seasonInfo]
| SeasonNotFound resp :
    wantsSeason result seasonInfo = true →
    getTVSeasonDetails env i tmdbApiKey (Search.id result)
      (default 0%Z (seasonNumber seasonInfo)) tmdbProxy = Resolved resp →
    Season.code resp ≠ 200%Z ∨ Season.season resp = None →
    SeasonRun i name result seasonInfo folderInfo
      (set_season_number (seasonNumber seasonInfo) folderInfo)
      [seasonEvent name result seasonInfo]
| SeasonThrew msg :
    wantsSeason result seasonInfo = true →
    getTVSeasonDetails env i tmdbApiKey (Search.id result)
      (default 0%Z (seasonNumber seasonInfo)) tmdbProxy = Rejected msg →
    SeasonRun i name result seasonInfo folderInfo
      (set_season_number (seasonNumber seasonInfo) folderInfo)
      [seasonEvent name result seasonInfo].

(** The state in which a failed resolution of folder [i] leaves the loop. *)
Definition failedState (i : nat) (name : string) (st : ScanState)
    : ScanState :=
let folderKey := generateFolderKey env name (existingKeys st) in
count_error
  (set_folder folderKey (failedEntry name (Date_now env (NowFolder i)))
     (add_key folderKey st)).

Inductive FolderRun (i : nat) (folder : Listing.Item) (st : ScanState)
    : ScanState → list Event → Prop :=
| RunExisting :
    skipped (Listing.name folder) = true →
    FolderRun i folder st (count_existing st)
      [progressEvent i (Listing.name folder)]
| RunMatched seasonInfo resp result folderInfo sevs :
    skipped (Listing.name folder) = false →
    parseSeasonFromTitle env (Listing.name folder) = Resolved seasonInfo →
    searchTMDB env i tmdbApiKey
      (js_or (Some (cleanTitle seasonInfo)) (Listing.name folder))
      tmdbProxy (num_or_undefined (year seasonInfo)) = Resolved resp →
    Search.code resp = 200%Z →
    Search.result resp = Some result →
    SeasonRun i (Listing.name folder) result seasonInfo
      (matchedEntry (Listing.name folder) result
         (Date_now env (NowFolder i)))
      folderInfo sevs →
    FolderRun i folder st
      (let folderKey :=
         generateFolderKey env (Listing.name folder) (existingKeys st) in
       count_new (set_folder folderKey folderInfo (add_key folderKey st)))
      (progressEvent i (Listing.name folder)
         :: searchEvent (Listing.name folder) seasonInfo
         :: sevs ++ [EvDelay 300])
| RunNotFound seasonInfo resp :
    skipped (Listing.name folder) = false →
    parseSeasonFromTitle env (Listing.name folder) = Resolved seasonInfo →
    searchTMDB env i tmdbApiKey
      (js_or (Some (cleanTitle seasonInfo)) (Listing.name folder))
      tmdbProxy (num_or_undefined (year seasonInfo)) = Resolved resp →
    Search.code resp ≠ 200%Z ∨ Search.result resp = None →
    FolderRun i folder st (failedState i (Listing.name folder) st)
      [progressEvent i (Listing.name folder);
       searchEvent (Listing.name folder) seasonInfo;
       EvDelay 300]
| RunParseThrew msg :
    skipped (Listing.name folder) = false →
    parseSeasonFromTitle env (Listing.name folder) = Rejected msg →
    FolderRun i folder st (failedState i (Listing.name folder) st)
      [progressEvent i (Listing.name folder)]
| RunSearchThrew seasonInfo msg :
    skipped (Listing.name folder) = false →
    parseSeasonFromTitle env (Listing.name folder) = Resolved seasonInfo →
    searchTMDB env i tmdbApiKey
      (js_or (Some (cleanTitle seasonInfo)) (Listing.name folder))
      tmdbProxy (num_or_undefined (year seasonInfo)) = Rejected msg →
    FolderRun i folder st (failedState i (Listing.name folder) st)
      [progressEvent i (Listing.name folder);
       searchEvent (Listing.name folder) seasonInfo].

(** The resolution of folder [i] fails: the parser or the search throws,
    or the search answers without a usable result. *)
Definition resolutionFails (i : nat) (name : string) : Prop :=
(∃ msg, parseSeasonFromTitle env name = Rejected msg)
∨ ∃ seasonInfo,
    parseSeasonFromTitle env name = Resolved seasonInfo
    ∧ ((∃ msg,
          searchTMDB env i tmdbApiKey (js_or (Some (cleanTitle seasonInfo)) name)
            tmdbProxy (num_or_undefined (year seasonInfo)) = Rejected msg)
       ∨ ∃ resp,
           searchTMDB env i tmdbApiKey
             (js_or (Some (cleanTitle seasonInfo)) name)
             tmdbProxy (num_or_undefined (year seasonInfo)) = Resolved resp
           ∧ (Search.code resp ≠ 200%Z ∨ Search.result resp = None)).

(** The runs of the [for] loop from index [i] on. *)
Inductive LoopRun
    : nat → list Listing.Item → ScanState → ScanState → list Event → Prop :=
| LoopDone i st : LoopRun i [] st st []
| LoopStep i folder rest st st1 st2 evs1 evs2 :
    FolderRun i folder st st1 evs1 →
    LoopRun (S i) rest st1 st2 evs2 →
    LoopRun i (folder :: rest) st st2 (evs1 ++ evs2).

(** The trace of a loop in which every folder is first reported and then
    handled: [hs] holds, folder by folder, the calls made after the
    report. *)
Fixpoint reportThenHandle (i : nat) (fs : list Listing.Item)
    (hs : list (list Event)) : list Event :=
match fs, hs with
| f :: fs', h :: hs' =>
    EvUpdateScanTaskProgress taskId (i + 1) total (Some (Listing.name f))
      :: h ++ reportThenHandle (S i) fs' hs'
| _, _ => []
end.

(** The trace of a loop in which every folder is first handled and then
    reported. *)
Fixpoint handleThenReport (i : nat) (fs : list Listing.Item)
    (hs : list (list Event)) : list Event :=
match fs, hs with
| f :: fs', h :: hs' =>
    h ++ EvUpdateScanTaskProgress taskId (i + 1) total
           (Some (Listing.name f))
      :: handleThenReport (S i) fs' hs'
| _, _ => []
end.

End Runs.

Section ListingRuns.

Context (env : Collaborators) (client : OpenListClient) (rootPath : string).

Definition listEvent (page : nat) : Event :=
EvListDirectory rootPath page pageSize true.

(** The directories of page [page], as the filter of line 127 keeps them. *)
Definition pageFolders (page : nat) : list Listing.Item :=
match listDirectory env client rootPath page pageSize true with
| Resolved resp =>
    filter (λ item, Listing.is_dir item = true) (Listing.content resp)
| Rejected _ => []
end.

(** [ListRun page acc k r]: entered at page [page] with [acc] accumulated,
    the [while] loop fetches [k] pages and ends with [r]. *)
Inductive ListRun
    : nat → list Listing.Item → nat → Res (list Listing.Item) → Prop :=
| ListOutOfFuel page acc : ListRun page acc 0 Diverge
| ListRejected page acc msg :
    listDirectory env client rootPath page pageSize true = Rejected msg →
    ListRun page acc 1 (Throw msg)
| ListBadCode page acc resp :
    listDirectory env client rootPath page pageSize true = Resolved resp →
    Listing.code resp ≠ 200%Z →
    ListRun page acc 1 (Throw "OpenList 列表获取失败")
| ListLast page acc resp :
    listDirectory env client rootPath page pageSize true = Resolved resp →
    Listing.code resp = 200%Z →
    (Listing.total resp ≤ Z.of_nat (List.length (acc ++ pageFolders page)))%Z →
    ListRun page acc 1 (Ret (acc ++ pageFolders page))
| ListMore page acc resp k r :
    listDirectory env client rootPath page pageSize true = Resolved resp →
    Listing.code resp = 200%Z →
    (Z.of_nat (List.length (acc ++ pageFolders page)) < Listing.total resp)%Z →
    ListRun (S page) (acc ++ pageFolders page) k r →
    ListRun page acc (S k) r.

End ListingRuns.

Section ScanRuns.

Context (env : Collaborators) (fuel : nat) (taskId url rootPath : string)
  (tmdbApiKey : string) (tmdbProxy : option string)
  (username password : string) (clearMetaInfo : bool).

Definition scanClient : OpenListClient :=
{| client_url := url; client_username := username;
   client_password := password |}.

(** The calls of the loading phase. *)
Definition loadEvents : list Event :=
if clearMetaInfo then [] else [EvGetGlobalValue "video.metainfo"].

(** The calls up to and including the [k] page fetches. *)
Definition listingEvents (k : nat) : list Event :=
EvUpdateScanTaskProgress taskId 0 0 None
  :: loadEvents
  ++ EvInvalidateMetaInfoCache rootPath
  :: (listEvent rootPath <$> seq 1 k).

(** The world during and after the listing phase: only the cache entry of
    the root has changed. *)
Definition listingWorld (w : World) (evs : list Event) : World :=
{| store := store w; cache := delete rootPath (cache w);
   config := config w; trace := trace w ++ evs |}.

(** The MetaInfo of lines 266-268, which the persisting phase writes. *)
Definition finalMetaInfo (st : ScanState) : MetaInfo :=
{| folders := folders (metaInfo st);
   last_refresh := Date_now env NowLastRefresh |}.

(** The loop state of lines 139-143. *)
Definition initialState (metaInfo : MetaInfo) : ScanState :=
{| metaInfo := metaInfo; existingKeys := dom (folders metaInfo);
   newCount := 0; existingCount := 0; errorCount := 0 |}.

Inductive ScanRun (w : World) : Res unit → World → Prop :=
| ScanListingStuck k :
    ListRun env scanClient rootPath 1 [] k Diverge →
    ScanRun w Diverge (listingWorld w (listingEvents k))
| ScanListingFailed k msg :
    ListRun env scanClient rootPath 1 [] k (Throw msg) →
    ScanRun w (Throw msg)
      (listingWorld w (listingEvents k ++ [EvFailScanTask taskId msg]))
| ScanPersistFailed metaInfo k remoteFolders st evs pevs msg w' :
    (loadMetaInfo env clearMetaInfo w).1 = Ret metaInfo →
    (listLoop env fuel scanClient rootPath 1 [] w).1 = Ret remoteFolders →
    ListRun env scanClient rootPath 1 [] k (Ret remoteFolders) →
    LoopRun env taskId tmdbApiKey tmdbProxy clearMetaInfo
      (folderNameToKey metaInfo) (List.length remoteFolders) 0 remoteFolders
      (initialState metaInfo) st evs →
    persist env taskId rootPath (List.length remoteFolders) st
      (listingWorld w
         (listingEvents k
          ++ EvUpdateScanTaskProgress taskId 0 (List.length remoteFolders) None
          :: evs)) = (Throw msg, w') →
    trace w' =
      trace w ++ listingEvents k
      ++ EvUpdateScanTaskProgress taskId 0 (List.length remoteFolders) None
      :: evs ++ pevs →
    Forall (λ e, isPersistEvent e = true) pevs →
    ScanRun w (Throw msg) (log [EvFailScanTask taskId msg] w')
| ScanCompleted metaInfo k remoteFolders st evs pevs w' :
    (loadMetaInfo env clearMetaInfo w).1 = Ret metaInfo →
    (listLoop env fuel scanClient rootPath 1 [] w).1 = Ret remoteFolders →
    ListRun env scanClient rootPath 1 [] k (Ret remoteFolders) →
    LoopRun env taskId tmdbApiKey tmdbProxy clearMetaInfo
      (folderNameToKey metaInfo) (List.length remoteFolders) 0 remoteFolders
      (initialState metaInfo) st evs →
    persist env taskId rootPath (List.length remoteFolders) st
      (listingWorld w
         (listingEvents k
          ++ EvUpdateScanTaskProgress taskId 0 (List.length remoteFolders) None
          :: evs)) = (Ret tt, w') →
    trace w' =
      trace w ++ listingEvents k
      ++ EvUpdateScanTaskProgress taskId 0 (List.length remoteFolders) None
      :: evs
      ++ pevs
      ++ [EvCompleteScanTask taskId (List.length remoteFolders) (newCount st)
            (existingCount st) (errorCount st)] →
    Forall (λ e, isPersistEvent e = true) pevs →
    store w' =
      <["video.metainfo" := JSON_stringify env (finalMetaInfo st)]> (store w) →
    cache w' = <[rootPath := finalMetaInfo st]> (delete rootPath (cache w)) →
    ScanRun w (Ret tt) w'.

End ScanRuns.

(** * A concrete installation

    The scenario of the specification: the remote root holds the folders
    "Show A S02" and "Movie B (2020)".  The oracles below answer as the
    real services would for it; variants of them drive the scan into each
    of its branches. *)

Module Demo.

Definition showFolder : Listing.Item :=
{| Listing.name := "Show A S02"; Listing.is_dir := true |}.

Definition movieFolder : Listing.Item :=
{| Listing.name := "Movie B (2020)"; Listing.is_dir := true |}.

Definition readme : Listing.Item :=
{| Listing.name := "readme.txt"; Listing.is_dir := false |}.

(** A lister over a fixed directory: it reports the number of items as the
    total and returns every item on exactly one page. *)
Definition pagedLister (items : list Listing.Item)
    : OpenListClient → string → nat → nat → bool → Answer Listing.Response :=
λ _ _ page perPage _,
  Resolved {| Listing.code := 200;
              Listing.total := Z.of_nat (List.length items);
              Listing.content :=
                take perPage (drop ((page - 1) * perPage) items) |}.

(** A lister whose backend answers every request with an error code. *)
Definition brokenLister
    : OpenListClient → string → nat → nat → bool → Answer Listing.Response :=
λ _ _ _ _ _,
  Resolved {| Listing.code := 500; Listing.total := 0;
              Listing.content := [] |}.

Definition parseSeason (name : string) : Answer SeasonInfo :=
if String.eqb name "Show A S02"
then Resolved {| cleanTitle := "Show A"; seasonNumber := Some 2%Z;
                 year := None |}
else if String.eqb name "Movie B (2020)"
then Resolved {| cleanTitle := "Movie B"; seasonNumber := None;
                 year := Some 2020%Z |}
else Resolved {| cleanTitle := name; seasonNumber := None; year := None |}.

Definition showResult : Search.Result :=
{| Search.id := 101; Search.title := None; Search.name := Some "Show A";
   Search.poster_path := Some "/show.jpg"; Search.release_date := None;
   Search.first_air_date := Some "2019-03-01";
   Search.overview := "A show."; Search.vote_average := 8%Q;
   Search.media_type := "tv" |}.

Definition movieResult : Search.Result :=
{| Search.id := 202; Search.title := Some "Movie B"; Search.name := None;
   Search.poster_path := Some "/movie.jpg";
   Search.release_date := Some "2020-07-01"; Search.first_air_date := None;
   Search.overview := "A movie."; Search.vote_average := 7%Q;
   Search.media_type := "movie" |}.

Definition search (i : nat) (apiKey query : string) (proxy : option string)
    (yr : option Z) : Answer Search.Response :=
if String.eqb query "Show A"
then Resolved {| Search.code := 200; Search.result := Some showResult |}
else if String.eqb query "Movie B"
then Resolved {| Search.code := 200; Search.result := Some movieResult |}
else Resolved {| Search.code := 200; Search.result := None |}.

(** The search client fails on the movie (a network error, say). *)
Definition searchFailingOnMovie (i : nat) (apiKey query : string)
    (proxy : option string) (yr : option Z) : Answer Search.Response :=
if String.eqb query "Movie B" then Rejected "fetch failed"
else search i apiKey query proxy yr.

(** The second season, as the catalogue often has it: no overview text. *)
Definition secondSeason : Season.Details :=
{| Season.season_number := 2; Season.name := "Season 2";
   Season.poster_path := Some "/season2.jpg"; Season.overview := Some "";
   Season.air_date := Some "2021-01-15" |}.

Definition seasonDetails (i : nat) (apiKey : string) (id season : Z)
    (proxy : option string) : Answer Season.Response :=
Resolved {| Season.code := 200; Season.season := Some secondSeason |}.

(** The entry of "Show A S02" left by an earlier scan. *)
Definition storedShow : FolderInfo :=
{| folderName := "Show A S02"; tmdb_id := 101; title := "Show A Season 2";
   poster_path := Some "/season2.jpg"; release_date := "2021-01-15";
   overview := "A show."; vote_average := 8%Q; media_type := "tv";
   last_updated := 1699999999000; failed := false;
   season_number := Some 2%Z; season_name := Some "Season 2" |}.

Definition storedMetaInfo : MetaInfo :=
{| folders := {["a1b2c3" := storedShow]}; last_refresh := 1699999999000 |}.

Definition mkEnv
    (lister : OpenListClient → string → nat → nat → bool
              → Answer Listing.Response)
    (searcher : nat → string → string → option string → option Z
                → Answer Search.Response)
    : Collaborators :=
{| listDirectory := lister;
   parseSeasonFromTitle := parseSeason;
   searchTMDB := searcher;
   getTVSeasonDetails := seasonDetails;
   generateFolderKey := fresh_string_of_set;
   Date_now := λ _, 1700000000000%Z;
   JSON_parse := λ s,
     if String.eqb s "<stored>" then Resolved storedMetaInfo
     else Rejected "Unexpected token";
   JSON_stringify := λ _, "<written>";
   getGlobalValue_fault := None;
   setGlobalValue_fault := None;
   saveAdminConfig_fault := None;
   createScanTask := λ _, "task-1" |}.

(** Both folders are listed and found. *)
Definition env : Collaborators :=
mkEnv (pagedLister [showFolder; movieFolder]) search.

(** The listing backend is down. *)
Definition envListingDown : Collaborators := mkEnv brokenLister search.

(** The search of the movie throws. *)
Definition envSearchThrows : Collaborators :=
mkEnv (pagedLister [showFolder; movieFolder]) searchFailingOnMovie.

(** The root also holds a plain file. *)
Definition envWithFile : Collaborators :=
mkEnv (pagedLister [readme]) search.

Definition settings : OpenListSettings :=
{| Enabled := true; URL := Some "http://openlist.local";
   Username := Some "admin"; Password := Some "secret";
   RootPath := None; LastRefreshTime := 0; ResourceCount := 0 |}.

Definition siteSettings : SiteSettings :=
{| TMDBApiKey := Some "tmdb-key"; TMDBProxy := None |}.

(** A first scan: nothing stored yet. *)
Definition world : World :=
{| store := ∅; cache := ∅;
   config := {| OpenListConfig := Some settings; SiteConfig := siteSettings |};
   trace := [] |}.

(** A later scan: the show is already in the stored index. *)
Definition worldWithShow : World :=
{| store := {["video.metainfo" := "<stored>"]};
   cache := {["/" := storedMetaInfo]};
   config := {| OpenListConfig := Some settings; SiteConfig := siteSettings |};
   trace := [] |}.

(** The TMDB API key has not been entered. *)
Definition worldWithoutKey : World :=
{| store := ∅; cache := ∅;
   config := {| OpenListConfig := Some settings;
                SiteConfig := {| TMDBApiKey := Some "";
                                 TMDBProxy := None |} |};
   trace := [] |}.

Definition scan (e : Collaborators) (clearMetaInfo : bool) : M unit :=
performScan e 5 "task-1" "http://openlist.local" "/" "tmdb-key" None
  "admin" "secret" clearMetaInfo.

End Demo.

(** * Further vocabulary for the properties of the scan *)

Definition isSearchCall (e : Event) : bool :=
match e with
| EvSearchTMDB _ _ _ _ _ => true
| _ => false
end.

Definition isSeasonCall (e : Event) : bool :=
match e with
| EvGetTVSeasonDetails _ _ _ _ _ => true
| _ => false
end.

Definition isDelay (e : Event) : bool :=
match e with
| EvDelay _ => true
| _ => false
end.

Definition isStoreWrite (e : Event) : bool :=
match e with
| EvSetGlobalValue _ _ => true
| _ => false
end.

Definition isTaskFailure (e : Event) : bool :=
match e with
| EvFailScanTask _ _ => true
| _ => false
end.

Definition isTaskCompletion (e : Event) : bool :=
match e with
| EvCompleteScanTask _ _ _ _ _ => true
| _ => false
end.

(** The number of calls of a kind in a trace. *)
Definition count_calls (p : Event → bool) (evs : list Event) : nat :=
List.length (filter (λ e, p e = true) evs).

(** What every entry written for a folder has: the folder's raw name as
    join key, and a title to display. *)
Definition entryOf (name : string) (folderInfo : FolderInfo) : Prop :=
folderName folderInfo = name ∧ (name ≠ "" → title folderInfo ≠ "").

(** The calls the persisting phase makes before it reports completion;
    the only key it writes is that of the index. *)
Definition isPersistCall (e : Event) : Prop :=
isPersistEvent e = true
∧ isTaskCompletion e = false
∧ ∀ key value, e = EvSetGlobalValue key value → key = "video.metainfo".

(** ** The counter a folder goes to *)

(** The outcome of lines 164-177 for folder [i]: the parser and the search
    return, and the answer has code 200 and a result. *)
Definition resolves (env : Collaborators) (tmdbApiKey : string)
    (tmdbProxy : option string) (i : nat) (name : string) : bool :=
match parseSeasonFromTitle env name with
| Resolved seasonInfo =>
    match searchTMDB env i tmdbApiKey
            (js_or (Some (cleanTitle seasonInfo)) name) tmdbProxy
            (num_or_undefined (year seasonInfo)) with
    | Resolved searchResult =>
        match (if (Search.code searchResult =? 200)%Z
               then Search.result searchResult else None) with
        | Some _ => true
        | None => false
        end
    | Rejected _ => false
    end
| Rejected _ => false
end.

Inductive Counter : Type := Existing | New | Errors.

Definition sameCounter (c d : Counter) : bool :=
match c, d with
| Existing, Existing | New, New | Errors, Errors => true
| _, _ => false
end.

(** The counter the iteration of folder [i] increments: [existingCount]
    when the folder is skipped (line 156), [newCount] when it is resolved
    (line 230), [errorCount] otherwise (lines 244 and 262). *)
Definition counterOf (env : Collaborators) (tmdbApiKey : string)
    (tmdbProxy : option string) (clearMetaInfo : bool)
    (nameToKey : gmap string string) (i : nat) (name : string) : Counter :=
if skipped clearMetaInfo nameToKey name then Existing
else if resolves env tmdbApiKey tmdbProxy i name then New
else Errors.

(** How many of the folders, numbered from [i] on, go to counter [c]. *)
Fixpoint counted (env : Collaborators) (tmdbApiKey : string)
    (tmdbProxy : option string) (clearMetaInfo : bool)
    (nameToKey : gmap string string) (c : Counter) (i : nat)
    (folders : list Listing.Item) : nat :=
match folders with
| [] => 0
| folder :: rest =>
    (if sameCounter
          (counterOf env tmdbApiKey tmdbProxy clearMetaInfo nameToKey i
             (Listing.name folder)) c
     then 1 else 0)
    + counted env tmdbApiKey tmdbProxy clearMetaInfo nameToKey c (S i) rest
end.

(** ** Further variants of the installation *)

Module Variants.

(** The catalogue does not know the movie. *)
Definition searchFindingNoMovie (i : nat) (apiKey query : string)
    (proxy : option string) (yr : option Z) : Answer Search.Response :=
if String.eqb query "Movie B"
then Resolved {| Search.code := 200; Search.result := None |}
else Demo.search i apiKey query proxy yr.

Definition envMovieUnknown : Collaborators :=
Demo.mkEnv (Demo.pagedLister [Demo.showFolder; Demo.movieFolder])
  searchFindingNoMovie.

(** An installation with another key generator. *)
Definition withKeyGenerator (generate : string → gset string → string)
    (e : Collaborators) : Collaborators :=
{| listDirectory := listDirectory e;
   parseSeasonFromTitle := parseSeasonFromTitle e;
   searchTMDB := searchTMDB e;
   getTVSeasonDetails := getTVSeasonDetails e;
   generateFolderKey := generate;
   Date_now := Date_now e;
   JSON_parse := JSON_parse e;
   JSON_stringify := JSON_stringify e;
   getGlobalValue_fault := getGlobalValue_fault e;
   setGlobalValue_fault := setGlobalValue_fault e;
   saveAdminConfig_fault := saveAdminConfig_fault e;
   createScanTask := createScanTask e |}.

(** The mark of a generated key, the character [#]. *)
Definition mark : Ascii.ascii := Ascii.ascii_of_nat 35.

(** What follows the mark of a marked key. *)
Definition unmarked (key : string) : option string :=
match key with
| String c rest => if Ascii.eqb c mark then Some rest else None
| EmptyString => None
end.

(** Keys made of the mark and a text that no marked key in use carries:
    they are new, and none of them is ["__proto__"]. *)
Definition markedKey (name : string) (keys : gset string) : string :=
String mark (fresh_string_of_set name (set_omap unmarked keys)).

Definition envMarkedKeys : Collaborators :=
withKeyGenerator markedKey Demo.env.

(** The listing client cannot reach the backend at all. *)
Definition unreachableLister
    : OpenListClient → string → nat → nat → bool → Answer Listing.Response :=
λ _ _ _ _ _, Rejected "connect ECONNREFUSED".

Definition envUnreachable : Collaborators :=
Demo.mkEnv unreachableLister Demo.search.

(** An installation with another season lookup. *)
Definition withSeasonLookup
    (lookup : nat → string → Z → Z → option string → Answer Season.Response)
    (e : Collaborators) : Collaborators :=
{| listDirectory := listDirectory e;
   parseSeasonFromTitle := parseSeasonFromTitle e;
   searchTMDB := searchTMDB e;
   getTVSeasonDetails := lookup;
   generateFolderKey := generateFolderKey e;
   Date_now := Date_now e;
   JSON_parse := JSON_parse e;
   JSON_stringify := JSON_stringify e;
   getGlobalValue_fault := getGlobalValue_fault e;
   setGlobalValue_fault := setGlobalValue_fault e;
   saveAdminConfig_fault := saveAdminConfig_fault e;
   createScanTask := createScanTask e |}.

(** The season lookup throws. *)
Definition envSeasonDown : Collaborators :=
withSeasonLookup (λ _ _ _ _ _, Rejected "fetch failed") Demo.env.

(** The catalogue does not know the season. *)
Definition envSeasonUnknown : Collaborators :=
withSeasonLookup
  (λ _ _ _ _ _, Resolved {| Season.code := 404; Season.season := None |})
  Demo.env.




(** An installation whose database rejects writes. *)
Definition withWriteFaults (setFault saveFault : option string)
    (e : Collaborators) : Collaborators :=
{| listDirectory := listDirectory e;
   parseSeasonFromTitle := parseSeasonFromTitle e;
   searchTMDB := searchTMDB e;
   getTVSeasonDetails := getTVSeasonDetails e;
   generateFolderKey := generateFolderKey e;
   Date_now := Date_now e;
   JSON_parse := JSON_parse e;
   JSON_stringify := JSON_stringify e;
   getGlobalValue_fault := getGlobalValue_fault e;
   setGlobalValue_fault := setFault;
   saveAdminConfig_fault := saveFault;
   createScanTask := createScanTask e |}.


(** The index is written, the configuration cannot be saved. *)
Definition envConfigReadOnly : Collaborators :=
withWriteFaults None (Some "READONLY") Demo.env.

(** The stored index has been damaged. *)
Definition worldWithBrokenIndex : World :=
{| store := {["video.metainfo" := "{broken"]};
   cache := ∅;
   config := config Demo.world;
   trace := [] |}.

End Variants.

(** * Properties *)

(** ** Bookkeeping on worlds and traces *)

Lemma log_nil w : log [] w = w.
Proof. destruct w; unfold log; simpl. by rewrite app_nil_r. Qed.

Lemma log_log a b w : log b (log a w) = log (a ++ b) w.
Proof. unfold log; simpl. by rewrite app_assoc. Qed.

Lemma new_events_app w w' evs :
  trace w' = trace w ++ evs → new_events w w' = evs.
Proof. intros H. unfold new_events. by rewrite H, drop_app_length. Qed.

Lemma new_events_log w evs : new_events w (log evs w) = evs.
Proof. by apply new_events_app. Qed.

(** Unfolds one iteration of the scan loop down to the oracle calls. *)
Ltac run_folder :=
  cbv beta iota zeta delta
    [processFolder resolveSeason call_searchTMDB call_getTVSeasonDetails
     updateScanTaskProgress delay bind try_catch ret throw lift emit].

Ltac by_hyp :=
  first [eassumption | left; eassumption | right; eassumption].

(** ** Every phase realises one of its runs *)

Section RunLemmas.

Context (env : Collaborators) (taskId tmdbApiKey : string)
  (tmdbProxy : option string) (clearMetaInfo : bool)
  (nameToKey : gmap string string) (total : nat).

Lemma processFolder_run i folder st w :
  ∃ st' evs,
    processFolder env taskId tmdbApiKey tmdbProxy clearMetaInfo nameToKey
      total i folder st w = (Ret st', log evs w)
    ∧ FolderRun env taskId tmdbApiKey tmdbProxy clearMetaInfo nameToKey
        total i folder st st' evs.
Proof.
  destruct (processFolder _ _ _ _ _ _ _ _ _ _ _) as [r w'] eqn:Hrun.
  revert Hrun. run_folder.
  repeat (case_match; simplify_eq; cbv beta iota); intros [= <- <-];
    rewrite ?log_log; cbn [app];
    repeat match goal with
           | H : (_ =? _)%Z = true |- _ => apply Z.eqb_eq in H
           | H : (_ =? _)%Z = false |- _ => apply Z.eqb_neq in H
           end;
    eexists _, _; (split; [reflexivity|]);
    solve
      [ apply RunExisting; eassumption
      | eapply RunMatched with (sevs := [_]); try eassumption;
        econstructor; by_hyp
      | eapply RunMatched with (sevs := []); try eassumption;
        econstructor; by_hyp
      | eapply RunNotFound; by_hyp
      | eapply RunParseThrew; by_hyp
      | eapply RunSearchThrew; by_hyp ].
Qed.

Lemma scanLoop_run rest : ∀ i st w,
  ∃ st' evs,
    scanLoop env taskId tmdbApiKey tmdbProxy clearMetaInfo nameToKey total
      i rest st w = (Ret st', log evs w)
    ∧ LoopRun env taskId tmdbApiKey tmdbProxy clearMetaInfo nameToKey total
        i rest st st' evs.
Proof.
  induction rest as [|folder rest IH]; intros i st w.
  - exists st, []. split; [by rewrite log_nil | constructor].
  - destruct (processFolder_run i folder st w) as (st1 & evs1 & Hstep & Hrun).
    destruct (IH (S i) st1 (log evs1 w)) as (st2 & evs2 & Hloop & Hruns).
    exists st2, (evs1 ++ evs2). split; [|by econstructor].
    cbn [scanLoop]. unfold bind. rewrite Hstep, Hloop. by rewrite log_log.
Qed.

End RunLemmas.

Section ListingLemmas.

Context (env : Collaborators) (client : OpenListClient) (rootPath : string).

Lemma listLoop_run fuel : ∀ page acc w,
  ∃ k r,
    listLoop env fuel client rootPath page acc w
      = (r, log (listEvent rootPath <$> seq page k) w)
    ∧ ListRun env client rootPath page acc k r
    ∧ k ≤ fuel
    ∧ (r = Diverge → k = fuel).
Proof.
  induction fuel as [|fuel IH]; intros page acc w.
  - exists 0, Diverge. rewrite log_nil. repeat split; [constructor | lia].
  - cbn [listLoop].
    cbv beta iota zeta delta [bind client_listDirectory emit lift throw ret].
    destruct (listDirectory env client rootPath page pageSize true)
      as [resp|msg] eqn:Hpage; cbv beta iota.
    + assert (Hdirs : pageFolders env client rootPath page
                      = filter (λ item, Listing.is_dir item = true)
                          (Listing.content resp))
        by (unfold pageFolders; by rewrite Hpage).
      rewrite <- Hdirs.
      destruct (Listing.code resp =? 200)%Z eqn:Hcode; cbn [negb];
        cbv beta iota.
      * apply Z.eqb_eq in Hcode.
        destruct (Listing.total resp <=?
                  Z.of_nat (List.length
                    (acc ++ pageFolders env client rootPath page)))%Z
          eqn:Htotal.
        -- apply Z.leb_le in Htotal.
           exists 1, (Ret (acc ++ pageFolders env client rootPath page)).
           repeat split; [by econstructor | lia | done].
        -- apply Z.leb_gt in Htotal.
           destruct (IH (S page)
                       (acc ++ pageFolders env client rootPath page)
                       (log [EvListDirectory rootPath page pageSize true] w))
             as (k & r & Hrec & Hrun & Hle & Hdiv).
           exists (S k), r. rewrite Hrec, log_log.
           repeat split; [by econstructor | lia | intros ?; f_equal; auto].
      * apply Z.eqb_neq in Hcode.
        exists 1, (Throw "OpenList 列表获取失败").
        repeat split; [by econstructor | lia | done].
    + exists 1, (Throw msg).
      repeat split; [by econstructor | lia | done].
Qed.

End ListingLemmas.

Section ScanLemmas.

Context (env : Collaborators) (fuel : nat) (taskId url rootPath : string)
  (tmdbApiKey : string) (tmdbProxy : option string)
  (username password : string) (clearMetaInfo : bool).

Lemma loadMetaInfo_run w :
  ∃ metaInfo,
    ∀ evs, loadMetaInfo env clearMetaInfo (log evs w)
           = (Ret metaInfo, log (evs ++ loadEvents clearMetaInfo) w).
Proof.
  unfold loadMetaInfo, loadEvents.
  destruct clearMetaInfo.
  { eexists. intros evs. unfold ret. by rewrite app_nil_r. }
  cbv beta iota zeta delta [bind try_catch db_getGlobalValue emit lift throw ret].
  destruct (getGlobalValue_fault env) as [msg|].
  { eexists. intros evs. by rewrite log_log. }
  cbn [store log].
  destruct (truthy (store w !! "video.metainfo")).
  - destruct (JSON_parse env (default "" (store w !! "video.metainfo")));
      eexists; intros evs; by rewrite log_log.
  - eexists. intros evs. by rewrite log_log.
Qed.

Lemma persist_run total st w r w' :
  persist env taskId rootPath total st w = (r, w') →
  ∃ pevs,
    Forall (λ e, isPersistEvent e = true) pevs
    ∧ match r with
      | Ret _ =>
          trace w' =
            trace w ++ pevs
            ++ [EvCompleteScanTask taskId total (newCount st)
                  (existingCount st) (errorCount st)]
          ∧ store w' =
              <["video.metainfo" := JSON_stringify env (finalMetaInfo env st)]>
                (store w)
          ∧ cache w' =
              <[rootPath := finalMetaInfo env st]> (delete rootPath (cache w))
      | Throw _ => trace w' = trace w ++ pevs
      | Diverge => False
      end.
Proof.
  cbv beta iota zeta delta
    [persist bind db_setGlobalValue invalidateMetaInfoCache setCachedMetaInfo
     getConfig setConfig db_saveAdminConfig completeScanTask emit throw ret].
  repeat (case_match; simplify_eq; cbv beta iota); intros [= <- <-];
    cbn [trace log with_store with_cache with_config];
    rewrite <- ?app_assoc; cbn [app];
    first [ eexists; refine (conj _ eq_refl)
          | eexists [_; _; _; _]; refine (conj _ (conj eq_refl _)) ];
    repeat constructor.
Qed.

Lemma listLoop_world fuel' client : ∀ page acc w1 w2,
  (listLoop env fuel' client rootPath page acc w1).1
  = (listLoop env fuel' client rootPath page acc w2).1.
Proof.
  induction fuel' as [|fuel' IH]; intros page acc w1 w2; [done|].
  cbn [listLoop].
  cbv beta iota zeta delta [bind client_listDirectory emit lift throw ret].
  destruct (listDirectory env client rootPath page pageSize true);
    cbv beta iota; [|done].
  repeat case_match; try done.
Qed.

Ltac world_eq :=
  unfold listingWorld, listingEvents, log, with_cache;
  cbn [store cache config trace]; f_equal;
  repeat (progress (rewrite <- ?app_assoc; cbn [app])); try reflexivity.


Lemma performScan_run w :
  ScanRun env fuel taskId url rootPath tmdbApiKey tmdbProxy username password
    clearMetaInfo w
    (performScan env fuel taskId url rootPath tmdbApiKey tmdbProxy username
       password clearMetaInfo w).1
    (performScan env fuel taskId url rootPath tmdbApiKey tmdbProxy username
       password clearMetaInfo w).2.
Proof.
  destruct (loadMetaInfo_run w) as [metaInfo Hload].
  assert (Hloaded : (loadMetaInfo env clearMetaInfo w).1 = Ret metaInfo).
  { specialize (Hload []). rewrite log_nil in Hload. by rewrite Hload. }
  unfold performScan, scanBody.
  fold (scanClient url username password).
  cbv beta iota zeta delta
    [bind try_catch updateScanTaskProgress invalidateMetaInfoCache
     failScanTask emit throw ret].
  rewrite (Hload [_]). cbv beta iota.
  match goal with
  | |- context [listLoop _ _ _ _ _ _ ?W] =>
      destruct (listLoop_run env (scanClient url username password) rootPath
                  fuel 1 [] W) as (k & r & Hlist & Hrun & _)
  end.
  rewrite Hlist. destruct r as [remoteFolders|msg|]; cbv beta iota.
  - match goal with
    | |- context [scanLoop _ _ _ _ _ _ _ _ _ _ ?W] =>
        destruct (scanLoop_run env taskId tmdbApiKey tmdbProxy clearMetaInfo
                    (folderNameToKey metaInfo) (List.length remoteFolders)
                    remoteFolders 0 (initialState metaInfo) W)
          as (st & evs & Hloop & Hloopr)
    end.
    unfold initialState in Hloop. rewrite Hloop. cbv beta iota.
    match goal with
    | |- context [persist _ _ _ _ _ ?W] =>
        assert (HW : W = listingWorld rootPath w
                  (listingEvents taskId rootPath clearMetaInfo k
                   ++ EvUpdateScanTaskProgress taskId 0
                        (List.length remoteFolders) None :: evs))
          by world_eq;
        rewrite HW
    end.
    destruct (persist _ _ _ _ _ _) as [r2 w2] eqn:Hpersist.
    destruct (persist_run _ _ _ _ _ Hpersist) as (pevs & Hpevs & Htrace).
    assert (Hlisted :
      (listLoop env fuel (scanClient url username password) rootPath 1 [] w).1
      = Ret remoteFolders).
    { erewrite listLoop_world. by rewrite Hlist. }
    destruct r2 as [[]|msg|]; cbn [fst snd]; [| |done].
    + destruct Htrace as (Htrace & Hstore & Hcache).
      cbn [trace store cache listingWorld] in Htrace, Hstore, Hcache.
      repeat (progress (rewrite <- ?app_assoc in Htrace; cbn [app] in Htrace)).
      eapply ScanCompleted; eauto.
      by rewrite delete_delete_eq in Hcache.
    + cbn [trace listingWorld] in Htrace.
      repeat (progress (rewrite <- ?app_assoc in Htrace; cbn [app] in Htrace)).
      eapply ScanPersistFailed; eauto.
  - cbn [fst snd].
    match goal with
    | |- ScanRun _ _ _ _ _ _ _ _ _ _ _ _ ?W =>
        replace W with
          (listingWorld rootPath w
             (listingEvents taskId rootPath clearMetaInfo k
              ++ [EvFailScanTask taskId msg])) by world_eq
    end.
    by constructor.
  - cbn [fst snd].
    match goal with
    | |- ScanRun _ _ _ _ _ _ _ _ _ _ _ _ ?W =>
        replace W with
          (listingWorld rootPath w
             (listingEvents taskId rootPath clearMetaInfo k)) by world_eq
    end.
    by constructor.
Qed.

End ScanLemmas.

(** ** Facts about the runs *)

(** Splits a membership in a concatenation into its cases. *)
Ltac split_in H :=
  repeat match type of H with
         | _ ∈ _ ++ _ => apply elem_of_app in H as [H|H]
         | _ ∈ _ :: _ => apply elem_of_cons in H as [H|H]
         | _ ∈ [] => by apply elem_of_nil in H
         end.


Section ListingFacts.

Context (env : Collaborators) (client : OpenListClient) (rootPath : string).

(** Every page fetched answers with code 200, except possibly the last one
    of a run that throws. *)
Lemma ListRun_pages page acc k r :
  ListRun env client rootPath page acc k r →
  ∀ p, page ≤ p < page + k →
    (∃ resp, listDirectory env client rootPath p pageSize true = Resolved resp
             ∧ Listing.code resp = 200%Z)
    ∨ (∃ msg, r = Throw msg
         ∧ (listDirectory env client rootPath p pageSize true = Rejected msg
            ∨ ∃ resp,
                listDirectory env client rootPath p pageSize true
                  = Resolved resp
                ∧ Listing.code resp ≠ 200%Z
                ∧ msg = "OpenList 列表获取失败")).
Proof.
  induction 1 as [page acc|page acc msg Hp|page acc resp Hp Hc
                 |page acc resp Hp Hc Ht|page acc resp k r Hp Hc Ht Hrun IH];
    intros p Hrange.
  - lia.
  - replace p with page by lia. right. eauto.
  - replace p with page by lia. right. eauto 10.
  - replace p with page by lia. left. eauto.
  - destruct (decide (p = page)) as [->|Hne]; [left; eauto|].
    apply IH. lia.
Qed.

(** What a finished listing has accumulated. *)
Lemma ListRun_folders page acc k r :
  ListRun env client rootPath page acc k r →
  ∀ remoteFolders, r = Ret remoteFolders →
    0 < k
    ∧ remoteFolders
      = acc ++ concat (pageFolders env client rootPath <$> seq page k).
Proof.
  induction 1 as [page acc|page acc msg Hp|page acc resp Hp Hc
                 |page acc resp Hp Hc Ht|page acc resp k r Hp Hc Ht Hrun IH];
    intros fs Hr; simplify_eq.
  - split; [lia|]. cbn. by rewrite app_nil_r.
  - destruct (IH _ eq_refl) as [_ ->]. split; [lia|].
    cbn. by rewrite app_assoc.
Qed.

End ListingFacts.

Section LoopFacts.

Context (env : Collaborators) (taskId tmdbApiKey : string)
  (tmdbProxy : option string) (clearMetaInfo : bool)
  (nameToKey : gmap string string) (total : nat).

Lemma FolderRun_events i folder st st' evs :
  FolderRun env taskId tmdbApiKey tmdbProxy clearMetaInfo nameToKey total
    i folder st st' evs →
  Forall (λ e, isLoopEvent e = true) evs.
Proof.
  destruct 1 as [|????? ? ? ? ? ? Hseason| | |];
    try destruct Hseason; repeat constructor.
Qed.

Lemma LoopRun_events i rest st st' evs :
  LoopRun env taskId tmdbApiKey tmdbProxy clearMetaInfo nameToKey total
    i rest st st' evs →
  Forall (λ e, isLoopEvent e = true) evs.
Proof.
  induction 1; [constructor|].
  apply Forall_app. eauto using FolderRun_events.
Qed.

End LoopFacts.

Section LoopStateFacts.

Context (env : Collaborators) (taskId tmdbApiKey : string)
  (tmdbProxy : option string) (clearMetaInfo : bool)
  (nameToKey : gmap string string) (total : nat).

Local Abbreviation FolderRun := (FolderRun env taskId tmdbApiKey tmdbProxy clearMetaInfo
                         nameToKey total).
Local Abbreviation LoopRun := (LoopRun env taskId tmdbApiKey tmdbProxy clearMetaInfo
                       nameToKey total).

(** The season lookup never turns a match into a failure. *)
Lemma applySeasonDetails_failed season folderInfo :
  failed (applySeasonDetails season folderInfo) = failed folderInfo.
Proof. unfold applySeasonDetails. by repeat case_match. Qed.

Lemma SeasonRun_failed i name result seasonInfo folderInfo folderInfo' evs :
  SeasonRun env tmdbApiKey tmdbProxy i name result seasonInfo folderInfo
    folderInfo' evs →
  failed folderInfo' = failed folderInfo.
Proof. destruct 1; auto using applySeasonDetails_failed. Qed.

(** Exactly one of the three counters goes up by one. *)
Lemma FolderRun_counts i folder st st' evs :
  FolderRun i folder st st' evs →
  (existingCount st' = S (existingCount st)
   ∧ newCount st' = newCount st ∧ errorCount st' = errorCount st
   ∧ skipped clearMetaInfo nameToKey (Listing.name folder) = true)
  ∨ (skipped clearMetaInfo nameToKey (Listing.name folder) = false
     ∧ existingCount st' = existingCount st
     ∧ ((newCount st' = S (newCount st) ∧ errorCount st' = errorCount st)
        ∨ (newCount st' = newCount st
           ∧ errorCount st' = S (errorCount st)))).
Proof. destruct 1; cbn; auto 10. Qed.

Lemma LoopRun_counts i rest st st' evs :
  LoopRun i rest st st' evs →
  newCount st' + existingCount st' + errorCount st'
  = newCount st + existingCount st + errorCount st + List.length rest.
Proof.
  induction 1 as [|i folder rest st st1 st2 evs1 evs2 Hstep _ IH];
    [cbn; lia|].
  apply FolderRun_counts in Hstep. cbn [List.length]. lia.
Qed.

Lemma LoopRun_existing i rest st st' evs :
  LoopRun i rest st st' evs →
  existingCount st'
  = existingCount st
    + List.length
        (filter (λ f, skipped clearMetaInfo nameToKey (Listing.name f) = true)
           rest).
Proof.
  induction 1 as [|i folder rest st st1 st2 evs1 evs2 Hstep _ IH];
    [cbn; lia|].
  rewrite filter_cons.
  apply FolderRun_counts in Hstep as [(? & _ & _ & Hs)|(Hs & ? & _)];
    rewrite Hs; case_decide; try done; cbn [List.length]; lia.
Qed.

(** Calls to the metadata service are only made for folders that are not
    skipped. *)
Lemma FolderRun_api_calls i folder st st' evs e :
  FolderRun i folder st st' evs →
  e ∈ evs →
  (∀ name apiKey query proxy yr,
     e = EvSearchTMDB name apiKey query proxy yr →
     name = Listing.name folder
     ∧ skipped clearMetaInfo nameToKey name = false)
  ∧ (∀ name apiKey id season proxy,
       e = EvGetTVSeasonDetails name apiKey id season proxy →
       name = Listing.name folder
       ∧ skipped clearMetaInfo nameToKey name = false).
Proof.
  destruct 1 as [|????? ? ? ? ? ? Hseason| | |]; try destruct Hseason;
    intros Hin; split_in Hin; subst e;
    unfold progressEvent, searchEvent, seasonEvent;
    split; intros; simplify_eq; by split.
Qed.

Lemma LoopRun_api_calls i rest st st' evs e :
  LoopRun i rest st st' evs →
  e ∈ evs →
  (∀ name apiKey query proxy yr,
     e = EvSearchTMDB name apiKey query proxy yr →
     skipped clearMetaInfo nameToKey name = false)
  ∧ (∀ name apiKey id season proxy,
       e = EvGetTVSeasonDetails name apiKey id season proxy →
       skipped clearMetaInfo nameToKey name = false).
Proof.
  induction 1 as [|i folder rest st st1 st2 evs1 evs2 Hstep _ IH];
    intros Hin; [by split_in Hin|].
  apply elem_of_app in Hin as [Hin|Hin]; [|auto].
  destruct (FolderRun_api_calls _ _ _ _ _ _ Hstep Hin) as [Hs Ht].
  split; intros; [eapply Hs | eapply Ht]; eauto.
Qed.

(** The entry a run writes, if any, is under a key that was not in
    [existingKeys]; so with a key generator that avoids the keys it is
    given, no earlier entry is overwritten. *)
Lemma FolderRun_keeps i folder st st' evs :
  (∀ name keys, generateFolderKey env name keys ∉ keys) →
  FolderRun i folder st st' evs →
  dom (folders (metaInfo st)) ⊆ existingKeys st →
  dom (folders (metaInfo st')) ⊆ existingKeys st'
  ∧ ∀ key folderInfo,
      folders (metaInfo st) !! key = Some folderInfo →
      folders (metaInfo st') !! key = Some folderInfo.
Proof.
  intros Hfresh Hrun Hdom.
  assert (Hnew : ∀ name key folderInfo,
            folders (metaInfo st) !! key = Some folderInfo →
            generateFolderKey env name (existingKeys st) ≠ key).
  { intros name key folderInfo Hkey <-.
    apply (Hfresh name (existingKeys st)), Hdom, elem_of_dom. eauto. }
  destruct Hrun; unfold failedState;
    cbn [metaInfo existingKeys folders count_existing count_new count_error
         set_folder add_key];
    (split; [try done; rewrite dom_insert_L; by apply union_mono_l|]);
    intros key folderInfo' Hkey; try done;
    rewrite lookup_insert_ne; eauto.
Qed.

Lemma LoopRun_keeps i rest st st' evs :
  (∀ name keys, generateFolderKey env name keys ∉ keys) →
  LoopRun i rest st st' evs →
  dom (folders (metaInfo st)) ⊆ existingKeys st →
  ∀ key folderInfo,
    folders (metaInfo st) !! key = Some folderInfo →
    folders (metaInfo st') !! key = Some folderInfo.
Proof.
  intros Hfresh.
  induction 1 as [|i folder rest st st1 st2 evs1 evs2 Hstep _ IH];
    intros Hdom key folderInfo Hkey; [done|].
  destruct (FolderRun_keeps _ _ _ _ _ Hfresh Hstep Hdom) as [Hdom1 Hkeep].
  eauto.
Qed.

(** Whatever a run writes satisfies the invariant of the data model. *)
Lemma FolderRun_invariant i folder st st' evs :
  FolderRun i folder st st' evs →
  ∀ key folderInfo,
    folders (metaInfo st') !! key = Some folderInfo →
    folders (metaInfo st) !! key = Some folderInfo
    ∨ placeholderInvariant folderInfo.
Proof.
  destruct 1 as [|????? ? ? ? ? ? Hseason| | |]; unfold failedState;
    cbn [metaInfo folders count_existing count_new count_error set_folder
         add_key];
    intros key info Hkey; auto;
    (apply lookup_insert_Some in Hkey as [[_ <-]|[_ Hkey]]; [right|by left]);
    try (by intros _).
  apply SeasonRun_failed in Hseason. intros Hfailed.
  by rewrite Hseason in Hfailed.
Qed.

Lemma LoopRun_invariant i rest st st' evs :
  LoopRun i rest st st' evs →
  ∀ key folderInfo,
    folders (metaInfo st') !! key = Some folderInfo →
    folders (metaInfo st) !! key = Some folderInfo
    ∨ placeholderInvariant folderInfo.
Proof.
  induction 1 as [|i folder rest st st1 st2 evs1 evs2 Hstep _ IH];
    intros key info Hkey; [by left|].
  destruct (IH _ _ Hkey) as [Hkey1|?]; [|by right].
  eapply FolderRun_invariant; eauto.
Qed.

End LoopStateFacts.

(** ** The reverse index *)

Lemma has_insert (m : gmap string string) a b n :
  has (<[a := b]> m) n = true ↔ a = n ∨ has m n = true.
Proof.
  unfold has. destruct (decide (a = n)) as [->|Hne].
  - rewrite lookup_insert_eq. split; auto.
  - rewrite lookup_insert_ne by done. split; [auto|]. by intros [?|?].
Qed.

Lemma has_foldl (l : list (string * FolderInfo)) : ∀ acc n,
  has (foldl (λ acc entry, <[folderName entry.2 := entry.1]> acc) acc l) n
    = true
  ↔ has acc n = true ∨ ∃ key folderInfo,
      (key, folderInfo) ∈ l ∧ folderName folderInfo = n.
Proof.
  induction l as [|[key info] l IH]; intros acc n; cbn [foldl].
  - split; [auto|]. intros [?|(? & ? & Hin & _)]; [done|by split_in Hin].
  - rewrite IH, has_insert. cbn [fst snd]. split.
    + intros [[<-|?]|(k & fi & Hin & <-)]; [right|by left|right].
      * exists key, info. split; [left|done].
      * exists k, fi. split; [by right|done].
    + intros [?|(k & fi & Hin & <-)]; [by left; right|].
      apply elem_of_cons in Hin as [[= -> ->]|Hin]; [by left; left|].
      right. eauto.
Qed.

(** [folderNameToKey.has(name)] holds exactly for the names of the entries
    of the loaded MetaInfo. *)
Lemma has_folderNameToKey (m : MetaInfo) n :
  has (folderNameToKey m) n = true
  ↔ ∃ key folderInfo,
      folders m !! key = Some folderInfo ∧ folderName folderInfo = n.
Proof.
  unfold folderNameToKey. rewrite has_foldl. unfold has at 1.
  rewrite lookup_empty. split.
  - intros [?|(k & fi & Hin & <-)]; [done|].
    apply elem_of_map_to_list in Hin. eauto.
  - intros (k & fi & Hin & <-). right. exists k, fi.
    by rewrite elem_of_map_to_list.
Qed.

Section ScanFacts.

Context (env : Collaborators) (fuel : nat) (taskId url rootPath : string)
  (tmdbApiKey : string) (tmdbProxy : option string)
  (username password : string) (clearMetaInfo : bool).

Lemma elem_of_listingEvents e k :
  e ∈ listingEvents taskId rootPath clearMetaInfo k →
  e = EvUpdateScanTaskProgress taskId 0 0 None
  ∨ e = EvGetGlobalValue "video.metainfo"
  ∨ e = EvInvalidateMetaInfoCache rootPath
  ∨ ∃ p, e = EvListDirectory rootPath p pageSize true ∧ 1 ≤ p < 1 + k.
Proof.
  unfold listingEvents, loadEvents.
  rewrite elem_of_cons, elem_of_app, elem_of_cons, list_elem_of_fmap.
  intros [->|[Hload|[->|(p & -> & Hp)]]]; auto.
  - destruct clearMetaInfo; [by apply elem_of_nil in Hload|].
    apply list_elem_of_singleton in Hload. auto.
  - apply elem_of_seq in Hp. eauto 10.
Qed.

Lemma ScanRun_new_events w r w' :
  ScanRun env fuel taskId url rootPath tmdbApiKey tmdbProxy username password
    clearMetaInfo w r w' →
  ∃ k rest,
    new_events w w' = listingEvents taskId rootPath clearMetaInfo k ++ rest.
Proof.
  destruct 1 as [k ?|k msg ?|metaInfo k fs st evs pevs msg w2 ? ? ? ? ? Htr ?
                |metaInfo k fs st evs pevs w2 ? ? ? ? ? Htr ? ? ?].
  - exists k, []. rewrite app_nil_r. by apply new_events_app.
  - exists k, [EvFailScanTask taskId msg]. by apply new_events_app.
  - eexists k, _. apply new_events_app. cbn [trace log]. rewrite Htr.
    by rewrite <- !app_assoc.
  - eexists k, _. by apply new_events_app.
Qed.

(** A scan that has fetched a page answering with a code other than 200
    stops right there: the listing error is reported to the task tracker
    and thrown, and the cache entry of the root is all that has changed. *)
Lemma listing_abort w r w' p resp :
  performScan env fuel taskId url rootPath tmdbApiKey tmdbProxy username
    password clearMetaInfo w = (r, w') →
  EvListDirectory rootPath p pageSize true ∈ new_events w w' →
  listDirectory env (scanClient url username password) rootPath p pageSize
    true = Resolved resp →
  Listing.code resp ≠ 200%Z →
  ∃ k,
    r = Throw "OpenList 列表获取失败"
    ∧ w' = listingWorld rootPath w
             (listingEvents taskId rootPath clearMetaInfo k
              ++ [EvFailScanTask taskId "OpenList 列表获取失败"]).
Proof.
  intros Hscan Hin Hpage Hcode.
  pose proof (performScan_run env fuel taskId url rootPath tmdbApiKey
                tmdbProxy username password clearMetaInfo w) as Hrun.
  rewrite Hscan in Hrun. cbn [fst snd] in Hrun.
  assert (Hpages : ∀ k r0,
    ListRun env (scanClient url username password) rootPath 1 [] k r0 →
    EvListDirectory rootPath p pageSize true
      ∈ listingEvents taskId rootPath clearMetaInfo k →
    r0 = Throw "OpenList 列表获取失败").
  { intros k r0 Hlist Hev.
    apply elem_of_listingEvents in Hev
      as [?|[?|[?|(q & [= ->] & Hq)]]]; try done.
    destruct (ListRun_pages _ _ _ _ _ _ _ Hlist q) as
      [(resp' & Hp' & Hc')|(msg & -> & [Hp'|(resp' & Hp' & Hc' & ->)])];
      [lia|..]; congruence. }
  destruct Hrun as [k Hlist|k msg Hlist
                   |metaInfo k fs st evs pevs msg w2 _ _ Hlist Hloop _ Htr Hpevs
                   |metaInfo k fs st evs pevs w2 _ _ Hlist Hloop _ Htr Hpevs _ _].
  - rewrite new_events_app with (evs := listingEvents taskId rootPath clearMetaInfo k) in Hin by done.
    by specialize (Hpages _ _ Hlist Hin).
  - erewrite new_events_app in Hin by done.
    apply elem_of_app in Hin as [Hin|Hin].
    + specialize (Hpages _ _ Hlist Hin) as [= ->]. eauto.
    + by split_in Hin.
  - exfalso. erewrite new_events_app in Hin; cycle 1.
    { cbn [trace log]. rewrite Htr. by rewrite <- !app_assoc. }
    apply LoopRun_events in Hloop.
    split_in Hin; try done.
    + by specialize (Hpages _ _ Hlist Hin).
    + rewrite Forall_forall in Hloop. by specialize (Hloop _ Hin).
    + rewrite Forall_forall in Hpevs. by specialize (Hpevs _ Hin).
  - exfalso. erewrite new_events_app in Hin by done.
    apply LoopRun_events in Hloop.
    split_in Hin; try done.
    + by specialize (Hpages _ _ Hlist Hin).
    + rewrite Forall_forall in Hloop. by specialize (Hloop _ Hin).
    + rewrite Forall_forall in Hpevs. by specialize (Hpevs _ Hin).
Qed.

End ScanFacts.

(** ** Completed scans *)

Section CompletedScans.

Context (env : Collaborators) (fuel : nat) (taskId url rootPath : string)
  (tmdbApiKey : string) (tmdbProxy : option string)
  (username password : string) (clearMetaInfo : bool).

(** What a scan that returned normally has gone through. *)
Lemma completed_scan w w' :
  performScan env fuel taskId url rootPath tmdbApiKey tmdbProxy username
    password clearMetaInfo w = (Ret tt, w') →
  ∃ metaInfo k remoteFolders st evs pevs,
    (loadMetaInfo env clearMetaInfo w).1 = Ret metaInfo
    ∧ (listLoop env fuel (scanClient url username password) rootPath 1 [] w).1
      = Ret remoteFolders
    ∧ ListRun env (scanClient url username password) rootPath 1 [] k
        (Ret remoteFolders)
    ∧ LoopRun env taskId tmdbApiKey tmdbProxy clearMetaInfo
        (folderNameToKey metaInfo) (List.length remoteFolders) 0
        remoteFolders (initialState metaInfo) st evs
    ∧ new_events w w' =
        listingEvents taskId rootPath clearMetaInfo k
        ++ EvUpdateScanTaskProgress taskId 0 (List.length remoteFolders) None
        :: evs
        ++ pevs
        ++ [EvCompleteScanTask taskId (List.length remoteFolders)
              (newCount st) (existingCount st) (errorCount st)]
    ∧ Forall (λ e, isPersistEvent e = true) pevs
    ∧ store w' =
        <["video.metainfo" := JSON_stringify env (finalMetaInfo env st)]>
          (store w)
    ∧ cache w' = <[rootPath := finalMetaInfo env st]>
                   (delete rootPath (cache w)).
Proof.
  intros Hscan.
  pose proof (performScan_run env fuel taskId url rootPath tmdbApiKey
                tmdbProxy username password clearMetaInfo w) as Hrun.
  rewrite Hscan in Hrun. cbn [fst snd] in Hrun.
  inversion Hrun as [| | |metaInfo k fs st evs pevs w2 ? ? ? ? ? Htr]; subst.
  exists metaInfo, k, fs, st, evs, pevs.
  repeat (split; [done|]). split; [|done].
  by apply new_events_app.
Qed.

Lemma last_new_events w w' evs e :
  new_events w w' = evs ++ [e] → last (trace w') = Some e.
Proof.
  unfold new_events. intros Hnew.
  rewrite <- (take_drop (List.length (trace w)) (trace w')), Hnew.
  by rewrite app_assoc, last_snoc.
Qed.

End CompletedScans.

Section ProgressFacts.

Context (env : Collaborators) (taskId tmdbApiKey : string)
  (tmdbProxy : option string) (clearMetaInfo : bool)
  (nameToKey : gmap string string) (total : nat).

(** An iteration starts with the progress report; all its other calls
    belong to the resolution of the folder. *)
Lemma FolderRun_report_first i folder st st' evs :
  FolderRun env taskId tmdbApiKey tmdbProxy clearMetaInfo nameToKey total
    i folder st st' evs →
  ∃ handling,
    evs = EvUpdateScanTaskProgress taskId (i + 1) total
            (Some (Listing.name folder)) :: handling
    ∧ Forall (λ e, isHandlingEvent e = true) handling.
Proof.
  destruct 1 as [|????? ? ? ? ? ? Hseason| | |]; try destruct Hseason;
    eexists; (split; [reflexivity|]); repeat constructor.
Qed.

Lemma LoopRun_report_first i rest st st' evs :
  LoopRun env taskId tmdbApiKey tmdbProxy clearMetaInfo nameToKey total
    i rest st st' evs →
  ∃ hs,
    evs = reportThenHandle taskId total i rest hs
    ∧ List.length hs = List.length rest
    ∧ Forall (Forall (λ e, isHandlingEvent e = true)) hs.
Proof.
  induction 1 as [|i folder rest st st1 st2 evs1 evs2 Hstep _ IH].
  - by exists [].
  - destruct (FolderRun_report_first _ _ _ _ _ Hstep) as (h & -> & Hh).
    destruct IH as (hs & -> & Hlen & Hhs).
    exists (h :: hs). cbn [reportThenHandle List.length app].
    split; [done|]. split; [by rewrite Hlen|by constructor].
Qed.

(** A resolution in which neither the parser nor the search throws ends
    with the timer; one in which either throws makes no further call. *)
Lemma FolderRun_delay i folder st st' evs :
  FolderRun env taskId tmdbApiKey tmdbProxy clearMetaInfo nameToKey total
    i folder st st' evs →
  ∀ seasonInfo resp,
    skipped clearMetaInfo nameToKey (Listing.name folder) = false →
    parseSeasonFromTitle env (Listing.name folder) = Resolved seasonInfo →
    searchTMDB env i tmdbApiKey
      (js_or (Some (cleanTitle seasonInfo)) (Listing.name folder))
      tmdbProxy (num_or_undefined (year seasonInfo)) = Resolved resp →
    ∃ calls,
      evs = calls ++ [EvDelay 300] ∧ ∀ ms, EvDelay ms ∉ calls.
Proof.
  destruct 1 as [|si ???? ? ? ? ? ? Hseason|si ?|?|si ?];
    intros seasonInfo resp' Hskip Hparse Hsearch; try congruence.
  - destruct Hseason.
    + eexists [_; _]. split; [done|]. intros ms Hin. by split_in Hin.
    + eexists [_; _; _]. split; [done|]. intros ms Hin. by split_in Hin.
    + eexists [_; _; _]. split; [done|]. intros ms Hin. by split_in Hin.
    + eexists [_; _; _]. split; [done|]. intros ms Hin. by split_in Hin.
  - eexists [_; _]. split; [done|]. intros ms Hin. by split_in Hin.
Qed.

End ProgressFacts.

(** ** Season details *)

Lemma applySeasonDetails_fields season folderInfo :
  let folderInfo' := applySeasonDetails season folderInfo in
  season_number folderInfo' = Some (Season.season_number season)
  ∧ season_name folderInfo' = Some (Season.name season)
  ∧ title folderInfo'
    = (if (1 <? Season.season_number season)%Z
       then title folderInfo +:+ " " +:+ Season.name season
       else title folderInfo)
  ∧ poster_path folderInfo'
    = (if truthy (Season.poster_path season)
       then Season.poster_path season else poster_path folderInfo)
  ∧ overview folderInfo'
    = (if truthy (Season.overview season)
       then default "" (Season.overview season) else overview folderInfo)
  ∧ release_date folderInfo'
    = (if truthy (Season.air_date season)
       then default "" (Season.air_date season)
       else release_date folderInfo).
Proof. unfold applySeasonDetails. by repeat case_match. Qed.

(** * The properties of the refresh *)

(** ** Listing failures *)

(** C1.  If a page fetched by the scan answers with a code other than 200,
    the scan aborts with the listing error, the task is marked failed with
    that message as the last call of the scan, [db.setGlobalValue] is never
    called, and the store is exactly what it was before the scan. *)
Theorem listing_failure_writes_nothing
    env fuel taskId url rootPath tmdbApiKey tmdbProxy username password
    clearMetaInfo w r w' page resp :
  performScan env fuel taskId url rootPath tmdbApiKey tmdbProxy username
    password clearMetaInfo w = (r, w') →
  EvListDirectory rootPath page pageSize true ∈ new_events w w' →
  listDirectory env (scanClient url username password) rootPath page
    pageSize true = Resolved resp →
  Listing.code resp ≠ 200%Z →
  r = Throw "OpenList 列表获取失败"
  ∧ last (trace w') = Some (EvFailScanTask taskId "OpenList 列表获取失败")
  ∧ (∀ key value, EvSetGlobalValue key value ∉ new_events w w')
  ∧ store w' = store w.
Proof.
  intros Hscan Hin Hpage Hcode.
  destruct (listing_abort _ _ _ _ _ _ _ _ _ _ _ _ _ _ _ Hscan Hin Hpage Hcode)
    as (k & -> & ->).
  split; [done|]. split; [|split; [|done]].
  - cbn [trace listingWorld]. by rewrite !app_assoc, last_snoc.
  - intros key value Hset.
    erewrite new_events_app in Hset by done.
    apply elem_of_app in Hset as [Hset|Hset]; [|by split_in Hset].
    apply elem_of_listingEvents in Hset as [?|[?|[?|(? & ? & _)]]]; done.
Qed.

Lemma listing_failure_writes_nothing_witness :
  (Demo.scan Demo.envListingDown false Demo.worldWithShow).1
    = Throw "OpenList 列表获取失败"
  ∧ last (trace (Demo.scan Demo.envListingDown false Demo.worldWithShow).2)
    = Some (EvFailScanTask "task-1" "OpenList 列表获取失败")
  ∧ (∀ key value,
       EvSetGlobalValue key value
         ∉ new_events Demo.worldWithShow
             (Demo.scan Demo.envListingDown false Demo.worldWithShow).2)
  ∧ store (Demo.scan Demo.envListingDown false Demo.worldWithShow).2
    = store Demo.worldWithShow.
Proof.
  apply (listing_failure_writes_nothing Demo.envListingDown 5 "task-1"
           "http://openlist.local" "/" "tmdb-key" None "admin" "secret" false
           Demo.worldWithShow _ _ 1
           {| Listing.code := 500; Listing.total := 0;
              Listing.content := [] |}).
  - apply surjective_pairing.
  - vm_compute. repeat constructor.
  - reflexivity.
  - discriminate.
Defined.

(** C10.  The cache entry of the scanned root is invalidated at scan start,
    before any listing page is fetched; so after a scan that aborts on a
    page with a code other than 200 the entry is gone and has not been
    stored again, although the store is unchanged. *)
Theorem cache_invalidated_before_listing
    env fuel taskId url rootPath tmdbApiKey tmdbProxy username password
    clearMetaInfo w r w' :
  performScan env fuel taskId url rootPath tmdbApiKey tmdbProxy username
    password clearMetaInfo w = (r, w') →
  (∃ before after,
     new_events w w' = before ++ EvInvalidateMetaInfoCache rootPath :: after
     ∧ ∀ path page perPage refresh,
         EvListDirectory path page perPage refresh ∉ before)
  ∧ ∀ page resp,
      EvListDirectory rootPath page pageSize true ∈ new_events w w' →
      listDirectory env (scanClient url username password) rootPath page
        pageSize true = Resolved resp →
      Listing.code resp ≠ 200%Z →
      cache w' = delete rootPath (cache w)
      ∧ cache w' !! rootPath = None
      ∧ (∀ m, EvSetCachedMetaInfo rootPath m ∉ new_events w w')
      ∧ store w' = store w.
Proof.
  intros Hscan. split.
  - pose proof (performScan_run env fuel taskId url rootPath tmdbApiKey
                  tmdbProxy username password clearMetaInfo w) as Hrun.
    rewrite Hscan in Hrun. cbn [fst snd] in Hrun.
    apply ScanRun_new_events in Hrun as (k & rest & ->).
    exists (EvUpdateScanTaskProgress taskId 0 0 None
            :: loadEvents clearMetaInfo),
           ((listEvent rootPath <$> seq 1 k) ++ rest).
    split.
    + unfold listingEvents. cbn [app]. by rewrite <- app_assoc.
    + intros path page perPage refresh Hin. unfold loadEvents in Hin.
      destruct clearMetaInfo; by split_in Hin.
  - intros page resp Hin Hpage Hcode.
    destruct (listing_abort _ _ _ _ _ _ _ _ _ _ _ _ _ _ _ Hscan Hin Hpage
                Hcode) as (k & -> & ->).
    split; [done|]. split; [|split; [|done]].
    + cbn [cache listingWorld]. apply lookup_delete_eq.
    + intros m Hset.
      erewrite new_events_app in Hset by done.
      apply elem_of_app in Hset as [Hset|Hset]; [|by split_in Hset].
      apply elem_of_listingEvents in Hset as [?|[?|[?|(? & ? & _)]]]; done.
Qed.

Lemma cache_invalidated_before_listing_witness :
  new_events Demo.worldWithShow
    (Demo.scan Demo.envListingDown false Demo.worldWithShow).2
  = [EvUpdateScanTaskProgress "task-1" 0 0 None;
     EvGetGlobalValue "video.metainfo"]
    ++ EvInvalidateMetaInfoCache "/"
    :: [EvListDirectory "/" 1 100 true;
        EvFailScanTask "task-1" "OpenList 列表获取失败"]
  ∧ Demo.worldWithShow.(cache) !! "/" = Some Demo.storedMetaInfo
  ∧ cache (Demo.scan Demo.envListingDown false Demo.worldWithShow).2 !! "/"
    = None
  ∧ store (Demo.scan Demo.envListingDown false Demo.worldWithShow).2
    = store Demo.worldWithShow.
Proof.
  destruct (cache_invalidated_before_listing Demo.envListingDown 5 "task-1"
              "http://openlist.local" "/" "tmdb-key" None "admin" "secret"
              false Demo.worldWithShow _ _ (surjective_pairing _))
    as [_ Habort].
  destruct (Habort 1 {| Listing.code := 500; Listing.total := 0;
                        Listing.content := [] |})
    as (_ & Hgone & _ & Hstore).
  - vm_compute. repeat constructor.
  - reflexivity.
  - discriminate.
  - refine (conj _ (conj _ (conj Hgone Hstore))); by vm_compute.
Defined.

(** ** Counting *)

(** The counter one iteration increments is the one its folder goes to. *)
Lemma FolderRun_counter
    env taskId tmdbApiKey tmdbProxy clearMetaInfo nameToKey total i folder
    st st' evs :
  FolderRun env taskId tmdbApiKey tmdbProxy clearMetaInfo nameToKey total
    i folder st st' evs →
  match counterOf env tmdbApiKey tmdbProxy clearMetaInfo nameToKey i
          (Listing.name folder) with
  | Existing =>
      existingCount st' = S (existingCount st)
      ∧ newCount st' = newCount st ∧ errorCount st' = errorCount st
  | New =>
      existingCount st' = existingCount st
      ∧ newCount st' = S (newCount st) ∧ errorCount st' = errorCount st
  | Errors =>
      existingCount st' = existingCount st
      ∧ newCount st' = newCount st ∧ errorCount st' = S (errorCount st)
  end.
Proof.
  destruct 1 as [Hs|si resp result info sevs Hs Hp Hq Hc Hr _
                |si resp Hs Hp Hq Hbad|msg Hs Hp|si msg Hs Hp Hq];
    unfold counterOf, resolves; rewrite Hs, ?Hp, ?Hq; try done.
  - by rewrite Hc, Hr.
  - destruct Hbad as [Hc|Hr].
    + apply Z.eqb_neq in Hc. by rewrite Hc.
    + rewrite Hr. by destruct (Search.code resp =? 200)%Z.
Qed.

(** The counters after the loop are the numbers of folders that go to
    each of them. *)
Lemma LoopRun_counted
    env taskId tmdbApiKey tmdbProxy clearMetaInfo nameToKey total i rest
    st st' evs :
  LoopRun env taskId tmdbApiKey tmdbProxy clearMetaInfo nameToKey total
    i rest st st' evs →
  existingCount st'
  = existingCount st
    + counted env tmdbApiKey tmdbProxy clearMetaInfo nameToKey Existing i
        rest
  ∧ newCount st'
    = newCount st
      + counted env tmdbApiKey tmdbProxy clearMetaInfo nameToKey New i rest
  ∧ errorCount st'
    = errorCount st
      + counted env tmdbApiKey tmdbProxy clearMetaInfo nameToKey Errors i
          rest.
Proof.
  induction 1 as [|i folder rest st st1 st2 evs1 evs2 Hstep _ IH];
    [cbn; lia|].
  apply FolderRun_counter in Hstep. cbn [counted].
  destruct (counterOf _ _ _ _ _ _ _); cbn [sameCounter]; lia.
Qed.

(** A folder goes to the error counter exactly when its resolution
    fails. *)
Lemma resolves_false env tmdbApiKey tmdbProxy i name :
  resolves env tmdbApiKey tmdbProxy i name = false
  ↔ resolutionFails env tmdbApiKey tmdbProxy i name.
Proof.
  unfold resolves, resolutionFails.
  destruct (parseSeasonFromTitle env name) as [si|msg]; cycle 1.
  { split; [eauto|done]. }
  destruct (searchTMDB env i tmdbApiKey _ tmdbProxy _) as [resp|msg] eqn:Hq;
    cycle 1.
  { split; [|done]. intros _. right. exists si. split; [done|].
    left. exists msg. by rewrite Hq. }
  destruct (Search.code resp =? 200)%Z eqn:Hc;
    [apply Z.eqb_eq in Hc|apply Z.eqb_neq in Hc].
  - destruct (Search.result resp) as [result|] eqn:Hr.
    + split; [done|].
      intros [[? ?]|(si' & [= <-] & [[msg Hq']|(resp' & Hq' & Hbad)])];
        try done; rewrite Hq in Hq'; try done.
      injection Hq' as <-. destruct Hbad; congruence.
    + split; [|done]. intros _. right. exists si. split; [done|].
      right. exists resp. rewrite Hq. auto.
  - split; [|done]. intros _. right. exists si. split; [done|].
    right. exists resp. rewrite Hq. auto.
Qed.

(** C9.  A scan that completes reports counts with
    [total = new + existing + errors], where [total] is the number of
    directories accumulated over the pages [1..k] the listing fetched.
    Every folder is counted exactly once, and where the claim says: the
    count of existing folders is the number of folders skipped, the count
    of errors the number of folders, among the others, whose resolution
    fails, and the count of new folders the number of those resolved;
    each iteration of the loop increments, by one, the counter its folder
    goes to and leaves the other two alone. *)
Theorem completed_scan_counts
    env fuel taskId url rootPath tmdbApiKey tmdbProxy username password
    clearMetaInfo w w' :
  performScan env fuel taskId url rootPath tmdbApiKey tmdbProxy username
    password clearMetaInfo w = (Ret tt, w') →
  (∃ loaded remoteFolders k new existing errors,
     (loadMetaInfo env clearMetaInfo w).1 = Ret loaded
     ∧ (listLoop env fuel (scanClient url username password) rootPath 1 []
          w).1
       = Ret remoteFolders
     ∧ remoteFolders
       = concat (pageFolders env (scanClient url username password) rootPath
                   <$> seq 1 k)
     ∧ (∀ page, EvListDirectory rootPath page pageSize true ∈ new_events w w'
                ↔ 1 ≤ page ≤ k)
     ∧ last (trace w')
       = Some (EvCompleteScanTask taskId (List.length remoteFolders)
                 new existing errors)
     ∧ List.length remoteFolders = new + existing + errors
     ∧ existing
       = counted env tmdbApiKey tmdbProxy clearMetaInfo
           (folderNameToKey loaded) Existing 0 remoteFolders
     ∧ new
       = counted env tmdbApiKey tmdbProxy clearMetaInfo
           (folderNameToKey loaded) New 0 remoteFolders
     ∧ errors
       = counted env tmdbApiKey tmdbProxy clearMetaInfo
           (folderNameToKey loaded) Errors 0 remoteFolders)
  ∧ (∀ nameToKey total i folder st w0,
       ∃ st',
         (processFolder env taskId tmdbApiKey tmdbProxy clearMetaInfo
            nameToKey total i folder st w0).1 = Ret st'
         ∧ match counterOf env tmdbApiKey tmdbProxy clearMetaInfo nameToKey
                   i (Listing.name folder) with
           | Existing =>
               existingCount st' = S (existingCount st)
               ∧ newCount st' = newCount st
               ∧ errorCount st' = errorCount st
           | New =>
               existingCount st' = existingCount st
               ∧ newCount st' = S (newCount st)
               ∧ errorCount st' = errorCount st
           | Errors =>
               existingCount st' = existingCount st
               ∧ newCount st' = newCount st
               ∧ errorCount st' = S (errorCount st)
           end)
  ∧ ∀ nameToKey i name,
      (counterOf env tmdbApiKey tmdbProxy clearMetaInfo nameToKey i name
       = Existing
       ↔ skipped clearMetaInfo nameToKey name = true)
      ∧ (counterOf env tmdbApiKey tmdbProxy clearMetaInfo nameToKey i name
         = Errors
         ↔ skipped clearMetaInfo nameToKey name = false
           ∧ resolutionFails env tmdbApiKey tmdbProxy i name)
      ∧ (counterOf env tmdbApiKey tmdbProxy clearMetaInfo nameToKey i name
         = New
         ↔ skipped clearMetaInfo nameToKey name = false
           ∧ ¬ resolutionFails env tmdbApiKey tmdbProxy i name).
Proof.
  intros Hscan. split; [|split].
  - destruct (completed_scan _ _ _ _ _ _ _ _ _ _ _ _ Hscan)
      as (metaInfo & k & fs & st & evs & pevs & Hload & Hlisted & Hlist
          & Hloop & Hnew & Hpevs & _).
    exists metaInfo, fs, k, (newCount st), (existingCount st),
      (errorCount st).
    destruct (ListRun_folders _ _ _ _ _ _ _ Hlist _ eq_refl) as [_ Hfs].
    split; [done|]. split; [done|]. split; [done|].
    split; [|split; [|split]].
    + intros page. rewrite Hnew. split.
      * intros Hin. apply LoopRun_events in Hloop.
        rewrite Forall_forall in Hloop, Hpevs.
        split_in Hin; try done.
        -- apply elem_of_listingEvents in Hin
             as [?|[?|[?|(q & [= ->] & ?)]]]; try done. lia.
        -- by specialize (Hloop _ Hin).
        -- by specialize (Hpevs _ Hin).
      * intros Hpage. apply elem_of_app. left. unfold listingEvents.
        apply elem_of_cons. right. apply elem_of_app. right.
        apply elem_of_cons. right. apply list_elem_of_fmap.
        exists page. split; [done|]. apply elem_of_seq. lia.
    + eapply last_new_events. rewrite Hnew.
      rewrite app_comm_cons, !app_assoc. reflexivity.
    + apply LoopRun_counts in Hloop. cbn in Hloop. lia.
    + apply LoopRun_counted in Hloop.
      cbn [existingCount newCount errorCount initialState] in Hloop.
      destruct Hloop as (Hx & Hn & He). rewrite Hx, Hn, He. done.
  - intros nameToKey total i folder st w0.
    destruct (processFolder_run env taskId tmdbApiKey tmdbProxy clearMetaInfo
                nameToKey total i folder st w0) as (st' & evs & -> & Hrun).
    exists st'. split; [done|]. by apply FolderRun_counter in Hrun.
  - intros nameToKey i name. unfold counterOf.
    pose proof (resolves_false env tmdbApiKey tmdbProxy i name) as Hfails.
    destruct (skipped clearMetaInfo nameToKey name);
      [by repeat split; try done; intros [? _]|].
    destruct (resolves env tmdbApiKey tmdbProxy i name).
    + repeat split; try done.
      * intros [_ Hf]. apply Hfails in Hf. done.
      * intros Hf. apply Hfails in Hf. done.
    + repeat split; try done.
      * by apply Hfails.
      * intros [_ Hnot]. destruct Hnot. by apply Hfails.
Qed.

Lemma completed_scan_counts_witness :
  last (trace (Demo.scan Demo.envSearchThrows false Demo.worldWithShow).2)
  = Some (EvCompleteScanTask "task-1" 2 0 1 1).
Proof.
  destruct (completed_scan_counts Demo.envSearchThrows 5 "task-1"
              "http://openlist.local" "/" "tmdb-key" None "admin" "secret"
              false Demo.worldWithShow
              (Demo.scan Demo.envSearchThrows false Demo.worldWithShow).2)
    as [(loaded & fs & k & new & existing & errors & Hload & Hfs & _ & _
         & Hlast & _ & Hexisting & Hnew & Herrors) _].
  - by vm_compute.
  - vm_compute in Hload. injection Hload as <-.
    vm_compute in Hfs. injection Hfs as <-.
    rewrite Hlast, Hexisting, Hnew, Herrors. by vm_compute.
Defined.

(** ** Failed resolutions *)

(** A folder whose resolution fails is given the bare placeholder. *)
Lemma failed_resolution_writes_placeholder
    env taskId tmdbApiKey tmdbProxy clearMetaInfo nameToKey total i folder
    st w :
  skipped clearMetaInfo nameToKey (Listing.name folder) = false →
  resolutionFails env tmdbApiKey tmdbProxy i (Listing.name folder) →
  ∃ st' evs,
    processFolder env taskId tmdbApiKey tmdbProxy clearMetaInfo nameToKey
      total i folder st w = (Ret st', log evs w)
    ∧ st' = failedState env i (Listing.name folder) st.
Proof.
  intros Hskip Hfails.
  destruct (processFolder_run env taskId tmdbApiKey tmdbProxy clearMetaInfo
              nameToKey total i folder st w) as (st' & evs & Hrun & Hcase).
  exists st', evs. split; [done|].
  destruct Hfails as [[msg Hp]|(si & Hp & [[msg Hs]|(resp & Hs & Hbad)])];
    destruct Hcase; try done; try congruence.
  all: assert (seasonInfo = si) as -> by congruence.
  all: assert (resp0 = resp) as -> by congruence.
  all: destruct Hbad; congruence.
Qed.

(** C3.  Every entry the scan writes with [failed = true] has
    [tmdb_id = 0] and [overview = '']: a folder whose resolution fails
    (the parser or the search throws, the search is unsuccessful or has no
    result) gets an entry with [failed = true], [tmdb_id = 0] and
    [overview = ''], and every entry of the MetaInfo a completed scan
    stores is either an entry of the loaded MetaInfo, untouched, or
    satisfies the invariant. *)
Theorem failed_entries_are_placeholders
    env fuel taskId url rootPath tmdbApiKey tmdbProxy username password
    clearMetaInfo w w' :
  performScan env fuel taskId url rootPath tmdbApiKey tmdbProxy username
    password clearMetaInfo w = (Ret tt, w') →
  (∃ loaded stored,
     (loadMetaInfo env clearMetaInfo w).1 = Ret loaded
     ∧ store w' !! "video.metainfo" = Some (JSON_stringify env stored)
     ∧ cache w' !! rootPath = Some stored
     ∧ ∀ key folderInfo,
         folders stored !! key = Some folderInfo →
         folders loaded !! key = Some folderInfo
         ∨ placeholderInvariant folderInfo)
  ∧ ∀ nameToKey total i folder st w0,
      skipped clearMetaInfo nameToKey (Listing.name folder) = false →
      resolutionFails env tmdbApiKey tmdbProxy i (Listing.name folder) →
      ∃ st' folderInfo,
        (processFolder env taskId tmdbApiKey tmdbProxy clearMetaInfo nameToKey
           total i folder st w0).1 = Ret st'
        ∧ folders (metaInfo st')
            !! generateFolderKey env (Listing.name folder) (existingKeys st)
          = Some folderInfo
        ∧ failed folderInfo = true
        ∧ tmdb_id folderInfo = 0%Z
        ∧ overview folderInfo = ""
        ∧ errorCount st' = S (errorCount st).
Proof.
  intros Hscan. split.
  - destruct (completed_scan _ _ _ _ _ _ _ _ _ _ _ _ Hscan)
      as (loaded & k & fs & st & evs & pevs & Hload & _ & _ & Hloop
          & _ & _ & Hstore & Hcache).
    exists loaded, (finalMetaInfo env st).
    split; [done|]. split; [|split].
    + rewrite Hstore. apply lookup_insert_eq.
    + rewrite Hcache. apply lookup_insert_eq.
    + intros key info Hkey.
      apply (LoopRun_invariant _ _ _ _ _ _ _ _ _ _ _ _ Hloop _ _ Hkey).
  - intros nameToKey total i folder st w0 Hskip Hfails.
    destruct (failed_resolution_writes_placeholder env taskId tmdbApiKey
                tmdbProxy clearMetaInfo nameToKey total i folder st w0
                Hskip Hfails) as (st' & evs & -> & ->).
    eexists _, _. split; [done|]. split; [apply lookup_insert_eq|done].
Qed.

Lemma failed_entries_are_placeholders_witness :
  ∃ stored folderInfo,
    cache (Demo.scan Demo.envSearchThrows false Demo.worldWithShow).2 !! "/"
      = Some stored
    ∧ folders stored !! "Movie B (2020)" = Some folderInfo
    ∧ failed folderInfo = true
    ∧ placeholderInvariant folderInfo.
Proof.
  destruct (failed_entries_are_placeholders Demo.envSearchThrows 5 "task-1"
              "http://openlist.local" "/" "tmdb-key" None "admin" "secret"
              false Demo.worldWithShow
              (Demo.scan Demo.envSearchThrows false Demo.worldWithShow).2)
    as [(loaded & stored & Hload & _ & Hcache & Hinv) _].
  - by vm_compute.
  - exists stored.
    pose (info := failedEntry "Movie B (2020)" 1700000000000).
    assert (Hkey : folders stored !! "Movie B (2020)" = Some info).
    { vm_compute in Hcache. injection Hcache as <-. by vm_compute. }
    exists info. split; [done|]. split; [done|]. split; [done|].
    destruct (Hinv _ _ Hkey) as [Hold|Hnew]; [|done].
    vm_compute in Hload. injection Hload as <-. by vm_compute in Hold.
Defined.

(** ** The fast path for known folders *)

(** C2.  In a scan started with [clearMetaInfo = false], a remote folder
    whose name is the [folderName] of an entry of the loaded MetaInfo is
    skipped: its iteration only reports progress and counts the folder as
    existing, leaving [metaInfo] as it is; no search and no season call is
    made for it anywhere in the scan; the count of existing folders the
    scan reports is the number of such folders.  Its entry is also what the
    completed scan stores under the same key, provided the key generator,
    whose code is in another module, returns keys outside the set it is
    given, so that no new folder is written over it. *)
Theorem existing_folders_are_skipped
    env fuel taskId url rootPath tmdbApiKey tmdbProxy username password
    w w' :
  performScan env fuel taskId url rootPath tmdbApiKey tmdbProxy username
    password false w = (Ret tt, w') →
  ∃ loaded remoteFolders stored new existing errors,
    (loadMetaInfo env false w).1 = Ret loaded
    ∧ (listLoop env fuel (scanClient url username password) rootPath 1 [] w).1
      = Ret remoteFolders
    ∧ cache w' !! rootPath = Some stored
    ∧ last (trace w')
      = Some (EvCompleteScanTask taskId (List.length remoteFolders)
                new existing errors)
    ∧ existing
      = List.length
          (filter (λ f, has (folderNameToKey loaded) (Listing.name f) = true)
             remoteFolders)
    ∧ ∀ folder key folderInfo,
        folder ∈ remoteFolders →
        folders loaded !! key = Some folderInfo →
        folderName folderInfo = Listing.name folder →
        has (folderNameToKey loaded) (Listing.name folder) = true
        ∧ (∀ total i st w0,
             processFolder env taskId tmdbApiKey tmdbProxy false
               (folderNameToKey loaded) total i folder st w0
             = (Ret (count_existing st),
                log [EvUpdateScanTaskProgress taskId (i + 1) total
                       (Some (Listing.name folder))] w0))
        ∧ (∀ apiKey query proxy yr,
             EvSearchTMDB (Listing.name folder) apiKey query proxy yr
               ∉ new_events w w')
        ∧ (∀ apiKey id season proxy,
             EvGetTVSeasonDetails (Listing.name folder) apiKey id season proxy
               ∉ new_events w w')
        ∧ ((∀ name keys, generateFolderKey env name keys ∉ keys) →
           folders stored !! key = Some folderInfo).
Proof.
  intros Hscan.
  destruct (completed_scan _ _ _ _ _ _ _ _ _ _ _ _ Hscan)
    as (loaded & k & fs & st & evs & pevs & Hload & Hlisted & _ & Hloop
        & Hnew & Hpevs & _ & Hcache).
  exists loaded, fs, (finalMetaInfo env st), (newCount st),
    (existingCount st), (errorCount st).
  split; [done|]. split; [done|]. split; [|split; [|split]].
  - rewrite Hcache. apply lookup_insert_eq.
  - eapply last_new_events. rewrite Hnew.
    rewrite app_comm_cons, !app_assoc. reflexivity.
  - by rewrite (LoopRun_existing _ _ _ _ _ _ _ _ _ _ _ _ Hloop).
  - intros folder key info Hfolder Hkey Hname.
    assert (Hhas : has (folderNameToKey loaded) (Listing.name folder) = true).
    { apply has_folderNameToKey. eauto. }
    assert (Hcalls : ∀ e, e ∈ new_events w w' →
              isHandlingEvent e = true → e ∈ evs).
    { intros e He Hhandling. rewrite Hnew in He.
      rewrite Forall_forall in Hpevs.
      split_in He; subst; try done.
      - apply elem_of_listingEvents in He
          as [->|[->|[->|(q & -> & ?)]]]; done.
      - specialize (Hpevs _ He). by destruct e. }
    split; [done|]. split; [|split; [|split]].
    + intros total i st0 w0. run_folder. cbn [negb andb]. by rewrite Hhas.
    + intros apiKey query proxy yr Hin. apply Hcalls in Hin; [|done].
      destruct (LoopRun_api_calls _ _ _ _ _ _ _ _ _ _ _ _ _ Hloop Hin)
        as [Hsearch _].
      specialize (Hsearch _ _ _ _ _ eq_refl).
      unfold skipped in Hsearch. by rewrite Hhas in Hsearch.
    + intros apiKey id season proxy Hin. apply Hcalls in Hin; [|done].
      destruct (LoopRun_api_calls _ _ _ _ _ _ _ _ _ _ _ _ _ Hloop Hin)
        as [_ Hseason].
      specialize (Hseason _ _ _ _ _ eq_refl).
      unfold skipped in Hseason. by rewrite Hhas in Hseason.
    + intros Hfresh.
      apply (LoopRun_keeps _ _ _ _ _ _ _ _ _ _ _ _ Hfresh Hloop); done.
Qed.

Lemma existing_folders_are_skipped_witness :
  ∃ stored existing,
    cache (Demo.scan Demo.env false Demo.worldWithShow).2 !! "/" = Some stored
    ∧ last (trace (Demo.scan Demo.env false Demo.worldWithShow).2)
      = Some (EvCompleteScanTask "task-1" 2 1 existing 0)
    ∧ existing = 1
    ∧ (∀ apiKey query proxy yr,
         EvSearchTMDB "Show A S02" apiKey query proxy yr
           ∉ new_events Demo.worldWithShow
               (Demo.scan Demo.env false Demo.worldWithShow).2)
    ∧ folders stored !! "a1b2c3" = Some Demo.storedShow.
Proof.
  destruct (existing_folders_are_skipped Demo.env 5 "task-1"
              "http://openlist.local" "/" "tmdb-key" None "admin" "secret"
              Demo.worldWithShow
              (Demo.scan Demo.env false Demo.worldWithShow).2)
    as (loaded & fs & stored & new & existing & errors & Hload & Hfs & Hcache
        & Hlast & Hexisting & Hskip).
  - by vm_compute.
  - vm_compute in Hload. injection Hload as <-.
    vm_compute in Hfs. injection Hfs as <-.
    destruct (Hskip Demo.showFolder "a1b2c3" Demo.storedShow)
      as (_ & _ & Hsearch & _ & Hkept);
      [by left | by vm_compute | done |].
    exists stored, existing.
    split; [exact Hcache|].
    assert (existing = 1) as -> by (rewrite Hexisting; by vm_compute).
    split; [by vm_compute|]. split; [done|]. split; [exact Hsearch|].
    apply Hkept. intros name keys. apply fresh_string_of_set_fresh.
Defined.

(** ** Progress reports *)

(** C6, as the code has it.  For every folder of the scan loop, resolved
    or skipped, progress is reported to the task tracker before the folder
    is handled, with the 1-based index of the folder, the number of all
    listed directories (the skipped ones included) and the name of the
    folder: the calls of the loop are, folder after folder, the report
    followed by the calls of the resolution.  In a completed scan they sit
    between the report that ends the listing phase and the calls of the
    persisting phase. *)
Theorem progress_reported_before_handling
    env fuel taskId url rootPath tmdbApiKey tmdbProxy username password
    clearMetaInfo w w' :
  performScan env fuel taskId url rootPath tmdbApiKey tmdbProxy username
    password clearMetaInfo w = (Ret tt, w') →
  (∃ remoteFolders hs before after,
     (listLoop env fuel (scanClient url username password) rootPath 1 [] w).1
       = Ret remoteFolders
     ∧ List.length hs = List.length remoteFolders
     ∧ Forall (Forall (λ e, isHandlingEvent e = true)) hs
     ∧ new_events w w'
       = before
         ++ reportThenHandle taskId (List.length remoteFolders) 0
              remoteFolders hs
         ++ after
     ∧ Forall (λ e, isLoopEvent e = false
                    ∨ e = EvUpdateScanTaskProgress taskId 0 0 None
                    ∨ e = EvUpdateScanTaskProgress taskId 0
                            (List.length remoteFolders) None)
         (before ++ after))
  ∧ ∀ nameToKey total i folder st w0,
      ∃ st' handling,
        processFolder env taskId tmdbApiKey tmdbProxy clearMetaInfo nameToKey
          total i folder st w0
        = (Ret st',
           log (EvUpdateScanTaskProgress taskId (i + 1) total
                  (Some (Listing.name folder)) :: handling) w0)
        ∧ Forall (λ e, isHandlingEvent e = true) handling.
Proof.
  intros Hscan. split.
  - destruct (completed_scan _ _ _ _ _ _ _ _ _ _ _ _ Hscan)
      as (loaded & k & fs & st & evs & pevs & _ & Hlisted & _ & Hloop
          & Hnew & Hpevs & _).
    destruct (LoopRun_report_first _ _ _ _ _ _ _ _ _ _ _ _ Hloop)
      as (hs & -> & Hlen & Hhs).
    exists fs, hs,
      (listingEvents taskId rootPath clearMetaInfo k
       ++ [EvUpdateScanTaskProgress taskId 0 (List.length fs) None]),
      (pevs ++ [EvCompleteScanTask taskId (List.length fs) (newCount st)
                  (existingCount st) (errorCount st)]).
    split; [done|]. split; [done|]. split; [done|]. split.
    + rewrite Hnew. by rewrite <- !app_assoc.
    + apply Forall_forall. intros e He. rewrite Forall_forall in Hpevs.
      split_in He; subst; auto.
      * apply elem_of_listingEvents in He
          as [->|[->|[->|(q & -> & ?)]]]; auto.
      * specialize (Hpevs _ He). left. by destruct e.
  - intros nameToKey total i folder st w0.
    destruct (processFolder_run env taskId tmdbApiKey tmdbProxy clearMetaInfo
                nameToKey total i folder st w0) as (st' & evs & -> & Hrun).
    destruct (FolderRun_report_first _ _ _ _ _ _ _ _ _ _ _ _ Hrun)
      as (h & -> & Hh).
    by exists st', h.
Qed.

Lemma progress_reported_before_handling_witness :
  ∃ hs before after,
    new_events Demo.worldWithShow
      (Demo.scan Demo.env false Demo.worldWithShow).2
    = before
      ++ reportThenHandle "task-1" 2 0 [Demo.showFolder; Demo.movieFolder] hs
      ++ after
    ∧ List.length hs = 2.
Proof.
  destruct (progress_reported_before_handling Demo.env 5 "task-1"
              "http://openlist.local" "/" "tmdb-key" None "admin" "secret"
              false Demo.worldWithShow
              (Demo.scan Demo.env false Demo.worldWithShow).2)
    as [(fs & hs & before & after & Hfs & Hlen & _ & Hnew & _) _].
  - by vm_compute.
  - vm_compute in Hfs. injection Hfs as <-.
    exists hs, before, after. split; [exact Hnew | exact Hlen].
Defined.

(** C6 as stated fails.  With "Show A S02" already indexed and
    "Movie B (2020)" new, one folder is new, but the reports carry the
    total 2; and the calls of the loop cannot be read as "handle, then
    report", whatever total the reports would carry: the loop ends with
    the timer of the movie, not with a report. *)
Lemma progress_after_handling_counterexample :
  let run :=
    scanLoop Demo.env "task-1" "tmdb-key" None false
      (folderNameToKey Demo.storedMetaInfo) 2 0
      [Demo.showFolder; Demo.movieFolder]
      (initialState Demo.storedMetaInfo) Demo.worldWithShow in
  (∃ st, run.1 = Ret st ∧ newCount st = 1)
  ∧ new_events Demo.worldWithShow run.2
    = [EvUpdateScanTaskProgress "task-1" 1 2 (Some "Show A S02");
       EvUpdateScanTaskProgress "task-1" 2 2 (Some "Movie B (2020)");
       EvSearchTMDB "Movie B (2020)" "tmdb-key" "Movie B" None (Some 2020%Z);
       EvDelay 300]
  ∧ ∀ total hs,
      new_events Demo.worldWithShow run.2
      ≠ handleThenReport "task-1" total 0
          [Demo.showFolder; Demo.movieFolder] hs.
Proof.
  cbv zeta. split; [eexists; split; by vm_compute|].
  split; [by vm_compute|].
  intros total hs Heq. apply (f_equal last) in Heq. revert Heq.
  destruct hs as [|h1 [|h2 hs]]; cbn [handleThenReport].
  - by vm_compute.
  - rewrite last_snoc. by vm_compute.
  - change (h1 ++ ?a :: h2 ++ [?b]) with (h1 ++ (a :: h2) ++ [b]).
    rewrite app_assoc, last_snoc. by vm_compute.
Qed.

(** ** The delay between folders *)

(** X18.  A resolution attempt in which neither the parser nor the search
    throws, whether it ends in a match or in the placeholder of a search
    that found nothing, makes the fixed 300 ms delay its last call, so the
    delay precedes the processing of the next folder; and that is the
    only delay of the attempt. *)
Theorem delay_follows_completed_attempt
    env taskId tmdbApiKey tmdbProxy clearMetaInfo nameToKey total i folder
    st w seasonInfo resp :
  skipped clearMetaInfo nameToKey (Listing.name folder) = false →
  parseSeasonFromTitle env (Listing.name folder) = Resolved seasonInfo →
  searchTMDB env i tmdbApiKey
    (js_or (Some (cleanTitle seasonInfo)) (Listing.name folder))
    tmdbProxy (num_or_undefined (year seasonInfo)) = Resolved resp →
  ∃ st' calls,
    processFolder env taskId tmdbApiKey tmdbProxy clearMetaInfo nameToKey
      total i folder st w = (Ret st', log (calls ++ [EvDelay 300]) w)
    ∧ (∀ ms, EvDelay ms ∉ calls)
    ∧ ∀ rest,
        scanLoop env taskId tmdbApiKey tmdbProxy clearMetaInfo nameToKey
          total i (folder :: rest) st w
        = scanLoop env taskId tmdbApiKey tmdbProxy clearMetaInfo nameToKey
            total (S i) rest st' (log (calls ++ [EvDelay 300]) w).
Proof.
  intros Hskip Hparse Hsearch.
  destruct (processFolder_run env taskId tmdbApiKey tmdbProxy clearMetaInfo
              nameToKey total i folder st w) as (st' & evs & Hrun & Hcase).
  destruct (FolderRun_delay _ _ _ _ _ _ _ _ _ _ _ _ Hcase _ _ Hskip Hparse
              Hsearch) as (calls & -> & Hcalls).
  exists st', calls. split; [done|]. split; [done|].
  intros rest. cbn [scanLoop]. unfold bind. by rewrite Hrun.
Qed.

Lemma delay_follows_completed_attempt_witness :
  ∃ st' calls,
    processFolder Demo.env "task-1" "tmdb-key" None false ∅ 2 1
      Demo.movieFolder (initialState Demo.storedMetaInfo) Demo.world
    = (Ret st', log (calls ++ [EvDelay 300]) Demo.world)
    ∧ ∀ ms, EvDelay ms ∉ calls.
Proof.
  destruct (delay_follows_completed_attempt Demo.env "task-1" "tmdb-key" None
              false ∅ 2 1 Demo.movieFolder (initialState Demo.storedMetaInfo)
              Demo.world
              {| cleanTitle := "Movie B"; seasonNumber := None;
                 year := Some 2020%Z |}
              {| Search.code := 200;
                 Search.result := Some Demo.movieResult |})
    as (st' & calls & Hrun & Hcalls & _); [done..|].
  by exists st', calls.
Defined.

(** C7 fails on the code.  The folder "Movie B (2020)" is new.  When the
    catalogue answers its search without a result, the iteration writes
    the placeholder, counts an error and ends with the 300 ms delay.  When
    the search throws instead, the [catch] writes the same placeholder and
    counts the same error, so the loop is left in the same state, but the
    search is the last call made: the attempt is followed by no delay, in
    the iteration and in the whole scan. *)
Theorem exception_path_skips_the_delay :
  let st := initialState Demo.storedMetaInfo in
  let nameToKey := folderNameToKey Demo.storedMetaInfo in
  let notFound :=
    processFolder Variants.envMovieUnknown "task-1" "tmdb-key" None false
      nameToKey 2 1 Demo.movieFolder st Demo.worldWithShow in
  let thrown :=
    processFolder Demo.envSearchThrows "task-1" "tmdb-key" None false
      nameToKey 2 1 Demo.movieFolder st Demo.worldWithShow in
  let run :=
    scanLoop Demo.envSearchThrows "task-1" "tmdb-key" None false nameToKey
      2 0 [Demo.showFolder; Demo.movieFolder] st Demo.worldWithShow in
  let scan := Demo.scan Demo.envSearchThrows false Demo.worldWithShow in
  thrown.1 = notFound.1
  ∧ (∃ st', thrown.1 = Ret st' ∧ errorCount st' = 1 ∧ newCount st' = 0)
  ∧ new_events Demo.worldWithShow notFound.2
    = [EvUpdateScanTaskProgress "task-1" 2 2 (Some "Movie B (2020)");
       EvSearchTMDB "Movie B (2020)" "tmdb-key" "Movie B" None (Some 2020%Z);
       EvDelay 300]
  ∧ new_events Demo.worldWithShow thrown.2
    = [EvUpdateScanTaskProgress "task-1" 2 2 (Some "Movie B (2020)");
       EvSearchTMDB "Movie B (2020)" "tmdb-key" "Movie B" None (Some 2020%Z)]
  ∧ new_events Demo.worldWithShow run.2
    = [EvUpdateScanTaskProgress "task-1" 1 2 (Some "Show A S02");
       EvUpdateScanTaskProgress "task-1" 2 2 (Some "Movie B (2020)");
       EvSearchTMDB "Movie B (2020)" "tmdb-key" "Movie B" None (Some 2020%Z)]
  ∧ scan.1 = Ret tt
  ∧ last (trace scan.2) = Some (EvCompleteScanTask "task-1" 2 0 1 1)
  ∧ ∀ ms, EvDelay ms ∉ new_events Demo.worldWithShow scan.2.
Proof.
  cbv zeta.
  split; [by vm_compute|].
  split; [eexists; repeat split; by vm_compute|].
  split; [by vm_compute|]. split; [by vm_compute|].
  split; [by vm_compute|]. split; [by vm_compute|].
  split; [by vm_compute|].
  match goal with
  | |- ∀ ms, _ ∉ ?evs =>
      let l := eval vm_compute in (filter (λ e, isDelay e = true) evs) in
      assert (Hnone : filter (λ e, isDelay e = true) evs = l)
        by (by vm_compute)
  end.
  intros ms Hin.
  assert (Hdelay : EvDelay ms
                   ∈ filter (λ e, isDelay e = true)
                       (new_events Demo.worldWithShow
                          (Demo.scan Demo.envSearchThrows false
                             Demo.worldWithShow).2))
    by (apply list_elem_of_filter; split; [reflexivity|exact Hin]).
  rewrite Hnone in Hdelay. apply elem_of_nil in Hdelay. exact Hdelay.
Qed.

(** ** Season details *)

(** C5, as the code has it.  For a TV match with a season number parsed
    from the folder name and a successful season lookup, the stored title
    is the base title followed by a space and the season's name when the
    returned season number is greater than 1, and the base title itself
    when it is 1 (or less); the season's poster, overview and air date
    each replace the series-level value when the season has a non-empty
    one, and the series-level value is kept otherwise. *)
Theorem season_details_override
    env taskId tmdbApiKey tmdbProxy clearMetaInfo nameToKey total i folder
    st w seasonInfo resp result seasonResp season :
  skipped clearMetaInfo nameToKey (Listing.name folder) = false →
  parseSeasonFromTitle env (Listing.name folder) = Resolved seasonInfo →
  truthy_num (seasonNumber seasonInfo) = true →
  searchTMDB env i tmdbApiKey
    (js_or (Some (cleanTitle seasonInfo)) (Listing.name folder))
    tmdbProxy (num_or_undefined (year seasonInfo)) = Resolved resp →
  Search.code resp = 200%Z →
  Search.result resp = Some result →
  Search.media_type result = "tv" →
  getTVSeasonDetails env i tmdbApiKey (Search.id result)
    (default 0%Z (seasonNumber seasonInfo)) tmdbProxy = Resolved seasonResp →
  Season.code seasonResp = 200%Z →
  Season.season seasonResp = Some season →
  ∃ st' evs folderInfo,
    processFolder env taskId tmdbApiKey tmdbProxy clearMetaInfo nameToKey
      total i folder st w = (Ret st', log evs w)
    ∧ folders (metaInfo st')
        !! generateFolderKey env (Listing.name folder) (existingKeys st)
      = Some folderInfo
    ∧ let base :=
        js_or (Search.title result)
              (js_or (Search.name result) (Listing.name folder)) in
      ((1 < Season.season_number season)%Z →
       title folderInfo = base +:+ " " +:+ Season.name season)
      ∧ ((Season.season_number season ≤ 1)%Z → title folderInfo = base)
      ∧ poster_path folderInfo
        = (if truthy (Season.poster_path season)
           then Season.poster_path season
           else Search.poster_path result)
      ∧ overview folderInfo
        = (if truthy (Season.overview season)
           then default "" (Season.overview season)
           else Search.overview result)
      ∧ release_date folderInfo
        = (if truthy (Season.air_date season)
           then default "" (Season.air_date season)
           else js_or (Search.release_date result)
                      (js_or (Search.first_air_date result) ""))
      ∧ season_number folderInfo = Some (Season.season_number season)
      ∧ season_name folderInfo = Some (Season.name season).
Proof.
  intros Hskip Hparse Hnum Hsearch Hcode Hresult Htv Hseason Hscode Hsome.
  destruct (processFolder_run env taskId tmdbApiKey tmdbProxy clearMetaInfo
              nameToKey total i folder st w) as (st' & evs & Hrun & Hcase).
  assert (Hwants : wantsSeason result seasonInfo = true).
  { unfold wantsSeason. by rewrite Htv, Hnum. }
  destruct Hcase as [|si resp' result' info sevs ? ? ? ? ? Hsrun
                    |si resp' ? ? ? Hbad| |]; try congruence.
  - assert (si = seasonInfo) as -> by congruence.
    assert (resp' = resp) as -> by congruence.
    assert (result' = result) as -> by congruence.
    assert (info = applySeasonDetails season
                     (matchedEntry (Listing.name folder) result
                        (Date_now env (NowFolder i)))) as ->.
    { destruct Hsrun as [|sresp' season' ? ? ? ?|sresp' ? ? Hbad|];
        try congruence.
      assert (sresp' = seasonResp) as -> by congruence.
      destruct Hbad; congruence. }
    eexists _, _, _. split; [done|].
    split; [apply lookup_insert_eq|].
    destruct (applySeasonDetails_fields season
                (matchedEntry (Listing.name folder) result
                   (Date_now env (NowFolder i))))
      as (Hn & Hname & Htitle & Hposter & Hoverview & Hdate).
    cbv zeta. rewrite Htitle, Hposter, Hoverview, Hdate.
    cbn [title poster_path overview release_date matchedEntry].
    repeat split; try done.
    + intros Hgt. apply Z.ltb_lt in Hgt. by rewrite Hgt.
    + intros Hle. apply Z.ltb_ge in Hle. by rewrite Hle.
  - assert (si = seasonInfo) as -> by congruence.
    assert (resp' = resp) as -> by congruence.
    destruct Hbad; congruence.
Qed.

Lemma season_details_override_witness :
  ∃ st' folderInfo,
    (processFolder Demo.env "task-1" "tmdb-key" None false ∅ 2 0
       Demo.showFolder (initialState (emptyMetaInfo Demo.env)) Demo.world).1
    = Ret st'
    ∧ folders (metaInfo st') !! "Show A S02" = Some folderInfo
    ∧ title folderInfo = "Show A Season 2"
    ∧ poster_path folderInfo = Some "/season2.jpg"
    ∧ overview folderInfo = "A show."
    ∧ release_date folderInfo = "2021-01-15".
Proof.
  destruct (season_details_override Demo.env "task-1" "tmdb-key" None false
              ∅ 2 0 Demo.showFolder (initialState (emptyMetaInfo Demo.env))
              Demo.world
              {| cleanTitle := "Show A"; seasonNumber := Some 2%Z;
                 year := None |}
              {| Search.code := 200; Search.result := Some Demo.showResult |}
              Demo.showResult
              {| Season.code := 200;
                 Season.season := Some Demo.secondSeason |}
              Demo.secondSeason)
    as (st' & evs & info & Hrun & Hkey & Htitle & _ & Hposter & Hoverview
        & Hdate & _); [done..|].
  exists st', info. rewrite Hrun.
  split; [done|]. split; [exact Hkey|].
  split; [by apply Htitle|]. split; [exact Hposter|].
  split; [exact Hoverview | exact Hdate].
Defined.

(** C5 as stated fails for the overview (and likewise for the poster and
    the air date).  The second season of "Show A" comes with an empty
    overview; the stored entry keeps the overview of the series. *)
Lemma season_overview_counterexample :
  ∃ st' folderInfo,
    (processFolder Demo.env "task-1" "tmdb-key" None false ∅ 2 0
       Demo.showFolder (initialState (emptyMetaInfo Demo.env)) Demo.world).1
    = Ret st'
    ∧ folders (metaInfo st') !! "Show A S02" = Some folderInfo
    ∧ season_number folderInfo = Some 2%Z
    ∧ Season.overview Demo.secondSeason = Some ""
    ∧ overview folderInfo = Search.overview Demo.showResult
    ∧ Some (overview folderInfo) ≠ Season.overview Demo.secondSeason.
Proof.
  eexists _, _. split; [by vm_compute|]. split; [by vm_compute|].
  split; [done|]. split; [done|]. split; [done|]. discriminate.
Qed.

(** ** Starting a refresh *)

(** C4.  [startOpenListRefresh] throws before anything else happens when a
    precondition is missing: the OpenList configuration is absent, not
    enabled, or has an empty URL, username or password, or the TMDB API key
    is not configured.  The world is left exactly as it was, so neither
    [cleanupOldTasks] nor [createScanTask] has been called, and no task id
    is returned. *)
Theorem refresh_rejects_incomplete_configuration env fuel clearMetaInfo w :
  OpenListConfig (config w) = None
  ∨ (∃ openListConfig,
       OpenListConfig (config w) = Some openListConfig
       ∧ (Enabled openListConfig = false
          ∨ truthy (URL openListConfig) = false
          ∨ truthy (Username openListConfig) = false
          ∨ truthy (Password openListConfig) = false))
  ∨ truthy (TMDBApiKey (SiteConfig (config w))) = false →
  ∃ message,
    startOpenListRefresh env fuel clearMetaInfo w = (Throw message, w)
    ∧ (message = "OpenList 未配置或未启用"
       ∨ message = "TMDB API Key 未配置").
Proof.
  intros Hmissing.
  cbv beta iota zeta delta [startOpenListRefresh bind getConfig throw].
  destruct (OpenListConfig (config w)) as [o|]; [|eauto].
  destruct (Enabled o) eqn:He; cbn [negb orb]; [|eauto].
  destruct (truthy (URL o)) eqn:Hu; cbn [negb orb]; [|eauto].
  destruct (truthy (Username o)) eqn:Hn; cbn [negb orb]; [|eauto].
  destruct (truthy (Password o)) eqn:Hp; cbn [negb orb]; [|eauto].
  destruct (truthy (TMDBApiKey (SiteConfig (config w)))) eqn:Hk;
    cbn [negb]; [|eauto].
  exfalso.
  destruct Hmissing as [?|[(o' & [= <-] & [?|[?|[?|?]]])|?]]; congruence.
Qed.

Lemma refresh_rejects_incomplete_configuration_witness :
  startOpenListRefresh Demo.env 5 false Demo.worldWithoutKey
  = (Throw "TMDB API Key 未配置", Demo.worldWithoutKey).
Proof.
  destruct (refresh_rejects_incomplete_configuration Demo.env 5 false
              Demo.worldWithoutKey) as (message & Hthrow & _).
  - right. right. reflexivity.
  - rewrite Hthrow. by vm_compute.
Defined.

(** With the configuration complete the refresh does start: old tasks are
    purged, a task is created and its id is returned. *)
Example refresh_starts :
  (startOpenListRefresh Demo.env 5 false Demo.world).1 = Ret "task-1"
  ∧ take 3 (trace (startOpenListRefresh Demo.env 5 false Demo.world).2)
    = [EvCleanupOldTasks; EvCreateScanTask "task-1";
       EvUpdateScanTaskProgress "task-1" 0 0 None].
Proof. split; by vm_compute. Qed.

(** ** Termination of the listing phase *)

Lemma readme_page_has_no_folder n :
  filter (λ item, Listing.is_dir item = true)
    (take pageSize (drop n [Demo.readme])) = [].
Proof. destruct n as [|n]; [done|]. cbn [drop]. by rewrite drop_nil. Qed.

Lemma listLoop_with_a_file fuel : ∀ client rootPath page w,
  listLoop Demo.envWithFile fuel client rootPath page [] w
  = (Diverge, log (listEvent rootPath <$> seq page fuel) w).
Proof.
  induction fuel as [|fuel IH]; intros client rootPath page w.
  - cbn. by rewrite log_nil.
  - cbn [listLoop].
    cbv beta iota zeta delta [bind client_listDirectory emit lift throw ret].
    assert (Hpage :
      listDirectory Demo.envWithFile client rootPath page pageSize true
      = Resolved
          {| Listing.code := 200; Listing.total := 1;
             Listing.content :=
               take pageSize (drop ((page - 1) * pageSize) [Demo.readme]) |})
      by reflexivity.
    rewrite Hpage. cbv beta iota.
    cbn [Listing.code Listing.total Listing.content].
    rewrite readme_page_has_no_folder.
    cbn [app List.length negb Z.eqb Pos.eqb].
    change (1 <=? Z.of_nat 0)%Z with false.
    cbv beta iota. rewrite IH, log_log. done.
Qed.

(** C8 fails on the code.  The remote root holds one plain file: the
    lister reports total 1 and returns the file on page 1 and nothing on
    the later pages.  The loop compares the number of directories kept by
    the filter, which stays 0, with that total, so it asks for page after
    page: whatever fuel the model is given, the listing is still running
    when the fuel is exhausted, having fetched one page per unit, and the
    scan never leaves the listing phase. *)
Theorem listing_with_a_file_never_finishes fuel w :
  (listLoop Demo.envWithFile fuel
     (scanClient "http://openlist.local" "admin" "secret") "/" 1 [] w).1
  = Diverge
  ∧ new_events w
      (listLoop Demo.envWithFile fuel
         (scanClient "http://openlist.local" "admin" "secret") "/" 1 [] w).2
    = (λ page, EvListDirectory "/" page 100 true) <$> seq 1 fuel
  ∧ (performScan Demo.envWithFile fuel "task-1" "http://openlist.local" "/"
       "tmdb-key" None "admin" "secret" false w).1
    = Diverge.
Proof.
  rewrite listLoop_with_a_file. split; [done|]. split.
  - apply new_events_log.
  - pose proof (performScan_run Demo.envWithFile fuel "task-1"
                  "http://openlist.local" "/" "tmdb-key" None "admin" "secret"
                  false w) as Hrun.
    destruct (performScan _ _ _ _ _ _ _ _ _ _ _) as [r w'].
    cbn [fst snd] in *.
    assert (Hstuck : ∀ k r0,
      ListRun Demo.envWithFile
        (scanClient "http://openlist.local" "admin" "secret") "/" 1 [] k r0 →
      r0 = Diverge).
    { intros k r0. generalize 1. intros page.
      remember [] as acc eqn:Hacc. intros Hlist.
      induction Hlist as [| | page acc resp Hp Hc | page acc resp Hp Hc Ht
                         | page acc resp k r0 Hp Hc Ht Hrec IH];
        subst acc; try done.
      - by injection Hp as <-.
      - exfalso. unfold pageFolders in Ht. rewrite Hp in Ht.
        injection Hp as <-. cbn [Listing.content Listing.total] in Ht.
        rewrite readme_page_has_no_folder in Ht. cbn in Ht. lia.
      - apply IH. unfold pageFolders. rewrite Hp. injection Hp as <-.
        cbn [Listing.content]. by rewrite readme_page_has_no_folder. }
    destruct Hrun as [|k msg Hlist|? k ? ? ? ? ? ? ? ? Hlist|? k ? ? ? ? ? ? ? Hlist];
      [done|..]; by apply Hstuck in Hlist.
Qed.

(** Where the listing does finish: over a root that holds directories
    only, the loop returns all of them once it has fetched enough pages. *)
Lemma filter_all_directories (items : list Listing.Item) :
  Forall (λ item, Listing.is_dir item = true) items →
  filter (λ item, Listing.is_dir item = true) items = items.
Proof.
  induction 1 as [|item items Hdir _ IH]; [done|].
  rewrite filter_cons. case_decide; [by rewrite IH | done].
Qed.

Lemma listLoop_directories items searcher client rootPath :
  Forall (λ item, Listing.is_dir item = true) items →
  ∀ fuel page w,
    0 < fuel →
    List.length items ≤ (page + fuel) * pageSize →
    (listLoop (Demo.mkEnv (Demo.pagedLister items) searcher) fuel client
       rootPath (S page) (take (page * pageSize) items) w).1
    = Ret items.
Proof.
  intros Hdirs. induction fuel as [|fuel IH]; intros page w Hfuel Hlen; [lia|].
  cbn [listLoop].
  cbv beta iota zeta delta [bind client_listDirectory emit lift throw ret].
  assert (Hpage :
    listDirectory (Demo.mkEnv (Demo.pagedLister items) searcher) client
      rootPath (S page) pageSize true
    = Resolved
        {| Listing.code := 200;
           Listing.total := Z.of_nat (List.length items);
           Listing.content :=
             take pageSize (drop (page * pageSize) items) |}).
  { unfold Demo.mkEnv, Demo.pagedLister, listDirectory.
    replace (S page - 1) with page by lia. done. }
  rewrite Hpage. cbv beta iota.
  cbn [Listing.code Listing.total Listing.content negb Z.eqb Pos.eqb].
  rewrite filter_all_directories
    by (apply Forall_take, Forall_drop, Hdirs).
  rewrite take_take_drop.
  destruct (Z.of_nat (List.length items) <=?
            Z.of_nat (List.length (take (page * pageSize + pageSize) items)))%Z
    eqn:Hdone.
  - apply Z.leb_le in Hdone. rewrite length_take in Hdone.
    cbn [fst]. f_equal. apply take_ge. lia.
  - apply Z.leb_gt in Hdone. rewrite length_take in Hdone.
    replace (page * pageSize + pageSize) with (S page * pageSize) by lia.
    apply IH; lia.
Qed.

Lemma listing_of_directories_terminates items searcher client rootPath fuel w :
  Forall (λ item, Listing.is_dir item = true) items →
  0 < fuel →
  List.length items ≤ fuel * pageSize →
  (listLoop (Demo.mkEnv (Demo.pagedLister items) searcher) fuel client
     rootPath 1 [] w).1
  = Ret items.
Proof.
  intros Hdirs Hfuel Hlen.
  by apply (listLoop_directories items searcher client rootPath Hdirs fuel 0 w).
Qed.

(** And where it never does: as soon as the root holds one item that is
    not a directory, the directories kept by the filter stay fewer than
    the reported total, on every page. *)
Lemma length_filter_take (items : list Listing.Item) n :
  List.length (filter (λ item, Listing.is_dir item = true) (take n items))
  ≤ List.length (filter (λ item, Listing.is_dir item = true) items).
Proof.
  rewrite <- (take_drop n items) at 2.
  rewrite filter_app, length_app. lia.
Qed.

Lemma listLoop_with_files items searcher client rootPath :
  List.length (filter (λ item, Listing.is_dir item = true) items)
  < List.length items →
  ∀ fuel page w,
    (listLoop (Demo.mkEnv (Demo.pagedLister items) searcher) fuel client
       rootPath (S page)
       (filter (λ item, Listing.is_dir item = true)
          (take (page * pageSize) items)) w).1
    = Diverge.
Proof.
  intros Hfile. induction fuel as [|fuel IH]; intros page w; [done|].
  cbn [listLoop].
  cbv beta iota zeta delta [bind client_listDirectory emit lift throw ret].
  assert (Hpage :
    listDirectory (Demo.mkEnv (Demo.pagedLister items) searcher) client
      rootPath (S page) pageSize true
    = Resolved
        {| Listing.code := 200;
           Listing.total := Z.of_nat (List.length items);
           Listing.content :=
             take pageSize (drop (page * pageSize) items) |}).
  { unfold Demo.mkEnv, Demo.pagedLister, listDirectory.
    replace (S page - 1) with page by lia. done. }
  rewrite Hpage. cbv beta iota.
  cbn [Listing.code Listing.total Listing.content negb Z.eqb Pos.eqb].
  rewrite <- filter_app, take_take_drop.
  pose proof (length_filter_take items (page * pageSize + pageSize)) as Hle.
  destruct (Z.of_nat (List.length items) <=? _)%Z eqn:Hdone.
  - apply Z.leb_le in Hdone. lia.
  - replace (page * pageSize + pageSize) with (S page * pageSize) by lia.
    apply IH.
Qed.

Lemma listing_with_files_diverges items searcher client rootPath fuel w :
  (∃ item, item ∈ items ∧ Listing.is_dir item = false) →
  (listLoop (Demo.mkEnv (Demo.pagedLister items) searcher) fuel client
     rootPath 1 [] w).1
  = Diverge.
Proof.
  intros (item & Hin & Hfile).
  apply (listLoop_with_files items searcher client rootPath) with (page := 0).
  induction items as [|x items IH]; [by apply elem_of_nil in Hin|].
  rewrite filter_cons. apply elem_of_cons in Hin as [<-|Hin].
  - rewrite Hfile. case_decide; [done|]. cbn [List.length].
    pose proof (length_filter (λ item, Listing.is_dir item = true) items).
    lia.
  - specialize (IH Hin). case_decide; cbn [List.length]; lia.
Qed.

(** * Further properties of the scan *)

(** ** The persisting phase in full *)

Section PersistFacts.

Context (env : Collaborators) (taskId rootPath : string).

Ltac run_persist :=
  cbv beta iota zeta delta
    [persist bind db_setGlobalValue invalidateMetaInfoCache setCachedMetaInfo
     getConfig setConfig db_saveAdminConfig completeScanTask emit throw ret].

(** The persisting phase only ever writes the key of the index. *)
Lemma persist_other_keys total st w r w' :
  persist env taskId rootPath total st w = (r, w') →
  ∀ key, key ≠ "video.metainfo" → store w' !! key = store w !! key.
Proof.
  run_persist.
  repeat (case_match; simplify_eq; cbv beta iota); intros [= <- <-];
    intros key Hkey;
    cbn [store cache config trace log with_store with_cache with_config];
    by rewrite ?lookup_insert_ne.
Qed.

(** When it returns, the configuration holds the new refresh time and the
    number of entries, and nothing else in it has changed. *)
Lemma persist_completed total st w w' :
  persist env taskId rootPath total st w = (Ret tt, w') →
  setGlobalValue_fault env = None
  ∧ saveAdminConfig_fault env = None
  ∧ ∃ o o',
      OpenListConfig (config w) = Some o
      ∧ OpenListConfig (config w') = Some o'
      ∧ SiteConfig (config w') = SiteConfig (config w)
      ∧ ResourceCount o' = size (folders (metaInfo st))
      ∧ LastRefreshTime o' = Date_now env NowLastRefreshTime
      ∧ Enabled o' = Enabled o ∧ URL o' = URL o
      ∧ Username o' = Username o ∧ Password o' = Password o
      ∧ RootPath o' = RootPath o
      ∧ EvSaveAdminConfig (config w') ∈ new_events w w'.
Proof.
  run_persist.
  repeat (case_match; simplify_eq; cbv beta iota); intros [= <-].
  cbn [store cache config trace log with_store with_cache with_config] in *.
  split; [done|]. split; [done|].
  eexists _, _. split; [done|]. split; [done|].
  repeat (split; [done|]).
  unfold new_events.
  cbn [store cache config trace log with_store with_cache with_config].
  rewrite <- !app_assoc, drop_app_length. cbn [app].
  repeat constructor.
Qed.


(** When it throws before the write, store and cache are as they were;
    when it throws after it, both hold the new index. *)
Lemma persist_failed total st w msg w' :
  persist env taskId rootPath total st w = (Throw msg, w') →
  (setGlobalValue_fault env = Some msg
   ∧ store w' = store w ∧ cache w' = cache w)
  ∨ (setGlobalValue_fault env = None
     ∧ store w'
       = <["video.metainfo" := JSON_stringify env (finalMetaInfo env st)]>
           (store w)
     ∧ cache w'
       = <[rootPath := finalMetaInfo env st]> (delete rootPath (cache w))).
Proof.
  run_persist.
  repeat (case_match; simplify_eq; cbv beta iota); intros [= <- <-];
    cbn [store cache config trace log with_store with_cache with_config];
    auto.
Qed.

End PersistFacts.

(** ** A scan whose listing finishes *)

Ltac same_world :=
  unfold listingWorld, listingEvents, log, with_cache;
  cbn [store cache config trace]; f_equal;
  repeat (progress (rewrite <- ?app_assoc; cbn [app])); try reflexivity.

Section ListedScans.

Context (env : Collaborators) (fuel : nat) (taskId url rootPath : string)
  (tmdbApiKey : string) (tmdbProxy : option string)
  (username password : string) (clearMetaInfo : bool).

(** Once the listing has returned, the scan is the loop followed by the
    persisting phase, whose exception, if any, is reported to the task
    tracker and thrown again. *)
Lemma performScan_listed w remoteFolders :
  (listLoop env fuel (scanClient url username password) rootPath 1 [] w).1
    = Ret remoteFolders →
  ∃ loaded k st evs,
    (loadMetaInfo env clearMetaInfo w).1 = Ret loaded
    ∧ ListRun env (scanClient url username password) rootPath 1 [] k
        (Ret remoteFolders)
    ∧ LoopRun env taskId tmdbApiKey tmdbProxy clearMetaInfo
        (folderNameToKey loaded) (List.length remoteFolders) 0
        remoteFolders (initialState loaded) st evs
    ∧ performScan env fuel taskId url rootPath tmdbApiKey tmdbProxy username
        password clearMetaInfo w
      = match
          persist env taskId rootPath (List.length remoteFolders) st
            (listingWorld rootPath w
               (listingEvents taskId rootPath clearMetaInfo k
                ++ EvUpdateScanTaskProgress taskId 0
                     (List.length remoteFolders) None :: evs))
        with
        | (Throw msg, w2) => (Throw msg, log [EvFailScanTask taskId msg] w2)
        | other => other
        end.
Proof.
  intros Hlisted.
  destruct (loadMetaInfo_run env clearMetaInfo w) as [loaded Hload].
  assert (Hloaded : (loadMetaInfo env clearMetaInfo w).1 = Ret loaded).
  { specialize (Hload []). rewrite log_nil in Hload. by rewrite Hload. }
  unfold performScan, scanBody.
  fold (scanClient url username password).
  cbv beta iota zeta delta
    [bind try_catch updateScanTaskProgress invalidateMetaInfoCache
     failScanTask emit throw ret].
  rewrite (Hload [_]). cbv beta iota.
  match goal with
  | |- context [listLoop _ _ _ _ _ _ ?W] =>
      destruct (listLoop_run env (scanClient url username password) rootPath
                  fuel 1 [] W) as (k & r & Hlist & Hrun & _);
      pose proof (listLoop_world env rootPath fuel
                    (scanClient url username password) 1 [] W w) as Hsame
  end.
  rewrite Hlist in Hsame |- *. cbn [fst] in Hsame.
  rewrite Hlisted in Hsame. subst r. cbv beta iota.
  match goal with
  | |- context [scanLoop _ _ _ _ _ _ _ _ _ _ ?W] =>
      destruct (scanLoop_run env taskId tmdbApiKey tmdbProxy clearMetaInfo
                  (folderNameToKey loaded) (List.length remoteFolders)
                  remoteFolders 0 (initialState loaded) W)
        as (st & evs & Hloop & Hloopr)
  end.
  unfold initialState in Hloop. rewrite Hloop. cbv beta iota.
  exists loaded, k, st, evs. split; [done|]. split; [done|]. split; [done|].
  match goal with
  | |- context [persist _ _ _ _ _ ?W] =>
      assert (HW : W = listingWorld rootPath w
                (listingEvents taskId rootPath clearMetaInfo k
                 ++ EvUpdateScanTaskProgress taskId 0
                      (List.length remoteFolders) None :: evs))
        by same_world;
      rewrite HW
  end.
  destruct (persist _ _ _ _ _ _) as [[[]|msg|] w2]; done.
Qed.

End ListedScans.

(** ** What the loop writes *)

Lemma js_or_nonempty a b : b ≠ "" → js_or a b ≠ "".
Proof.
  intros Hb. unfold js_or. destruct a as [s|]; [|done].
  destruct (String.eqb_spec s ""); done.
Qed.

Lemma append_space_nonempty (s t : string) : s +:+ " " +:+ t ≠ "".
Proof. by destruct s. Qed.

Lemma applySeasonDetails_entryOf season name folderInfo :
  entryOf name folderInfo →
  entryOf name (applySeasonDetails season folderInfo).
Proof.
  intros [Hname Htitle].
  destruct (applySeasonDetails_fields season folderInfo)
    as (_ & _ & Ht & _).
  split.
  - unfold applySeasonDetails. by repeat case_match.
  - intros Hne. rewrite Ht. case_match; [apply append_space_nonempty|auto].
Qed.

Section WrittenEntries.

Context (env : Collaborators) (taskId tmdbApiKey : string)
  (tmdbProxy : option string) (clearMetaInfo : bool)
  (nameToKey : gmap string string) (total : nat).

Lemma SeasonRun_entryOf i name result seasonInfo folderInfo folderInfo' evs :
  SeasonRun env tmdbApiKey tmdbProxy i name result seasonInfo folderInfo
    folderInfo' evs →
  entryOf name folderInfo → entryOf name folderInfo'.
Proof.
  destruct 1; auto using applySeasonDetails_entryOf.
Qed.

Lemma FolderRun_origin i folder st st' evs :
  FolderRun env taskId tmdbApiKey tmdbProxy clearMetaInfo nameToKey total
    i folder st st' evs →
  ∀ key folderInfo,
    folders (metaInfo st') !! key = Some folderInfo →
    folders (metaInfo st) !! key = Some folderInfo
    ∨ entryOf (Listing.name folder) folderInfo.
Proof.
  destruct 1 as [|????? ? ? ? ? ? Hseason| | |]; unfold failedState;
    cbn [metaInfo folders count_existing count_new count_error set_folder
         add_key];
    intros key info Hkey; auto;
    (apply lookup_insert_Some in Hkey as [[_ <-]|[_ Hkey]]; [right|by left]);
    try done.
  eapply SeasonRun_entryOf; [done|]. split; [done|].
  intros Hne. cbn [title matchedEntry]. by do 2 apply js_or_nonempty.
Qed.

Lemma LoopRun_origin i rest st st' evs :
  LoopRun env taskId tmdbApiKey tmdbProxy clearMetaInfo nameToKey total
    i rest st st' evs →
  ∀ key folderInfo,
    folders (metaInfo st') !! key = Some folderInfo →
    folders (metaInfo st) !! key = Some folderInfo
    ∨ ∃ folder, folder ∈ rest ∧ entryOf (Listing.name folder) folderInfo.
Proof.
  induction 1 as [|i folder rest st st1 st2 evs1 evs2 Hstep _ IH];
    intros key info Hkey; [by left|].
  destruct (IH _ _ Hkey) as [Hkey1|(f & Hf & Hentry)].
  - destruct (FolderRun_origin _ _ _ _ _ Hstep _ _ Hkey1); [by left|].
    right. exists folder. split; [left|done].
  - right. exists f. split; [by right|done].
Qed.

(** With a key generator that avoids the keys in use, every folder that
    is not skipped adds one entry, and every folder of the listing ends up
    with an entry of its name. *)
Lemma FolderRun_size i folder st st' evs :
  (∀ name keys, generateFolderKey env name keys ∉ keys) →
  FolderRun env taskId tmdbApiKey tmdbProxy clearMetaInfo nameToKey total
    i folder st st' evs →
  dom (folders (metaInfo st)) ⊆ existingKeys st →
  size (folders (metaInfo st')) + existingCount st'
  = S (size (folders (metaInfo st)) + existingCount st)
  ∧ (skipped clearMetaInfo nameToKey (Listing.name folder) = false →
     ∃ folderInfo,
       folders (metaInfo st')
         !! generateFolderKey env (Listing.name folder) (existingKeys st)
       = Some folderInfo
       ∧ folderName folderInfo = Listing.name folder).
Proof.
  intros Hfresh Hrun Hdom.
  assert (Hnew : folders (metaInfo st)
                   !! generateFolderKey env (Listing.name folder)
                        (existingKeys st) = None).
  { apply not_elem_of_dom. intros Hin. by apply Hdom, Hfresh in Hin. }
  destruct Hrun as [Hs|????? ? ? ? ? ? Hseason| | |]; unfold failedState;
    cbn [metaInfo folders existingCount count_existing count_new count_error
         set_folder add_key];
    try (rewrite map_size_insert_None by done);
    (split; [lia|]); try (by rewrite Hs);
    intros _; eexists; (split; [apply lookup_insert_eq|]); try done.
  eapply SeasonRun_entryOf in Hseason as [Hname _]; [done|].
  split; [done|]. intros Hne. cbn [title matchedEntry].
  by do 2 apply js_or_nonempty.
Qed.

Lemma FolderRun_named i folder st st' evs :
  (∀ name keys, generateFolderKey env name keys ∉ keys) →
  FolderRun env taskId tmdbApiKey tmdbProxy clearMetaInfo nameToKey total
    i folder st st' evs →
  dom (folders (metaInfo st)) ⊆ existingKeys st →
  (skipped clearMetaInfo nameToKey (Listing.name folder) = true
   ∧ metaInfo st' = metaInfo st)
  ∨ ∃ key folderInfo,
      folders (metaInfo st') !! key = Some folderInfo
      ∧ folderName folderInfo = Listing.name folder.
Proof.
  intros Hfresh Hrun Hdom.
  destruct (FolderRun_size _ _ _ _ _ Hfresh Hrun Hdom) as [_ Hentry].
  destruct (skipped clearMetaInfo nameToKey (Listing.name folder)) eqn:Hs.
  - left. split; [done|]. destruct Hrun; try done; congruence.
  - right. destruct (Hentry eq_refl) as (info & ? & ?). eauto.
Qed.

Lemma LoopRun_size i rest st st' evs :
  (∀ name keys, generateFolderKey env name keys ∉ keys) →
  LoopRun env taskId tmdbApiKey tmdbProxy clearMetaInfo nameToKey total
    i rest st st' evs →
  dom (folders (metaInfo st)) ⊆ existingKeys st →
  size (folders (metaInfo st')) + existingCount st'
  = size (folders (metaInfo st)) + existingCount st + List.length rest.
Proof.
  intros Hfresh.
  induction 1 as [|i folder rest st st1 st2 evs1 evs2 Hstep _ IH];
    intros Hdom; [cbn; lia|].
  destruct (FolderRun_keeps _ _ _ _ _ _ _ _ _ _ _ _ Hfresh Hstep Hdom)
    as [Hdom1 _].
  destruct (FolderRun_size _ _ _ _ _ Hfresh Hstep Hdom) as [Hsize _].
  specialize (IH Hdom1). cbn [List.length]. lia.
Qed.

Lemma LoopRun_all_named i rest st st' evs :
  (∀ name keys, generateFolderKey env name keys ∉ keys) →
  LoopRun env taskId tmdbApiKey tmdbProxy clearMetaInfo nameToKey total
    i rest st st' evs →
  dom (folders (metaInfo st)) ⊆ existingKeys st →
  (∀ name, skipped clearMetaInfo nameToKey name = true →
     ∃ key folderInfo,
       folders (metaInfo st) !! key = Some folderInfo
       ∧ folderName folderInfo = name) →
  ∀ folder, folder ∈ rest →
    ∃ key folderInfo,
      folders (metaInfo st') !! key = Some folderInfo
      ∧ folderName folderInfo = Listing.name folder.
Proof.
  intros Hfresh.
  induction 1 as [|i folder rest st st1 st2 evs1 evs2 Hstep Hloop IH];
    intros Hdom Hknown f Hf; [by apply elem_of_nil in Hf|].
  destruct (FolderRun_keeps _ _ _ _ _ _ _ _ _ _ _ _ Hfresh Hstep Hdom)
    as [Hdom1 Hkeep1].
  pose proof (LoopRun_keeps _ _ _ _ _ _ _ _ _ _ _ _ Hfresh Hloop Hdom1)
    as Hkeep2.
  apply elem_of_cons in Hf as [->|Hf].
  - destruct (FolderRun_named _ _ _ _ _ Hfresh Hstep Hdom)
      as [[Hs _]|(key & info & Hkey & Hname)].
    + destruct (Hknown _ Hs) as (key & info & Hkey & Hname).
      exists key, info. split; [auto|done].
    + exists key, info. split; [auto|done].
  - apply IH; [done| |done].
    intros name Hs. destruct (Hknown _ Hs) as (key & info & Hkey & Hname).
    exists key, info. split; [auto|done].
Qed.


End WrittenEntries.

(** ** Counting calls *)

Lemma count_calls_app p evs1 evs2 :
  count_calls p (evs1 ++ evs2) = count_calls p evs1 + count_calls p evs2.
Proof. unfold count_calls. by rewrite filter_app, length_app. Qed.

Lemma count_calls_cons p e evs :
  count_calls p (e :: evs)
  = (if p e then 1 else 0) + count_calls p evs.
Proof.
  unfold count_calls. rewrite filter_cons.
  destruct (p e); case_decide; try done.
Qed.

Lemma count_calls_none p evs :
  Forall (λ e, p e = false) evs → count_calls p evs = 0.
Proof.
  induction 1 as [|e evs He _ IH]; [done|].
  by rewrite count_calls_cons, He, IH.
Qed.

Lemma count_calls_listingEvents p taskId rootPath clearMetaInfo k :
  (∀ e, p e = true → isLoopEvent e = true ∨ isPersistEvent e = true
                     ∨ isTaskFailure e = true) →
  p (EvInvalidateMetaInfoCache rootPath) = false →
  count_calls p (listingEvents taskId rootPath clearMetaInfo k)
  = if p (EvUpdateScanTaskProgress taskId 0 0 None) then 1 else 0.
Proof.
  intros Hp Hinv. unfold listingEvents.
  assert (Hnot : ∀ e, isLoopEvent e = false → isPersistEvent e = false →
                      isTaskFailure e = false → p e = false).
  { intros e ? ? ?. destruct (p e) eqn:He; [|done].
    destruct (Hp _ He) as [?|[?|?]]; congruence. }
  rewrite count_calls_cons, count_calls_app, count_calls_cons, Hinv.
  rewrite (count_calls_none p (loadEvents clearMetaInfo)).
  2:{ unfold loadEvents. destruct clearMetaInfo; repeat constructor.
      by apply Hnot. }
  rewrite (count_calls_none p (_ <$> _)); [lia|].
  apply Forall_fmap, Forall_forall. intros q _. by apply Hnot.
Qed.

Section CallFacts.

Context (env : Collaborators) (taskId tmdbApiKey : string)
  (tmdbProxy : option string) (clearMetaInfo : bool)
  (nameToKey : gmap string string) (total : nat).

(** The persisting phase writes the store once, and reports completion
    only as its very last call. *)
Lemma persist_calls rootPath n st w r w' :
  persist env taskId rootPath n st w = (r, w') →
  ∃ pevs,
    Forall (λ e, isPersistCall e) pevs
    ∧ count_calls isStoreWrite pevs = 1
    ∧ match r with
      | Ret _ =>
          trace w' =
            trace w ++ pevs
            ++ [EvCompleteScanTask taskId n (newCount st) (existingCount st)
                  (errorCount st)]
      | Throw _ => trace w' = trace w ++ pevs
      | Diverge => False
      end.
Proof.
  cbv beta iota zeta delta
    [persist bind db_setGlobalValue invalidateMetaInfoCache setCachedMetaInfo
     getConfig setConfig db_saveAdminConfig completeScanTask emit throw ret].
  repeat (case_match; simplify_eq; cbv beta iota); intros [= <- <-];
    cbn [trace log with_store with_cache with_config];
    rewrite <- ?app_assoc; cbn [app];
    first [ eexists; refine (conj _ (conj _ eq_refl))
          | eexists [_; _; _; _]; refine (conj _ (conj _ eq_refl)) ];
    first [done | repeat constructor; by intros ? ? [= -> _]].
Qed.

(** What one iteration adds to the numbers of calls and to the counters. *)
Lemma FolderRun_calls i folder st st' evs :
  FolderRun env taskId tmdbApiKey tmdbProxy clearMetaInfo nameToKey total
    i folder st st' evs →
  ∃ dn de,
    newCount st' = newCount st + dn
    ∧ errorCount st' = errorCount st + de
    ∧ count_calls isSearchCall evs ≤ dn + de
    ∧ count_calls isSeasonCall evs ≤ dn
    ∧ dn ≤ count_calls isDelay evs
    ∧ count_calls isDelay evs ≤ count_calls isSearchCall evs.
Proof.
  destruct 1 as [|????? ? ? ? ? ? Hseason| | |]; try destruct Hseason;
    unfold failedState, progressEvent, searchEvent, seasonEvent;
    rewrite ?count_calls_cons, ?count_calls_app, ?count_calls_cons;
    cbn [isSearchCall isSeasonCall isDelay count_calls filter list_filter
         List.length newCount errorCount count_existing count_new
         count_error set_folder add_key];
    first [ by exists 0, 0; repeat split; lia
          | by exists 1, 0; repeat split; lia
          | by exists 0, 1; repeat split; lia ].
Qed.

Lemma LoopRun_calls i rest st st' evs :
  LoopRun env taskId tmdbApiKey tmdbProxy clearMetaInfo nameToKey total
    i rest st st' evs →
  ∃ dn de,
    newCount st' = newCount st + dn
    ∧ errorCount st' = errorCount st + de
    ∧ count_calls isSearchCall evs ≤ dn + de
    ∧ count_calls isSeasonCall evs ≤ dn
    ∧ dn ≤ count_calls isDelay evs
    ∧ count_calls isDelay evs ≤ count_calls isSearchCall evs.
Proof.
  induction 1 as [|i folder rest st st1 st2 evs1 evs2 Hstep _ IH].
  - exists 0, 0. cbn. repeat split; lia.
  - destruct (FolderRun_calls _ _ _ _ _ Hstep)
      as (dn1 & de1 & ? & ? & ? & ? & ? & ?).
    destruct IH as (dn2 & de2 & ? & ? & ? & ? & ? & ?).
    exists (dn1 + dn2), (de1 + de2). rewrite !count_calls_app.
    repeat split; lia.
Qed.

End CallFacts.

(** ** The calls of a scan *)

Section ScanOutcomes.

Context (env : Collaborators) (fuel : nat) (taskId url rootPath : string)
  (tmdbApiKey : string) (tmdbProxy : option string)
  (username password : string) (clearMetaInfo : bool).

(** The calls of a scan, by outcome of its three phases. *)
Lemma scan_calls w r w' :
  performScan env fuel taskId url rootPath tmdbApiKey tmdbProxy username
    password clearMetaInfo w = (r, w') →
  ∃ k,
    (r = Diverge
     ∧ ListRun env (scanClient url username password) rootPath 1 [] k Diverge
     ∧ w' = listingWorld rootPath w
              (listingEvents taskId rootPath clearMetaInfo k))
    ∨ (∃ msg,
         r = Throw msg
         ∧ ListRun env (scanClient url username password) rootPath 1 [] k
             (Throw msg)
         ∧ w' = listingWorld rootPath w
                  (listingEvents taskId rootPath clearMetaInfo k
                   ++ [EvFailScanTask taskId msg]))
    ∨ ∃ remoteFolders loaded st evs pevs r2 w2,
        (listLoop env fuel (scanClient url username password) rootPath 1 []
           w).1 = Ret remoteFolders
        ∧ ListRun env (scanClient url username password) rootPath 1 [] k
            (Ret remoteFolders)
        ∧ (loadMetaInfo env clearMetaInfo w).1 = Ret loaded
        ∧ LoopRun env taskId tmdbApiKey tmdbProxy clearMetaInfo
            (folderNameToKey loaded) (List.length remoteFolders) 0
            remoteFolders (initialState loaded) st evs
        ∧ persist env taskId rootPath (List.length remoteFolders) st
            (listingWorld rootPath w
               (listingEvents taskId rootPath clearMetaInfo k
                ++ EvUpdateScanTaskProgress taskId 0
                     (List.length remoteFolders) None :: evs))
          = (r2, w2)
        ∧ Forall (λ e, isPersistCall e) pevs
        ∧ count_calls isStoreWrite pevs = 1
        ∧ ((r = Ret tt ∧ r2 = Ret tt ∧ w' = w2
            ∧ new_events w w'
              = listingEvents taskId rootPath clearMetaInfo k
                ++ EvUpdateScanTaskProgress taskId 0
                     (List.length remoteFolders) None
                :: evs ++ pevs
                ++ [EvCompleteScanTask taskId (List.length remoteFolders)
                      (newCount st) (existingCount st) (errorCount st)])
           ∨ ∃ msg,
               r = Throw msg ∧ r2 = Throw msg
               ∧ w' = log [EvFailScanTask taskId msg] w2
               ∧ new_events w w'
                 = listingEvents taskId rootPath clearMetaInfo k
                   ++ EvUpdateScanTaskProgress taskId 0
                        (List.length remoteFolders) None
                   :: evs ++ pevs ++ [EvFailScanTask taskId msg]).
Proof.
  intros Hscan.
  pose proof (performScan_run env fuel taskId url rootPath tmdbApiKey
                tmdbProxy username password clearMetaInfo w) as Hrun.
  rewrite Hscan in Hrun. cbn [fst snd] in Hrun.
  assert (Hlisted : ∀ fs,
    (listLoop env fuel (scanClient url username password) rootPath 1 [] w).1
      = Ret fs →
    ∃ k, ∃ remoteFolders loaded st evs pevs r2 w2,
        (listLoop env fuel (scanClient url username password) rootPath 1 []
           w).1 = Ret remoteFolders
        ∧ ListRun env (scanClient url username password) rootPath 1 [] k
            (Ret remoteFolders)
        ∧ (loadMetaInfo env clearMetaInfo w).1 = Ret loaded
        ∧ LoopRun env taskId tmdbApiKey tmdbProxy clearMetaInfo
            (folderNameToKey loaded) (List.length remoteFolders) 0
            remoteFolders (initialState loaded) st evs
        ∧ persist env taskId rootPath (List.length remoteFolders) st
            (listingWorld rootPath w
               (listingEvents taskId rootPath clearMetaInfo k
                ++ EvUpdateScanTaskProgress taskId 0
                     (List.length remoteFolders) None :: evs))
          = (r2, w2)
        ∧ Forall (λ e, isPersistCall e) pevs
        ∧ count_calls isStoreWrite pevs = 1
        ∧ ((r = Ret tt ∧ r2 = Ret tt ∧ w' = w2
            ∧ new_events w w'
              = listingEvents taskId rootPath clearMetaInfo k
                ++ EvUpdateScanTaskProgress taskId 0
                     (List.length remoteFolders) None
                :: evs ++ pevs
                ++ [EvCompleteScanTask taskId (List.length remoteFolders)
                      (newCount st) (existingCount st) (errorCount st)])
           ∨ ∃ msg,
               r = Throw msg ∧ r2 = Throw msg
               ∧ w' = log [EvFailScanTask taskId msg] w2
               ∧ new_events w w'
                 = listingEvents taskId rootPath clearMetaInfo k
                   ++ EvUpdateScanTaskProgress taskId 0
                        (List.length remoteFolders) None
                   :: evs ++ pevs ++ [EvFailScanTask taskId msg])).
  { intros fs Hfs.
    destruct (performScan_listed env fuel taskId url rootPath tmdbApiKey
                tmdbProxy username password clearMetaInfo w fs Hfs)
      as (loaded & k & st & evs & Hload & Hlist & Hloop & Heq).
    rewrite Hscan in Heq.
    destruct (persist _ _ _ _ _ _) as [r2 w2] eqn:Hpersist.
    destruct (persist_calls _ _ _ _ _ _ _ _ Hpersist)
      as (pevs & Hpevs & Hwrite & Htrace).
    exists k, fs, loaded, st, evs, pevs, r2, w2.
    do 7 (split; [done|]).
    destruct r2 as [[]|msg|]; [left|right|done].
    - injection Heq as -> ->. do 3 (split; [done|]).
      apply new_events_app. rewrite Htrace. cbn [trace listingWorld].
      by repeat (progress (rewrite <- ?app_assoc; cbn [app])).
    - injection Heq as -> ->. exists msg. do 3 (split; [done|]).
      apply new_events_app. cbn [trace log]. rewrite Htrace.
      cbn [trace listingWorld].
      by repeat (progress (rewrite <- ?app_assoc; cbn [app])). }
  destruct Hrun as [k Hlist|k msg Hlist
                   |metaInfo k fs st evs pevs msg w2 ? Hfs
                   |metaInfo k fs st evs pevs w2 ? Hfs].
  - exists k. by left.
  - exists k. right. left. by exists msg.
  - destruct (Hlisted _ Hfs) as [k' H']. exists k'. by right; right.
  - destruct (Hlisted _ Hfs) as [k' H']. exists k'. by right; right.
Qed.

End ScanOutcomes.

(** ** Calls outside the loop *)

Lemma loop_event_not p e :
  (∀ e, p e = true → isLoopEvent e = false) →
  isLoopEvent e = true → p e = false.
Proof. intros Hp He. destruct (p e) eqn:Hpe; [|done]. apply Hp in Hpe. congruence. Qed.

Section ScanTraces.

Context (env : Collaborators) (taskId tmdbApiKey : string)
  (tmdbProxy : option string) (clearMetaInfo : bool)
  (nameToKey : gmap string string) (total : nat).

Lemma LoopRun_count_none p i rest st st' evs :
  (∀ e, p e = true → isLoopEvent e = false) →
  LoopRun env taskId tmdbApiKey tmdbProxy clearMetaInfo nameToKey total
    i rest st st' evs →
  count_calls p evs = 0.
Proof.
  intros Hp Hloop. apply count_calls_none.
  apply LoopRun_events in Hloop.
  eapply Forall_impl; [exact Hloop|]. intros e He. by apply loop_event_not.
Qed.

End ScanTraces.

(** The number of calls of a kind made outside the loop in a scan whose
    listing finished: at most the store write and the final call. *)
Lemma count_calls_listed p env taskId tmdbApiKey tmdbProxy clearMetaInfo
    nameToKey total rootPath k n rest st st' evs pevs final :
  (∀ e, p e = true →
        isPersistEvent e = true ∨ isTaskFailure e = true) →
  p (EvInvalidateMetaInfoCache rootPath) = false →
  LoopRun env taskId tmdbApiKey tmdbProxy clearMetaInfo nameToKey total
    0 rest st st' evs →
  count_calls p
    (listingEvents taskId rootPath clearMetaInfo k
     ++ EvUpdateScanTaskProgress taskId 0 n None :: evs ++ pevs ++ [final])
  = count_calls p pevs + (if p final then 1 else 0).
Proof.
  intros Hp Hinv Hloop.
  assert (Hnot : ∀ e, isPersistEvent e = false → isTaskFailure e = false →
                      p e = false).
  { intros e ? ?. destruct (p e) eqn:He; [|done].
    destruct (Hp _ He); congruence. }
  rewrite count_calls_app, count_calls_cons, !count_calls_app.
  rewrite count_calls_listingEvents; [|by auto|done].
  rewrite !Hnot by done.
  erewrite LoopRun_count_none; [| |exact Hloop].
  - rewrite count_calls_cons. cbn [count_calls filter list_filter List.length].
    lia.
  - intros e He. destruct (Hp _ He); by destruct e.
Qed.


(** ** The pages of a listing *)

Section ListedPages.

Context (env : Collaborators) (client : OpenListClient) (rootPath : string).

(** Every folder a finished listing returns is a directory of one of the
    pages it fetched. *)
Lemma ListRun_member page acc k remoteFolders :
  ListRun env client rootPath page acc k (Ret remoteFolders) →
  ∀ folder, folder ∈ remoteFolders →
    folder ∈ acc
    ∨ ∃ p resp,
        page ≤ p < page + k
        ∧ listDirectory env client rootPath p pageSize true = Resolved resp
        ∧ folder ∈ Listing.content resp
        ∧ Listing.is_dir folder = true.
Proof.
  intros Hrun. remember (Ret remoteFolders) as r eqn:Hr.
  induction Hrun as [page acc|page acc msg Hp|page acc resp Hp Hc
                    |page acc resp Hp Hc Ht|page acc resp k r Hp Hc Ht Hrun IH];
    try done; intros folder Hin.
  - injection Hr as <-. apply elem_of_app in Hin as [Hin|Hin]; [by left|].
    right. exists page, resp. unfold pageFolders in Hin. rewrite Hp in Hin.
    apply list_elem_of_filter in Hin as [? ?]. split; [lia|done].
  - destruct (IH Hr _ Hin) as [Hacc|(p & resp' & ? & ? & ? & ?)].
    + apply elem_of_app in Hacc as [Hacc|Hacc]; [by left|].
      right. exists page, resp. unfold pageFolders in Hacc.
      rewrite Hp in Hacc.
      apply list_elem_of_filter in Hacc as [? ?]. split; [lia|done].
    + right. exists p, resp'. split; [lia|done].
Qed.

(** Every page before the last one fetched was answered with code 200 and
    left the listing short of the total it announced. *)
Lemma ListRun_inner_pages page acc k r :
  ListRun env client rootPath page acc k r →
  ∀ p, page ≤ p → S p < page + k →
    ∃ resp,
      listDirectory env client rootPath p pageSize true = Resolved resp
      ∧ Listing.code resp = 200%Z.
Proof.
  induction 1 as [page acc|page acc msg Hp|page acc resp Hp Hc
                 |page acc resp Hp Hc Ht|page acc resp k r Hp Hc Ht Hrun IH];
    intros p Hge Hlt; try lia.
  destruct (decide (p = page)) as [->|Hne]; [eauto|].
  apply IH; lia.
Qed.

End ListedPages.

Section ListedFolders.

Context (env : Collaborators) (client : OpenListClient) (rootPath : string).

(** A finished listing returns every directory of every page it fetched. *)
Lemma ListRun_contains page acc k remoteFolders :
  ListRun env client rootPath page acc k (Ret remoteFolders) →
  (∀ folder, folder ∈ acc → folder ∈ remoteFolders)
  ∧ ∀ p folder,
      page ≤ p < page + k →
      folder ∈ pageFolders env client rootPath p →
      folder ∈ remoteFolders.
Proof.
  intros Hrun. remember (Ret remoteFolders) as r eqn:Hr.
  induction Hrun as [page acc|page acc msg Hp|page acc resp Hp Hc
                    |page acc resp Hp Hc Ht|page acc resp k r Hp Hc Ht Hrun IH];
    try done.
  - injection Hr as <-. split.
    + intros folder Hin. apply elem_of_app. by left.
    + intros p folder Hrange Hin. replace p with page in Hin by lia.
      apply elem_of_app. by right.
  - destruct (IH Hr) as [IHacc IHpages]. split.
    + intros folder Hin. apply IHacc, elem_of_app. by left.
    + intros p folder Hrange Hin.
      destruct (decide (p = page)) as [->|Hne].
      * apply IHacc, elem_of_app. by right.
      * apply (IHpages p); [lia|done].
Qed.

End ListedFolders.

(** The calls of a kind made while folders are resolved are all made by
    the loop. *)
Lemma count_calls_handling p taskId rootPath clearMetaInfo k n evs pevs
    final :
  (∀ e, p e = true → isHandlingEvent e = true) →
  Forall (λ e, isPersistCall e) pevs →
  isHandlingEvent final = false →
  count_calls p
    (listingEvents taskId rootPath clearMetaInfo k
     ++ EvUpdateScanTaskProgress taskId 0 n None :: evs ++ pevs ++ [final])
  = count_calls p evs.
Proof.
  intros Hp Hpevs Hfinal.
  assert (Hnot : ∀ e, isHandlingEvent e = false → p e = false).
  { intros e He. destruct (p e) eqn:Hpe; [|done].
    apply Hp in Hpe. congruence. }
  rewrite count_calls_app, count_calls_cons, !count_calls_app.
  rewrite count_calls_listingEvents; cycle 1.
  { intros e He. left. apply Hp in He. by destruct e. }
  { by apply Hnot. }
  rewrite !Hnot by done.
  rewrite (count_calls_none p pevs).
  2:{ eapply Forall_impl; [exact Hpevs|]. intros e (He & _).
      apply Hnot. by destruct e. }
  rewrite count_calls_cons, Hnot by done.
  cbn [count_calls filter list_filter List.length]. lia.
Qed.

(** ** The first and the last call of a scan *)

Section ScanEnds.

Context (env : Collaborators) (fuel : nat) (taskId url rootPath : string)
  (tmdbApiKey : string) (tmdbProxy : option string)
  (username password : string) (clearMetaInfo : bool).

(** A scan only adds calls, the first of which resets the progress. *)
Lemma performScan_trace w r w' :
  performScan env fuel taskId url rootPath tmdbApiKey tmdbProxy username
    password clearMetaInfo w = (r, w') →
  ∃ rest,
    trace w' = trace w ++ EvUpdateScanTaskProgress taskId 0 0 None :: rest.
Proof.
  intros Hscan.
  pose proof (performScan_run env fuel taskId url rootPath tmdbApiKey
                tmdbProxy username password clearMetaInfo w) as Hrun.
  rewrite Hscan in Hrun. cbn [fst snd] in Hrun.
  destruct Hrun as [k ?|k msg ?|metaInfo k fs st evs pevs msg w2 ? ? ? ? ? Htr ?
                   |metaInfo k fs st evs pevs w2 ? ? ? ? ? Htr ? ? ?];
    cbn [trace listingWorld log]; rewrite ?Htr; unfold listingEvents;
    rewrite <- ?app_assoc; cbn [app]; eauto.
Qed.

(** A scan that throws has just reported the failure. *)
Lemma performScan_throws w msg w' :
  performScan env fuel taskId url rootPath tmdbApiKey tmdbProxy username
    password clearMetaInfo w = (Throw msg, w') →
  ∃ w0, w' = log [EvFailScanTask taskId msg] w0.
Proof.
  intros Hscan.
  destruct (scan_calls _ _ _ _ _ _ _ _ _ _ _ _ _ Hscan) as
    [k [(? & _)|[(msg' & [= <-] & _ & ->)
       |(fs & loaded & st & evs & pevs & r2 & w2 & _ & _ & _ & _ & _ & _ & _
         & [(? & _)|(msg' & [= <-] & _ & -> & _)])]]]; try done.
  - eexists (listingWorld rootPath w _). unfold log, listingWorld.
    cbn [store cache config trace]. by rewrite <- app_assoc.
  - by exists w2.
Qed.

End ScanEnds.

(** ** Reading the index back *)

(** A stored value that parses is the index the scan starts from. *)
Lemma loadMetaInfo_parsed env w content parsed :
  getGlobalValue_fault env = None →
  store w !! "video.metainfo" = Some content →
  content ≠ "" →
  JSON_parse env content = Resolved parsed →
  (loadMetaInfo env false w).1 = Ret parsed.
Proof.
  intros Hfault Hstore Hne Hparse.
  cbv beta iota zeta delta
    [loadMetaInfo bind try_catch db_getGlobalValue emit lift throw ret].
  rewrite Hfault. cbn [store log]. rewrite Hstore. cbn [truthy].
  apply String.eqb_neq in Hne. rewrite Hne. cbn [negb].
  change (default "" (Some content)) with content. by rewrite Hparse.
Qed.

(** ** Writes that are rejected *)

Section RejectedWrites.

Context (env : Collaborators) (taskId rootPath : string).


(** A rejected save of the configuration ends it after the index has been
    written. *)
Lemma persist_save_rejected total st w o msg :
  setGlobalValue_fault env = None →
  saveAdminConfig_fault env = Some msg →
  OpenListConfig (config w) = Some o →
  (persist env taskId rootPath total st w).1 = Throw msg.
Proof.
  intros Hset Hsave Hconfig.
  cbv beta iota zeta delta
    [persist bind db_setGlobalValue invalidateMetaInfoCache setCachedMetaInfo
     getConfig setConfig db_saveAdminConfig completeScanTask emit throw ret].
  rewrite Hset. cbv beta iota.
  cbn [store cache config trace log with_store with_cache with_config].
  rewrite Hconfig. cbv beta iota. by rewrite Hsave.
Qed.

End RejectedWrites.

Section FailedPersisting.

Context (env : Collaborators) (fuel : nat) (taskId url rootPath : string)
  (tmdbApiKey : string) (tmdbProxy : option string)
  (username password : string) (clearMetaInfo : bool).

(** A scan whose listing finishes and whose persisting phase throws. *)
Lemma performScan_persist_throws w remoteFolders msg :
  (listLoop env fuel (scanClient url username password) rootPath 1 [] w).1
    = Ret remoteFolders →
  (∀ total st evs,
     (persist env taskId rootPath total st (listingWorld rootPath w evs)).1
     = Throw msg) →
  ∃ k st evs pevs w2,
    performScan env fuel taskId url rootPath tmdbApiKey tmdbProxy username
      password clearMetaInfo w
    = (Throw msg, log [EvFailScanTask taskId msg] w2)
    ∧ persist env taskId rootPath (List.length remoteFolders) st
        (listingWorld rootPath w
           (listingEvents taskId rootPath clearMetaInfo k
            ++ EvUpdateScanTaskProgress taskId 0
                 (List.length remoteFolders) None :: evs))
      = (Throw msg, w2)
    ∧ Forall (λ e, isLoopEvent e = true) evs
    ∧ Forall (λ e, isPersistCall e) pevs
    ∧ new_events w (log [EvFailScanTask taskId msg] w2)
      = listingEvents taskId rootPath clearMetaInfo k
        ++ EvUpdateScanTaskProgress taskId 0 (List.length remoteFolders) None
        :: evs ++ pevs ++ [EvFailScanTask taskId msg].
Proof.
  intros Hlisted Hthrows.
  destruct (performScan_listed env fuel taskId url rootPath tmdbApiKey
              tmdbProxy username password clearMetaInfo w _ Hlisted)
    as (loaded & k & st & evs & _ & _ & Hloop & Heq).
  specialize (Hthrows (List.length remoteFolders) st
                (listingEvents taskId rootPath clearMetaInfo k
                 ++ EvUpdateScanTaskProgress taskId 0
                      (List.length remoteFolders) None :: evs)).
  destruct (persist _ _ _ _ _ _) as [r2 w2] eqn:Hpersist.
  cbn [fst] in Hthrows. subst r2.
  destruct (persist_calls _ _ _ _ _ _ _ _ Hpersist)
    as (pevs & Hpevs & _ & Htrace).
  exists k, st, evs, pevs, w2.
  split; [done|]. split; [done|].
  split; [by apply LoopRun_events in Hloop|]. split; [done|].
  apply new_events_app. cbn [trace log]. rewrite Htrace.
  cbn [trace listingWorld].
  by repeat (progress (rewrite <- ?app_assoc; cbn [app])).
Qed.

End FailedPersisting.

(** ** The arguments of the metadata calls *)

Section CallArguments.

Context (env : Collaborators) (taskId tmdbApiKey : string)
  (tmdbProxy : option string) (clearMetaInfo : bool)
  (nameToKey : gmap string string) (total : nat).

Lemma FolderRun_search_args i folder st st' evs name apiKey query proxy yr :
  FolderRun env taskId tmdbApiKey tmdbProxy clearMetaInfo nameToKey total
    i folder st st' evs →
  EvSearchTMDB name apiKey query proxy yr ∈ evs →
  name = Listing.name folder
  ∧ apiKey = tmdbApiKey
  ∧ proxy = tmdbProxy
  ∧ ∃ seasonInfo,
      parseSeasonFromTitle env name = Resolved seasonInfo
      ∧ query = js_or (Some (cleanTitle seasonInfo)) name
      ∧ yr = num_or_undefined (year seasonInfo).
Proof.
  destruct 1 as [|????? ? ? ? ? ? Hseason| | |]; try destruct Hseason;
    intros Hin; split_in Hin;
    unfold progressEvent, searchEvent, seasonEvent in Hin;
    simplify_eq; eauto 10.
Qed.

Lemma LoopRun_search_args i rest st st' evs name apiKey query proxy yr :
  LoopRun env taskId tmdbApiKey tmdbProxy clearMetaInfo nameToKey total
    i rest st st' evs →
  EvSearchTMDB name apiKey query proxy yr ∈ evs →
  apiKey = tmdbApiKey
  ∧ proxy = tmdbProxy
  ∧ (∃ folder, folder ∈ rest ∧ name = Listing.name folder)
  ∧ ∃ seasonInfo,
      parseSeasonFromTitle env name = Resolved seasonInfo
      ∧ query = js_or (Some (cleanTitle seasonInfo)) name
      ∧ yr = num_or_undefined (year seasonInfo).
Proof.
  induction 1 as [|i folder rest st st1 st2 evs1 evs2 Hstep _ IH];
    intros Hin; [by split_in Hin|].
  apply elem_of_app in Hin as [Hin|Hin].
  - destruct (FolderRun_search_args _ _ _ _ _ _ _ _ _ _ Hstep Hin)
      as (-> & ? & ? & ?).
    do 2 (split; [done|]). split; [|done].
    exists folder. split; [left|done].
  - destruct (IH Hin) as (? & ? & (f & ? & ?) & ?).
    do 2 (split; [done|]). split; [|done].
    exists f. split; [by right|done].
Qed.

Lemma FolderRun_season_args i folder st st' evs name apiKey id season proxy :
  FolderRun env taskId tmdbApiKey tmdbProxy clearMetaInfo nameToKey total
    i folder st st' evs →
  EvGetTVSeasonDetails name apiKey id season proxy ∈ evs →
  name = Listing.name folder
  ∧ apiKey = tmdbApiKey
  ∧ proxy = tmdbProxy
  ∧ season ≠ 0%Z
  ∧ ∃ seasonInfo resp result,
      parseSeasonFromTitle env name = Resolved seasonInfo
      ∧ seasonNumber seasonInfo = Some season
      ∧ searchTMDB env i tmdbApiKey
          (js_or (Some (cleanTitle seasonInfo)) name) tmdbProxy
          (num_or_undefined (year seasonInfo)) = Resolved resp
      ∧ Search.code resp = 200%Z
      ∧ Search.result resp = Some result
      ∧ Search.media_type result = "tv"
      ∧ id = Search.id result.
Proof.
  assert (Hwants : ∀ result seasonInfo,
    wantsSeason result seasonInfo = true →
    Search.media_type result = "tv"
    ∧ ∃ n, seasonNumber seasonInfo = Some n ∧ n ≠ 0%Z).
  { intros result si Hw. unfold wantsSeason in Hw.
    apply andb_true_iff in Hw as [Htv Hnum].
    apply String.eqb_eq in Htv. split; [done|].
    destruct (seasonNumber si) as [n|]; [|done].
    exists n. split; [done|]. cbn [truthy_num] in Hnum.
    apply negb_true_iff, Z.eqb_neq in Hnum. done. }
  destruct 1 as [|????? ? ? ? ? ? Hseason| | |];
    try (destruct Hseason as [|? ? Hw|? Hw|? Hw];
         try (destruct (Hwants _ _ Hw) as (Htv & n & Hn & Hn0)));
    intros Hin; split_in Hin;
    unfold progressEvent, searchEvent, seasonEvent in Hin;
    simplify_eq; rewrite Hn; cbn [default];
    do 4 (split; [done|]); eauto 10.
Qed.

Lemma LoopRun_season_args i rest st st' evs name apiKey id season proxy :
  LoopRun env taskId tmdbApiKey tmdbProxy clearMetaInfo nameToKey total
    i rest st st' evs →
  EvGetTVSeasonDetails name apiKey id season proxy ∈ evs →
  apiKey = tmdbApiKey
  ∧ proxy = tmdbProxy
  ∧ season ≠ 0%Z
  ∧ ∃ j seasonInfo resp result,
      parseSeasonFromTitle env name = Resolved seasonInfo
      ∧ seasonNumber seasonInfo = Some season
      ∧ searchTMDB env j tmdbApiKey
          (js_or (Some (cleanTitle seasonInfo)) name) tmdbProxy
          (num_or_undefined (year seasonInfo)) = Resolved resp
      ∧ Search.code resp = 200%Z
      ∧ Search.result resp = Some result
      ∧ Search.media_type result = "tv"
      ∧ id = Search.id result.
Proof.
  induction 1 as [|i folder rest st st1 st2 evs1 evs2 Hstep _ IH];
    intros Hin; [by split_in Hin|].
  apply elem_of_app in Hin as [Hin|Hin]; [|auto].
  destruct (FolderRun_season_args _ _ _ _ _ _ _ _ _ _ Hstep Hin)
    as (_ & ? & ? & ? & si & resp & result & ?).
  do 3 (split; [done|]). by exists i, si, resp, result.
Qed.

End CallArguments.

(** The calls made while folders are resolved are calls of the loop. *)
Lemma handling_events_of_scan e taskId rootPath clearMetaInfo k n evs pevs
    final :
  isHandlingEvent e = true →
  Forall (λ e, isPersistCall e) pevs →
  isHandlingEvent final = false →
  e ∈ listingEvents taskId rootPath clearMetaInfo k
      ++ EvUpdateScanTaskProgress taskId 0 n None :: evs ++ pevs ++ [final] →
  e ∈ evs.
Proof.
  intros He Hpevs Hfinal Hin. rewrite Forall_forall in Hpevs.
  split_in Hin; subst; try done; try congruence.
  - apply elem_of_listingEvents in Hin as [->|[->|[->|(q & -> & ?)]]]; done.
  - destruct (Hpevs _ Hin) as (? & _). by destruct e.
Qed.

(** ** Where the listing stops *)

Section ListingStop.

Context (env : Collaborators) (client : OpenListClient) (rootPath : string).

(** Only a listing that has run out of steps has fetched no page. *)
Lemma ListRun_no_page page acc r :
  ListRun env client rootPath page acc 0 r → r = Diverge.
Proof. by inversion 1. Qed.

(** Each page but the last left the directories short of the total it
    announced; the last one did not. *)
Lemma ListRun_totals page acc k remoteFolders :
  ListRun env client rootPath page acc k (Ret remoteFolders) →
  ∀ p, page ≤ p < page + k →
    ∃ resp,
      listDirectory env client rootPath p pageSize true = Resolved resp
      ∧ Listing.code resp = 200%Z
      ∧ (S p < page + k →
         (Z.of_nat
            (List.length
               (acc ++ concat (pageFolders env client rootPath
                                 <$> seq page (S p - page))))
          < Listing.total resp)%Z)
      ∧ (S p = page + k →
         (Listing.total resp ≤ Z.of_nat (List.length remoteFolders))%Z).
Proof.
  intros Hrun. remember (Ret remoteFolders) as r eqn:Hr.
  induction Hrun as [page acc|page acc msg Hp|page acc resp Hp Hc
                    |page acc resp Hp Hc Ht|page acc resp k r Hp Hc Ht Hrun IH];
    try done; intros p Hrange.
  - injection Hr as <-. replace p with page by lia.
    exists resp. do 2 (split; [done|]). split; [lia|done].
  - destruct (decide (p = page)) as [->|Hne].
    + exists resp. do 2 (split; [done|]). split.
      * intros _. replace (S page - page) with 1 by lia.
        cbn [seq fmap list_fmap concat]. by rewrite app_nil_r.
      * intros Hlast. assert (k = 0) as -> by lia.
        apply ListRun_no_page in Hrun. congruence.
    + destruct (IH Hr p) as (resp' & Hp' & Hc' & Hshort & Hfull); [lia|].
      exists resp'. do 2 (split; [done|]). split.
      * intros Hlt.
        replace (S p - page) with (S (S p - S page)) by lia.
        cbn [seq fmap list_fmap concat]. rewrite app_assoc.
        apply Hshort. lia.
      * intros Hlast. apply Hfull. lia.
Qed.

End ListingStop.

(** ** Marked keys *)

Lemma markedKey_fresh name keys : Variants.markedKey name keys ∉ keys.
Proof.
  unfold Variants.markedKey. intros Hin.
  apply (fresh_string_of_set_fresh (set_omap Variants.unmarked keys) name).
  apply elem_of_set_omap. eexists. split; [exact Hin|].
  cbn [Variants.unmarked]. by rewrite Ascii.eqb_refl.
Qed.

Lemma markedKey_not_proto name keys :
  Variants.markedKey name keys ≠ "__proto__".
Proof.
  unfold Variants.markedKey. intros Heq. injection Heq as Hmark _.
  vm_compute in Hmark. discriminate Hmark.
Qed.

(** * Further properties, stated on the functions *)

(** ** Loading the index *)

(** X1.  Loading never fails.  After a full reset request the store is not
    even read.  Otherwise the store is read once, and whenever the read is
    rejected, the key is absent, its value is empty or the value does not
    parse, the scan starts from an empty index; only a value that parses
    is used. *)
Theorem unreadable_index_starts_empty env clearMetaInfo w :
  ∃ loaded,
    loadMetaInfo env clearMetaInfo w
    = (Ret loaded,
       log (if clearMetaInfo then []
            else [EvGetGlobalValue "video.metainfo"]) w)
    ∧ (clearMetaInfo = true
       ∨ is_Some (getGlobalValue_fault env)
       ∨ store w !! "video.metainfo" = None
       ∨ store w !! "video.metainfo" = Some ""
       ∨ (∃ content msg,
            store w !! "video.metainfo" = Some content
            ∧ JSON_parse env content = Rejected msg) →
       loaded = emptyMetaInfo env)
    ∧ ∀ content parsed,
        clearMetaInfo = false →
        getGlobalValue_fault env = None →
        store w !! "video.metainfo" = Some content →
        content ≠ "" →
        JSON_parse env content = Resolved parsed →
        loaded = parsed.
Proof.
  unfold loadMetaInfo.
  destruct clearMetaInfo.
  { exists (emptyMetaInfo env). unfold ret. rewrite log_nil.
    split; [done|]. split; [done|]. by intros. }
  cbv beta iota zeta delta
    [bind try_catch db_getGlobalValue emit lift throw ret].
  destruct (getGlobalValue_fault env) as [msg|] eqn:Hfault.
  { exists (emptyMetaInfo env). split; [done|]. split; [done|]. by intros. }
  cbn [store log].
  destruct (store w !! "video.metainfo") as [content|] eqn:Hstore;
    cbn [truthy].
  - change (default "" (Some content)) with content.
    destruct (String.eqb content "") eqn:Heq; cbn [negb];
      [apply String.eqb_eq in Heq as -> | apply String.eqb_neq in Heq].
    + exists (emptyMetaInfo env). split; [reflexivity|].
      split; [reflexivity|].
      intros c p _ _ [= <-] Hne. by destruct Hne.
    + destruct (JSON_parse env content) as [parsed|msg] eqn:Hparse.
      * exists parsed. split; [reflexivity|]. split.
        -- intros [?|[[? ?]|[?|[[= ->]|(c & m & [= <-] & ?)]]]];
             congruence.
        -- intros c p _ _ [= <-] _ ?. congruence.
      * exists (emptyMetaInfo env). split; [reflexivity|].
        split; [reflexivity|].
        intros c p _ _ [= <-] _ ?. congruence.
  - exists (emptyMetaInfo env). split; [reflexivity|].
    split; [reflexivity|]. intros c p _ _ ?. congruence.
Qed.

Lemma unreadable_index_starts_empty_witness :
  (loadMetaInfo Demo.env false Variants.worldWithBrokenIndex).1
  = Ret (emptyMetaInfo Demo.env).
Proof.
  destruct (unreadable_index_starts_empty Demo.env false
              Variants.worldWithBrokenIndex)
    as (loaded & Hload & Hempty & _).
  rewrite Hload. cbn [fst]. f_equal. apply Hempty.
  do 4 right. exists "{broken", "Unexpected token".
  split; reflexivity.
Defined.

(** ** What a scan leaves behind *)

(** X4.  The last call of a scan tells its outcome, and nothing else does:
    a scan that returns has called [completeScanTask] once, as its last
    call, and never [failScanTask]; a scan that throws has called
    [failScanTask] once, as its last call, with the message it throws, and
    never [completeScanTask]; a scan still listing has called neither. *)
Theorem task_outcome_matches_result
    env fuel taskId url rootPath tmdbApiKey tmdbProxy username password
    clearMetaInfo w r w' :
  performScan env fuel taskId url rootPath tmdbApiKey tmdbProxy username
    password clearMetaInfo w = (r, w') →
  match r with
  | Ret _ =>
      (∃ total new existing errors,
         last (trace w')
         = Some (EvCompleteScanTask taskId total new existing errors))
      ∧ count_calls isTaskCompletion (new_events w w') = 1
      ∧ count_calls isTaskFailure (new_events w w') = 0
  | Throw msg =>
      last (trace w') = Some (EvFailScanTask taskId msg)
      ∧ count_calls isTaskFailure (new_events w w') = 1
      ∧ count_calls isTaskCompletion (new_events w w') = 0
  | Diverge =>
      count_calls isTaskFailure (new_events w w') = 0
      ∧ count_calls isTaskCompletion (new_events w w') = 0
  end.
Proof.
  intros Hscan.
  assert (Hpers : ∀ p pevs,
    (∀ e, p e = true → isTaskCompletion e = true ∨ isPersistEvent e = false) →
    Forall (λ e, isPersistCall e) pevs →
    count_calls p pevs = 0).
  { intros p pevs Hp Hpevs. apply count_calls_none.
    eapply Forall_impl; [exact Hpevs|]. intros e (He1 & He2 & _).
    destruct (p e) eqn:Hpe; [|done].
    destruct (Hp _ Hpe); congruence. }
  assert (Hcompletion : ∀ e, isTaskCompletion e = true →
            isPersistEvent e = true ∨ isTaskFailure e = true)
    by (intros e He; left; by destruct e).
  assert (Hfailure : ∀ e, isTaskFailure e = true →
            isPersistEvent e = true ∨ isTaskFailure e = true) by auto.
  destruct (scan_calls _ _ _ _ _ _ _ _ _ _ _ _ _ Hscan) as
    [k [(-> & _ & ->)|[(msg & -> & _ & ->)
       |(fs & loaded & st & evs & pevs & r2 & w2 & _ & _ & _ & Hloop & _
         & Hpevs & _ & [(-> & _ & -> & Hnew)|(msg & -> & _ & -> & Hnew)])]]].
  - rewrite new_events_app
      with (evs := listingEvents taskId rootPath clearMetaInfo k) by done.
    rewrite !count_calls_listingEvents; try done;
      intros e He; destruct e; auto; done.
  - rewrite new_events_app
      with (evs := listingEvents taskId rootPath clearMetaInfo k
                   ++ [EvFailScanTask taskId msg]) by done.
    split; [cbn [trace listingWorld]; by rewrite !app_assoc, last_snoc|].
    rewrite !count_calls_app, !count_calls_listingEvents; try done;
      intros e He; destruct e; auto; done.
  - split; [|rewrite Hnew; split].
    + eexists _, _, _, _. eapply last_new_events. rewrite Hnew.
      rewrite app_comm_cons, !app_assoc. reflexivity.
    + erewrite count_calls_listed; [|done|done|exact Hloop].
      rewrite (Hpers _ _ (λ e He, or_introl He) Hpevs). done.
    + erewrite count_calls_listed; [|done|done|exact Hloop].
      rewrite (Hpers isTaskFailure pevs); [done| |done].
      intros e He. right. by destruct e.
  - split; [|rewrite Hnew; split].
    + eapply last_new_events. rewrite Hnew.
      rewrite app_comm_cons, !app_assoc. reflexivity.
    + erewrite count_calls_listed; [|done|done|exact Hloop].
      rewrite (Hpers isTaskFailure pevs); [done| |done].
      intros e He. right. by destruct e.
    + erewrite count_calls_listed; [|done|done|exact Hloop].
      rewrite (Hpers _ _ (λ e He, or_introl He) Hpevs). done.
Qed.

Lemma task_outcome_matches_result_witness :
  last (trace (Demo.scan Demo.envListingDown false Demo.worldWithShow).2)
  = Some (EvFailScanTask "task-1" "OpenList 列表获取失败")
  ∧ count_calls isTaskFailure
      (new_events Demo.worldWithShow
         (Demo.scan Demo.envListingDown false Demo.worldWithShow).2) = 1
  ∧ count_calls isTaskCompletion
      (new_events Demo.worldWithShow
         (Demo.scan Demo.envListingDown false Demo.worldWithShow).2) = 0.
Proof.
  pose proof (task_outcome_matches_result Demo.envListingDown 5 "task-1"
                "http://openlist.local" "/" "tmdb-key" None "admin" "secret"
                false Demo.worldWithShow _ _
                (surjective_pairing
                   (Demo.scan Demo.envListingDown false Demo.worldWithShow)))
    as Houtcome.
  assert (Hr : (Demo.scan Demo.envListingDown false Demo.worldWithShow).1
               = Throw "OpenList 列表获取失败") by (by vm_compute).
  rewrite Hr in Houtcome. exact Houtcome.
Defined.

(** X5.  Whatever its outcome, a scan calls [db.setGlobalValue] at most
    once and never changes another key than that of the index; a scan
    that has not made the call leaves the store exactly as it was, and a
    scan that returns has made it. *)
Theorem store_written_at_most_once
    env fuel taskId url rootPath tmdbApiKey tmdbProxy username password
    clearMetaInfo w r w' :
  performScan env fuel taskId url rootPath tmdbApiKey tmdbProxy username
    password clearMetaInfo w = (r, w') →
  count_calls isStoreWrite (new_events w w') ≤ 1
  ∧ (∀ key, key ≠ "video.metainfo" → store w' !! key = store w !! key)
  ∧ (∀ key value,
       EvSetGlobalValue key value ∈ new_events w w' → key = "video.metainfo")
  ∧ (count_calls isStoreWrite (new_events w w') = 0 → store w' = store w)
  ∧ (r = Ret tt → count_calls isStoreWrite (new_events w w') = 1).
Proof.
  intros Hscan.
  assert (Hwrite : ∀ e, isStoreWrite e = true →
            isPersistEvent e = true ∨ isTaskFailure e = true)
    by (intros e He; left; by destruct e).
  assert (Hwrite3 : ∀ e, isStoreWrite e = true →
            isLoopEvent e = true ∨ isPersistEvent e = true
            ∨ isTaskFailure e = true)
    by (intros e He; right; left; by destruct e).
  destruct (scan_calls _ _ _ _ _ _ _ _ _ _ _ _ _ Hscan) as
    [k [(-> & _ & ->)|[(msg & -> & _ & ->)
       |(fs & loaded & st & evs & pevs & r2 & w2 & _ & _ & _ & Hloop
         & Hpersist & Hpevs & Hone & Hcase)]]].
  - rewrite new_events_app
      with (evs := listingEvents taskId rootPath clearMetaInfo k) by done.
    rewrite count_calls_listingEvents by done. cbn [isStoreWrite].
    split; [lia|]. split; [done|]. split; [|done].
    intros key value Hin.
    apply elem_of_listingEvents in Hin as [?|[?|[?|(? & ? & _)]]]; done.
  - rewrite new_events_app
      with (evs := listingEvents taskId rootPath clearMetaInfo k
                   ++ [EvFailScanTask taskId msg]) by done.
    rewrite count_calls_app, count_calls_listingEvents, count_calls_cons
      by done.
    cbn [isStoreWrite count_calls filter list_filter List.length].
    split; [lia|]. split; [done|]. split; [|done].
    intros key value Hin. apply elem_of_app in Hin as [Hin|Hin].
    + apply elem_of_listingEvents in Hin as [?|[?|[?|(? & ? & _)]]]; done.
    + by split_in Hin.
  - pose proof (persist_other_keys _ _ _ _ _ _ _ _ Hpersist) as Hother.
    cbn [store listingWorld] in Hother.
    assert (Hcount : ∀ final, isStoreWrite final = false →
      count_calls isStoreWrite
        (listingEvents taskId rootPath clearMetaInfo k
         ++ EvUpdateScanTaskProgress taskId 0 (List.length fs) None
         :: evs ++ pevs ++ [final]) = 1).
    { intros final Hfinal.
      erewrite count_calls_listed; [|done|done|exact Hloop].
      rewrite Hone, Hfinal. done. }
    assert (Hkeys : ∀ final key value, isStoreWrite final = false →
      EvSetGlobalValue key value
        ∈ listingEvents taskId rootPath clearMetaInfo k
          ++ EvUpdateScanTaskProgress taskId 0 (List.length fs) None
          :: evs ++ pevs ++ [final] →
      key = "video.metainfo").
    { intros final key value Hfinal Hin.
      apply LoopRun_events in Hloop.
      rewrite Forall_forall in Hloop, Hpevs.
      split_in Hin; try done.
      - apply elem_of_listingEvents in Hin as [?|[?|[?|(? & ? & _)]]]; done.
      - by specialize (Hloop _ Hin).
      - destruct (Hpevs _ Hin) as (_ & _ & Hkey). eauto.
      - by subst final. }
    destruct Hcase as [(-> & _ & -> & Hnew)|(msg & -> & _ & -> & Hnew)];
      rewrite Hnew, Hcount by done.
    + split; [lia|]. split; [exact Hother|]. split; [|done].
      intros key value Hin. by eapply Hkeys; [|exact Hin].
    + cbn [store log]. split; [lia|]. split; [exact Hother|]. split; [|done].
      intros key value Hin. by eapply Hkeys; [|exact Hin].
Qed.

Lemma store_written_at_most_once_witness :
  count_calls isStoreWrite
    (new_events Demo.worldWithShow
       (Demo.scan Demo.env false Demo.worldWithShow).2) = 1
  ∧ ∀ key,
      key ≠ "video.metainfo" →
      store (Demo.scan Demo.env false Demo.worldWithShow).2 !! key
      = store Demo.worldWithShow !! key.
Proof.
  destruct (store_written_at_most_once Demo.env 5 "task-1"
              "http://openlist.local" "/" "tmdb-key" None "admin" "secret"
              false Demo.worldWithShow _ _
              (surjective_pairing
                 (Demo.scan Demo.env false Demo.worldWithShow)))
    as (_ & Hother & _ & _ & Hone).
  split; [|exact Hother]. apply Hone. by vm_compute.
Defined.


(** X3.  A scan that returns has written the whole index back: the store
    holds the serialised index under its key, the cache of the root holds
    the same index, stamped with the time of the write, and the saved
    configuration carries the number of its entries and the refresh time,
    with every other setting as it was. *)
Theorem completed_scan_persists_index
    env fuel taskId url rootPath tmdbApiKey tmdbProxy username password
    clearMetaInfo w w' :
  performScan env fuel taskId url rootPath tmdbApiKey tmdbProxy username
    password clearMetaInfo w = (Ret tt, w') →
  ∃ stored o o',
    store w' = <["video.metainfo" := JSON_stringify env stored]> (store w)
    ∧ cache w' = <[rootPath := stored]> (cache w)
    ∧ last_refresh stored = Date_now env NowLastRefresh
    ∧ (∃ total new existing errors,
         total = new + existing + errors
         ∧ last (trace w')
           = Some (EvCompleteScanTask taskId total new existing errors))
    ∧ OpenListConfig (config w) = Some o
    ∧ OpenListConfig (config w') = Some o'
    ∧ SiteConfig (config w') = SiteConfig (config w)
    ∧ ResourceCount o' = size (folders stored)
    ∧ LastRefreshTime o' = Date_now env NowLastRefreshTime
    ∧ Enabled o' = Enabled o ∧ URL o' = URL o
    ∧ Username o' = Username o ∧ Password o' = Password o
    ∧ RootPath o' = RootPath o
    ∧ EvSaveAdminConfig (config w') ∈ new_events w w'.
Proof.
  intros Hscan.
  destruct (scan_calls _ _ _ _ _ _ _ _ _ _ _ _ _ Hscan) as
    [k [(? & _)|[(msg & ? & _)
       |(fs & loaded & st & evs & pevs & r2 & w2 & _ & _ & _ & Hloop
         & Hpersist & Hpevs & Hone
         & [(_ & -> & -> & Hnew)|(msg & ? & _)])]]]; try done.
  destruct (persist_run _ _ _ _ _ _ _ _ Hpersist)
    as (pevs' & _ & _ & Hstore & Hcache).
  destruct (persist_completed _ _ _ _ _ _ _ Hpersist)
    as (_ & _ & o & o' & Ho & Ho' & Hsite & Hcount & Htime & He & Hu & Hn
        & Hp & Hr & Hsave).
  cbn [store cache config listingWorld] in *.
  exists (finalMetaInfo env st), o, o'.
  split; [done|]. split.
  { rewrite Hcache. apply map_eq. intros key.
    destruct (decide (key = rootPath)) as [->|Hne].
    - by rewrite !lookup_insert_eq.
    - assert (rootPath ≠ key) by congruence.
      by rewrite !lookup_insert_ne, !lookup_delete_ne by done. }
  split; [done|]. split.
  { eexists _, _, _, _. split; [|eapply last_new_events; rewrite Hnew;
      rewrite app_comm_cons, !app_assoc; reflexivity].
    apply LoopRun_counts in Hloop. cbn in Hloop. lia. }
  do 10 (split; [done|]).
  unfold new_events in Hsave |- *.
  cbn [trace listingWorld] in Hsave.
  rewrite length_app, <- drop_drop in Hsave.
  by apply subseteq_drop in Hsave.
Qed.

Lemma completed_scan_persists_index_witness :
  ∃ stored o o',
    store (Demo.scan Demo.env false Demo.worldWithShow).2
    = <["video.metainfo" := JSON_stringify Demo.env stored]>
        (store Demo.worldWithShow)
    ∧ cache (Demo.scan Demo.env false Demo.worldWithShow).2
      = <["/" := stored]> (cache Demo.worldWithShow)
    ∧ OpenListConfig (config Demo.worldWithShow) = Some o
    ∧ OpenListConfig
        (config (Demo.scan Demo.env false Demo.worldWithShow).2) = Some o'
    ∧ ResourceCount o' = size (folders stored).
Proof.
  destruct (completed_scan_persists_index Demo.env 5 "task-1"
              "http://openlist.local" "/" "tmdb-key" None "admin" "secret"
              false Demo.worldWithShow
              (Demo.scan Demo.env false Demo.worldWithShow).2)
    as (stored & o & o' & Hstore & Hcache & _ & _ & Ho & Ho' & _ & Hcount
        & _); [by vm_compute|].
  exists stored, o, o'. repeat (split; [assumption|]). assumption.
Defined.

(** ** Scans that rebuild the index *)

(** X2.  A scan started with [clearMetaInfo = true] that returns has
    rebuilt the index from the listing alone: the store is never read, no
    folder is counted as existing, and every entry of the index it leaves
    in the cache and in the store belongs to a directory of a page it
    fetched, whose raw name it carries as join key. *)
Theorem full_reset_rebuilds_index
    env fuel taskId url rootPath tmdbApiKey tmdbProxy username password
    w w' :
  performScan env fuel taskId url rootPath tmdbApiKey tmdbProxy username
    password true w = (Ret tt, w') →
  ∃ stored total new errors,
    cache w' !! rootPath = Some stored
    ∧ store w' !! "video.metainfo" = Some (JSON_stringify env stored)
    ∧ (∀ key, EvGetGlobalValue key ∉ new_events w w')
    ∧ last (trace w') = Some (EvCompleteScanTask taskId total new 0 errors)
    ∧ total = new + errors
    ∧ ∀ key folderInfo,
        folders stored !! key = Some folderInfo →
        ∃ page resp folder,
          EvListDirectory rootPath page pageSize true ∈ new_events w w'
          ∧ listDirectory env (scanClient url username password) rootPath
              page pageSize true = Resolved resp
          ∧ folder ∈ Listing.content resp
          ∧ Listing.is_dir folder = true
          ∧ entryOf (Listing.name folder) folderInfo.
Proof.
  intros Hscan.
  destruct (scan_calls _ _ _ _ _ _ _ _ _ _ _ _ _ Hscan) as
    [k [(? & _)|[(msg & ? & _)
       |(fs & loaded & st & evs & pevs & r2 & w2 & _ & Hlist & Hload & Hloop
         & Hpersist & Hpevs & _
         & [(_ & -> & -> & Hnew)|(msg & ? & _)])]]]; try done.
  destruct (persist_run _ _ _ _ _ _ _ _ Hpersist)
    as (pevs' & _ & _ & Hstore & Hcache).
  assert (loaded = emptyMetaInfo env) as ->
    by (unfold loadMetaInfo, ret in Hload; cbn in Hload; congruence).
  exists (finalMetaInfo env st), (List.length fs), (newCount st),
    (errorCount st).
  assert (Hzero : existingCount st = 0).
  { apply LoopRun_existing in Hloop. rewrite Hloop. clear.
    induction fs as [|f fs' IH]; [done|].
    rewrite filter_cons. case_decide as Hs; [by unfold skipped in Hs|].
    exact IH. }
  split; [by rewrite Hcache, lookup_insert_eq|].
  split; [by rewrite Hstore, lookup_insert_eq|].
  split; [|split; [|split]].
  - intros key Hin. rewrite Hnew in Hin.
    apply LoopRun_events in Hloop.
    rewrite Forall_forall in Hloop, Hpevs.
    unfold listingEvents, loadEvents in Hin. cbn [app] in Hin.
    split_in Hin; try done.
    + by apply list_elem_of_fmap in Hin as (? & ? & _).
    + by specialize (Hloop _ Hin).
    + by destruct (Hpevs _ Hin) as (? & _).
  - rewrite <- Hzero. eapply last_new_events. rewrite Hnew.
    rewrite app_comm_cons, !app_assoc. reflexivity.
  - apply LoopRun_counts in Hloop. cbn in Hloop. lia.
  - intros key info Hkey. cbn [folders finalMetaInfo] in Hkey.
    destruct (LoopRun_origin _ _ _ _ _ _ _ _ _ _ _ _ Hloop _ _ Hkey)
      as [Hold|(folder & Hin & Hentry)]; [done|].
    destruct (ListRun_member _ _ _ _ _ _ _ Hlist _ Hin)
      as [Hnil|(p & resp & Hp & Hpage & Hcontent & Hdir)];
      [by apply elem_of_nil in Hnil|].
    exists p, resp, folder. split; [|done].
    rewrite Hnew. apply elem_of_app. left. unfold listingEvents.
    apply elem_of_cons. right. apply elem_of_app. right.
    apply elem_of_cons. right. apply list_elem_of_fmap.
    exists p. split; [done|]. apply elem_of_seq. lia.
Qed.

Lemma full_reset_rebuilds_index_witness :
  ∃ stored total new errors,
    cache (Demo.scan Demo.env true Demo.worldWithShow).2 !! "/"
    = Some stored
    ∧ last (trace (Demo.scan Demo.env true Demo.worldWithShow).2)
      = Some (EvCompleteScanTask "task-1" total new 0 errors)
    ∧ total = new + errors.
Proof.
  destruct (full_reset_rebuilds_index Demo.env 5 "task-1"
              "http://openlist.local" "/" "tmdb-key" None "admin" "secret"
              Demo.worldWithShow
              (Demo.scan Demo.env true Demo.worldWithShow).2)
    as (stored & total & new & errors & Hcache & _ & _ & Hlast & Hsum & _);
    [by vm_compute|].
  exists stored, total, new, errors. by repeat split.
Defined.

(** ** Listings that fail *)

(** X6.  When the listing client rejects a page the scan has asked for,
    the scan throws the client's own message, reports it to the task
    tracker as its last call, asks for no later page and makes no search;
    the store and the configuration are what they were, and the cache
    entry of the root is gone. *)
Theorem listing_rejection_propagates
    env fuel taskId url rootPath tmdbApiKey tmdbProxy username password
    clearMetaInfo w r w' page msg :
  performScan env fuel taskId url rootPath tmdbApiKey tmdbProxy username
    password clearMetaInfo w = (r, w') →
  EvListDirectory rootPath page pageSize true ∈ new_events w w' →
  listDirectory env (scanClient url username password) rootPath page
    pageSize true = Rejected msg →
  r = Throw msg
  ∧ last (trace w') = Some (EvFailScanTask taskId msg)
  ∧ (∀ later, page < later →
       EvListDirectory rootPath later pageSize true ∉ new_events w w')
  ∧ count_calls isSearchCall (new_events w w') = 0
  ∧ store w' = store w
  ∧ config w' = config w
  ∧ cache w' = delete rootPath (cache w).
Proof.
  intros Hscan Hin Hpage.
  assert (Hlast : ∀ k r0,
    ListRun env (scanClient url username password) rootPath 1 [] k r0 →
    EvListDirectory rootPath page pageSize true
      ∈ listingEvents taskId rootPath clearMetaInfo k →
    r0 = Throw msg ∧ k = page).
  { intros k r0 Hlist Hev.
    apply elem_of_listingEvents in Hev
      as [?|[?|[?|(q & [= ->] & Hq)]]]; try done.
    split.
    - destruct (ListRun_pages _ _ _ _ _ _ _ Hlist q) as
        [(resp' & Hp' & Hc')|(msg' & -> & [Hp'|(resp' & Hp' & Hc' & ->)])];
        [lia|..]; congruence.
    - destruct (decide (S q < 1 + k)) as [Hinner|?]; [|lia].
      destruct (ListRun_inner_pages _ _ _ _ _ _ _ Hlist q) as (? & ? & _);
        [lia|done|congruence]. }
  destruct (scan_calls _ _ _ _ _ _ _ _ _ _ _ _ _ Hscan) as
    [k [(-> & Hlist & ->)|[(msg' & -> & Hlist & ->)
       |(fs & loaded & st & evs & pevs & r2 & w2 & _ & Hlist & _ & Hloop
         & _ & Hpevs & _ & Hcase)]]].
  - rewrite new_events_app
      with (evs := listingEvents taskId rootPath clearMetaInfo k) in Hin
      by done.
    by destruct (Hlast _ _ Hlist Hin).
  - rewrite new_events_app
      with (evs := listingEvents taskId rootPath clearMetaInfo k
                   ++ [EvFailScanTask taskId msg']) in Hin |- * by done.
    apply elem_of_app in Hin as [Hin|Hin]; [|by split_in Hin].
    destruct (Hlast _ _ Hlist Hin) as [[= ->] ->].
    split; [done|].
    split; [cbn [trace listingWorld]; by rewrite !app_assoc, last_snoc|].
    split; [|split; [|done]].
    + intros later Hlater Hev.
      apply elem_of_app in Hev as [Hev|Hev]; [|by split_in Hev].
      apply elem_of_listingEvents in Hev
        as [?|[?|[?|(q & [= ->] & Hq)]]]; try done. lia.
    + rewrite count_calls_app, count_calls_listingEvents, count_calls_cons;
        [done|intros e He; destruct e; try done; by left|done].
  - exfalso.
    assert (Hnew : ∃ final,
      new_events w w'
      = listingEvents taskId rootPath clearMetaInfo k
        ++ EvUpdateScanTaskProgress taskId 0 (List.length fs) None
        :: evs ++ pevs ++ [final]
      ∧ (isTaskCompletion final = true ∨ isTaskFailure final = true)).
    { destruct Hcase as [(_ & _ & _ & Hnew)|(? & _ & _ & _ & Hnew)];
        eexists; (split; [exact Hnew|]); auto. }
    destruct Hnew as (final & Hnew & Hfinal). rewrite Hnew in Hin.
    apply LoopRun_events in Hloop.
    rewrite Forall_forall in Hloop, Hpevs.
    split_in Hin; try done.
    + by destruct (Hlast _ _ Hlist Hin).
    + by specialize (Hloop _ Hin).
    + by destruct (Hpevs _ Hin) as (? & _).
    + subst final. by destruct Hfinal.
Qed.

Lemma listing_rejection_propagates_witness :
  (Demo.scan Variants.envUnreachable false Demo.worldWithShow).1
  = Throw "connect ECONNREFUSED"
  ∧ store (Demo.scan Variants.envUnreachable false Demo.worldWithShow).2
    = store Demo.worldWithShow
  ∧ cache (Demo.scan Variants.envUnreachable false Demo.worldWithShow).2
    = delete "/" (cache Demo.worldWithShow).
Proof.
  destruct (listing_rejection_propagates Variants.envUnreachable 5 "task-1"
              "http://openlist.local" "/" "tmdb-key" None "admin" "secret"
              false Demo.worldWithShow _ _ 1 "connect ECONNREFUSED"
              (surjective_pairing
                 (Demo.scan Variants.envUnreachable false
                    Demo.worldWithShow)))
    as (Hr & _ & _ & _ & Hstore & _ & Hcache).
  - vm_compute. repeat constructor.
  - reflexivity.
  - by repeat split.
Defined.

(** ** Matches without season details *)

(** X7.  A TV match whose season lookup throws, answers with a code other
    than 200 or carries no season is still stored as a match: the entry
    keeps the series-level title, poster, overview and date, records the
    season number parsed from the folder name and no season name, is not
    marked failed and counts as new; the pause of 300 ms is made as after
    any other match. *)
Theorem season_lookup_failure_keeps_series_data
    env taskId tmdbApiKey tmdbProxy clearMetaInfo nameToKey total i folder
    st w seasonInfo resp result :
  skipped clearMetaInfo nameToKey (Listing.name folder) = false →
  parseSeasonFromTitle env (Listing.name folder) = Resolved seasonInfo →
  truthy_num (seasonNumber seasonInfo) = true →
  searchTMDB env i tmdbApiKey
    (js_or (Some (cleanTitle seasonInfo)) (Listing.name folder))
    tmdbProxy (num_or_undefined (year seasonInfo)) = Resolved resp →
  Search.code resp = 200%Z →
  Search.result resp = Some result →
  Search.media_type result = "tv" →
  ((∃ msg,
      getTVSeasonDetails env i tmdbApiKey (Search.id result)
        (default 0%Z (seasonNumber seasonInfo)) tmdbProxy = Rejected msg)
   ∨ ∃ seasonResp,
       getTVSeasonDetails env i tmdbApiKey (Search.id result)
         (default 0%Z (seasonNumber seasonInfo)) tmdbProxy
       = Resolved seasonResp
       ∧ (Season.code seasonResp ≠ 200%Z
          ∨ Season.season seasonResp = None)) →
  ∃ st' folderInfo,
    processFolder env taskId tmdbApiKey tmdbProxy clearMetaInfo nameToKey
      total i folder st w
    = (Ret st',
       log [progressEvent taskId total i (Listing.name folder);
            searchEvent tmdbApiKey tmdbProxy (Listing.name folder)
              seasonInfo;
            seasonEvent tmdbApiKey tmdbProxy (Listing.name folder) result
              seasonInfo;
            EvDelay 300] w)
    ∧ folders (metaInfo st')
        !! generateFolderKey env (Listing.name folder) (existingKeys st)
      = Some folderInfo
    ∧ newCount st' = S (newCount st)
    ∧ errorCount st' = errorCount st
    ∧ failed folderInfo = false
    ∧ tmdb_id folderInfo = Search.id result
    ∧ season_number folderInfo = seasonNumber seasonInfo
    ∧ season_name folderInfo = None
    ∧ title folderInfo
      = js_or (Search.title result)
          (js_or (Search.name result) (Listing.name folder))
    ∧ poster_path folderInfo = Search.poster_path result
    ∧ overview folderInfo = Search.overview result
    ∧ release_date folderInfo
      = js_or (Search.release_date result)
          (js_or (Search.first_air_date result) "").
Proof.
  intros Hskip Hparse Hnum Hsearch Hcode Hresult Htv Hseason.
  destruct (processFolder_run env taskId tmdbApiKey tmdbProxy clearMetaInfo
              nameToKey total i folder st w) as (st' & evs & Hrun & Hcase).
  assert (Hwants : wantsSeason result seasonInfo = true).
  { unfold wantsSeason. by rewrite Htv, Hnum. }
  destruct Hcase as [|si resp' result' info sevs ? ? ? ? ? Hsrun
                    |si resp' ? ? ? Hbad| |]; try congruence.
  - assert (si = seasonInfo) as -> by congruence.
    assert (resp' = resp) as -> by congruence.
    assert (result' = result) as -> by congruence.
    assert (info = set_season_number (seasonNumber seasonInfo)
                     (matchedEntry (Listing.name folder) result
                        (Date_now env (NowFolder i)))
            ∧ sevs = [seasonEvent tmdbApiKey tmdbProxy (Listing.name folder)
                        result seasonInfo]) as [-> ->].
    { destruct Hsrun as [|sresp' season' ? Hs ? ?|sresp' ? Hs Hbad|];
        try congruence; try done.
      destruct Hseason as [[msg Hs']|(sresp & Hs' & [?|?])]; congruence. }
    eexists _, _. split; [exact Hrun|].
    split; [apply lookup_insert_eq|]. done.
  - assert (si = seasonInfo) as -> by congruence.
    assert (resp' = resp) as -> by congruence.
    destruct Hbad; congruence.
Qed.

Lemma season_lookup_failure_keeps_series_data_witness :
  ∃ st' folderInfo,
    (processFolder Variants.envSeasonDown "task-1" "tmdb-key" None false ∅ 2
       0 Demo.showFolder (initialState (emptyMetaInfo Variants.envSeasonDown))
       Demo.world).1
    = Ret st'
    ∧ folders (metaInfo st') !! "Show A S02" = Some folderInfo
    ∧ failed folderInfo = false
    ∧ title folderInfo = "Show A"
    ∧ season_number folderInfo = Some 2%Z
    ∧ season_name folderInfo = None.
Proof.
  destruct (season_lookup_failure_keeps_series_data Variants.envSeasonDown
              "task-1" "tmdb-key" None false ∅ 2 0 Demo.showFolder
              (initialState (emptyMetaInfo Variants.envSeasonDown))
              Demo.world
              {| cleanTitle := "Show A"; seasonNumber := Some 2%Z;
                 year := None |}
              {| Search.code := 200; Search.result := Some Demo.showResult |}
              Demo.showResult)
    as (st' & info & Hrun & Hkey & _ & _ & Hfailed & _ & Hnumber & Hname
        & Htitle & _); [done..| |].
  - left. by exists "fetch failed".
  - exists st', info. rewrite Hrun.
    split; [done|]. split; [exact Hkey|]. split; [exact Hfailed|].
    split; [exact Htitle|]. split; [exact Hnumber|exact Hname].
Defined.

(** X8.  When the best match is not a TV series, or no season number was
    parsed from the folder name, no season lookup is made: the folder is
    handled with one search and one pause, and its entry carries the
    match without season number or season name. *)
Theorem no_season_lookup_without_tv_season
    env taskId tmdbApiKey tmdbProxy clearMetaInfo nameToKey total i folder
    st w seasonInfo resp result :
  skipped clearMetaInfo nameToKey (Listing.name folder) = false →
  parseSeasonFromTitle env (Listing.name folder) = Resolved seasonInfo →
  searchTMDB env i tmdbApiKey
    (js_or (Some (cleanTitle seasonInfo)) (Listing.name folder))
    tmdbProxy (num_or_undefined (year seasonInfo)) = Resolved resp →
  Search.code resp = 200%Z →
  Search.result resp = Some result →
  Search.media_type result ≠ "tv"
  ∨ seasonNumber seasonInfo = None
  ∨ seasonNumber seasonInfo = Some 0%Z →
  ∃ st' folderInfo,
    processFolder env taskId tmdbApiKey tmdbProxy clearMetaInfo nameToKey
      total i folder st w
    = (Ret st',
       log [progressEvent taskId total i (Listing.name folder);
            searchEvent tmdbApiKey tmdbProxy (Listing.name folder)
              seasonInfo;
            EvDelay 300] w)
    ∧ folders (metaInfo st')
        !! generateFolderKey env (Listing.name folder) (existingKeys st)
      = Some folderInfo
    ∧ newCount st' = S (newCount st)
    ∧ errorCount st' = errorCount st
    ∧ failed folderInfo = false
    ∧ tmdb_id folderInfo = Search.id result
    ∧ media_type folderInfo = Search.media_type result
    ∧ season_number folderInfo = None
    ∧ season_name folderInfo = None.
Proof.
  intros Hskip Hparse Hsearch Hcode Hresult Hno.
  destruct (processFolder_run env taskId tmdbApiKey tmdbProxy clearMetaInfo
              nameToKey total i folder st w) as (st' & evs & Hrun & Hcase).
  assert (Hwants : wantsSeason result seasonInfo = false).
  { unfold wantsSeason. destruct Hno as [Hmedia|[Hnone|Hzero]].
    - apply String.eqb_neq in Hmedia. by rewrite Hmedia.
    - rewrite Hnone. apply andb_false_r.
    - rewrite Hzero. apply andb_false_r. }
  destruct Hcase as [|si resp' result' info sevs ? ? ? ? ? Hsrun
                    |si resp' ? ? ? Hbad| |]; try congruence.
  - assert (si = seasonInfo) as -> by congruence.
    assert (resp' = resp) as -> by congruence.
    assert (result' = result) as -> by congruence.
    destruct Hsrun; try congruence.
    eexists _, _. split; [exact Hrun|].
    split; [apply lookup_insert_eq|]. done.
  - assert (si = seasonInfo) as -> by congruence.
    assert (resp' = resp) as -> by congruence.
    destruct Hbad; congruence.
Qed.

Lemma no_season_lookup_without_tv_season_witness :
  ∃ st' folderInfo,
    (processFolder Demo.env "task-1" "tmdb-key" None false ∅ 2 1
       Demo.movieFolder (initialState (emptyMetaInfo Demo.env))
       Demo.world).1
    = Ret st'
    ∧ folders (metaInfo st') !! "Movie B (2020)" = Some folderInfo
    ∧ tmdb_id folderInfo = 202%Z
    ∧ season_number folderInfo = None.
Proof.
  destruct (no_season_lookup_without_tv_season Demo.env "task-1" "tmdb-key"
              None false ∅ 2 1 Demo.movieFolder
              (initialState (emptyMetaInfo Demo.env)) Demo.world
              {| cleanTitle := "Movie B"; seasonNumber := None;
                 year := Some 2020%Z |}
              {| Search.code := 200;
                 Search.result := Some Demo.movieResult |}
              Demo.movieResult)
    as (st' & info & Hrun & Hkey & _ & _ & _ & Hid & _ & Hnumber & _);
    [done..|by left|].
  exists st', info. rewrite Hrun.
  split; [done|]. split; [exact Hkey|]. split; [exact Hid|exact Hnumber].
Defined.

(** ** The cost of a scan *)

(** X9.  A scan that returns has made at most one search for each folder
    it reports as new or failed, at most one season lookup for each new
    one, and one pause for each search that was answered: the pauses are
    no fewer than the new folders and no more than the searches. *)
Theorem metadata_calls_bounded
    env fuel taskId url rootPath tmdbApiKey tmdbProxy username password
    clearMetaInfo w w' :
  performScan env fuel taskId url rootPath tmdbApiKey tmdbProxy username
    password clearMetaInfo w = (Ret tt, w') →
  ∃ total new existing errors,
    last (trace w')
    = Some (EvCompleteScanTask taskId total new existing errors)
    ∧ count_calls isSearchCall (new_events w w') ≤ new + errors
    ∧ count_calls isSeasonCall (new_events w w') ≤ new
    ∧ new ≤ count_calls isDelay (new_events w w')
    ∧ count_calls isDelay (new_events w w')
      ≤ count_calls isSearchCall (new_events w w').
Proof.
  intros Hscan.
  destruct (scan_calls _ _ _ _ _ _ _ _ _ _ _ _ _ Hscan) as
    [k [(? & _)|[(msg & ? & _)
       |(fs & loaded & st & evs & pevs & r2 & w2 & _ & _ & _ & Hloop
         & _ & Hpevs & _
         & [(_ & -> & -> & Hnew)|(msg & ? & _)])]]]; try done.
  exists (List.length fs), (newCount st), (existingCount st),
    (errorCount st).
  split.
  { eapply last_new_events. rewrite Hnew.
    rewrite app_comm_cons, !app_assoc. reflexivity. }
  rewrite Hnew.
  rewrite !count_calls_handling;
    try done; try (intros e He; by destruct e).
  destruct (LoopRun_calls _ _ _ _ _ _ _ _ _ _ _ _ Hloop)
    as (dn & de & Hn & He & ? & ? & ? & ?).
  cbn [newCount errorCount initialState] in Hn, He. lia.
Qed.

Lemma metadata_calls_bounded_witness :
  ∃ total new existing errors,
    last (trace (Demo.scan Demo.envSearchThrows false Demo.worldWithShow).2)
    = Some (EvCompleteScanTask "task-1" total new existing errors)
    ∧ count_calls isSearchCall
        (new_events Demo.worldWithShow
           (Demo.scan Demo.envSearchThrows false Demo.worldWithShow).2)
      ≤ new + errors.
Proof.
  destruct (metadata_calls_bounded Demo.envSearchThrows 5 "task-1"
              "http://openlist.local" "/" "tmdb-key" None "admin" "secret"
              false Demo.worldWithShow
              (Demo.scan Demo.envSearchThrows false Demo.worldWithShow).2)
    as (total & new & existing & errors & Hlast & Hsearch & _);
    [by vm_compute|].
  exists total, new, existing, errors. split; [exact Hlast|exact Hsearch].
Defined.

(** ** What a scan does to the index *)

(** X10.  An incremental scan never removes an entry of the stored
    index.  The key generator is taken to return keys outside the set it
    is given, and never ["__proto__"], the one key under which an
    assignment to a plain object adds no entry.  Then a scan that has
    read and parsed the stored index and returns stores every entry of it
    again under its key, whether or not its folder is still listed, and
    the stored index has exactly one more entry for each folder reported
    as new or failed; that number of entries is the resource count saved
    in the configuration. *)
Theorem incremental_scan_keeps_stored_entries
    env fuel taskId url rootPath tmdbApiKey tmdbProxy username password
    w w' content parsed :
  (∀ name keys, generateFolderKey env name keys ∉ keys) →
  (∀ name keys, generateFolderKey env name keys ≠ "__proto__") →
  getGlobalValue_fault env = None →
  store w !! "video.metainfo" = Some content →
  content ≠ "" →
  JSON_parse env content = Resolved parsed →
  performScan env fuel taskId url rootPath tmdbApiKey tmdbProxy username
    password false w = (Ret tt, w') →
  ∃ stored o' total new existing errors,
    cache w' !! rootPath = Some stored
    ∧ store w' !! "video.metainfo" = Some (JSON_stringify env stored)
    ∧ last (trace w')
      = Some (EvCompleteScanTask taskId total new existing errors)
    ∧ (∀ key folderInfo,
         folders parsed !! key = Some folderInfo →
         folders stored !! key = Some folderInfo)
    ∧ size (folders stored) = size (folders parsed) + new + errors
    ∧ OpenListConfig (config w') = Some o'
    ∧ ResourceCount o' = size (folders parsed) + new + errors.
Proof.
  intros Hfresh _ Hfault Hcontent Hne Hparse Hscan.
  destruct (scan_calls _ _ _ _ _ _ _ _ _ _ _ _ _ Hscan) as
    [k [(? & _)|[(msg & ? & _)
       |(fs & loaded & st & evs & pevs & r2 & w2 & _ & _ & Hload & Hloop
         & Hpersist & _ & _
         & [(_ & -> & -> & Hnew)|(msg & ? & _)])]]]; try done.
  assert (loaded = parsed) as ->.
  { pose proof (loadMetaInfo_parsed env w content parsed Hfault Hcontent
                  Hne Hparse) as Hparsed.
    congruence. }
  destruct (persist_run _ _ _ _ _ _ _ _ Hpersist)
    as (pevs' & _ & _ & Hstore & Hcache).
  destruct (persist_completed _ _ _ _ _ _ _ Hpersist)
    as (_ & _ & o & o' & _ & Ho' & _ & Hcount & _).
  assert (Hsize : size (folders (metaInfo st))
                  = size (folders parsed) + newCount st + errorCount st).
  { pose proof (LoopRun_size _ _ _ _ _ _ _ _ _ _ _ _ Hfresh Hloop) as Hsize.
    pose proof (LoopRun_counts _ _ _ _ _ _ _ _ _ _ _ _ Hloop) as Hsum.
    cbn [metaInfo existingKeys newCount existingCount errorCount
         initialState] in Hsize, Hsum.
    specialize (Hsize (reflexivity _)). lia. }
  exists (finalMetaInfo env st), o', (List.length fs), (newCount st),
    (existingCount st), (errorCount st).
  split; [by rewrite Hcache, lookup_insert_eq|].
  split; [by rewrite Hstore, lookup_insert_eq|].
  split.
  { eapply last_new_events. rewrite Hnew.
    rewrite app_comm_cons, !app_assoc. reflexivity. }
  split.
  { intros key info Hkey.
    by apply (LoopRun_keeps _ _ _ _ _ _ _ _ _ _ _ _ Hfresh Hloop). }
  split; [done|]. split; [done|]. by rewrite Hcount.
Qed.

Lemma incremental_scan_keeps_stored_entries_witness :
  ∃ stored new errors,
    cache (Demo.scan Variants.envMarkedKeys false Demo.worldWithShow).2
      !! "/"
    = Some stored
    ∧ folders stored !! "a1b2c3" = Some Demo.storedShow
    ∧ size (folders stored) = 1 + new + errors.
Proof.
  destruct (incremental_scan_keeps_stored_entries Variants.envMarkedKeys 5
              "task-1" "http://openlist.local" "/" "tmdb-key" None "admin"
              "secret" Demo.worldWithShow
              (Demo.scan Variants.envMarkedKeys false Demo.worldWithShow).2
              "<stored>" Demo.storedMetaInfo)
    as (stored & o' & total & new & existing & errors & Hcache & _ & _
        & Hkeeps & Hsize & _).
  - intros name keys. exact (markedKey_fresh name keys).
  - intros name keys. exact (markedKey_not_proto name keys).
  - reflexivity.
  - reflexivity.
  - discriminate.
  - reflexivity.
  - vm_compute. reflexivity.
  - exists stored, new, errors. split; [exact Hcache|].
    split; [apply Hkeeps; reflexivity|exact Hsize].
Defined.

(** X11.  With a key generator that returns keys outside the set it is
    given, and never ["__proto__"], a scan that returns leaves an entry
    for every directory of every page it fetched: the entry carries the
    directory's raw name as join key. *)
Theorem every_listed_folder_is_indexed
    env fuel taskId url rootPath tmdbApiKey tmdbProxy username password
    clearMetaInfo w w' :
  (∀ name keys, generateFolderKey env name keys ∉ keys) →
  (∀ name keys, generateFolderKey env name keys ≠ "__proto__") →
  performScan env fuel taskId url rootPath tmdbApiKey tmdbProxy username
    password clearMetaInfo w = (Ret tt, w') →
  ∃ stored,
    cache w' !! rootPath = Some stored
    ∧ store w' !! "video.metainfo" = Some (JSON_stringify env stored)
    ∧ ∀ page resp folder,
        EvListDirectory rootPath page pageSize true ∈ new_events w w' →
        listDirectory env (scanClient url username password) rootPath page
          pageSize true = Resolved resp →
        folder ∈ Listing.content resp →
        Listing.is_dir folder = true →
        ∃ key folderInfo,
          folders stored !! key = Some folderInfo
          ∧ folderName folderInfo = Listing.name folder.
Proof.
  intros Hfresh _ Hscan.
  destruct (scan_calls _ _ _ _ _ _ _ _ _ _ _ _ _ Hscan) as
    [k [(? & _)|[(msg & ? & _)
       |(fs & loaded & st & evs & pevs & r2 & w2 & _ & Hlist & Hload & Hloop
         & Hpersist & Hpevs & _
         & [(_ & -> & -> & Hnew)|(msg & ? & _)])]]]; try done.
  destruct (persist_run _ _ _ _ _ _ _ _ Hpersist)
    as (pevs' & _ & _ & Hstore & Hcache).
  exists (finalMetaInfo env st).
  split; [by rewrite Hcache, lookup_insert_eq|].
  split; [by rewrite Hstore, lookup_insert_eq|].
  intros page resp folder Hev Hpage Hcontent Hdir.
  assert (Hrange : 1 ≤ page < 1 + k).
  { rewrite Hnew in Hev. apply LoopRun_events in Hloop.
    rewrite Forall_forall in Hloop, Hpevs.
    split_in Hev; try done.
    - apply elem_of_listingEvents in Hev
        as [?|[?|[?|(q & [= ->] & Hq)]]]; done.
    - by specialize (Hloop _ Hev).
    - by destruct (Hpevs _ Hev) as (? & _). }
  assert (Hin : folder ∈ fs).
  { destruct (ListRun_contains _ _ _ _ _ _ _ Hlist) as [_ Hpages].
    apply (Hpages page); [done|]. unfold pageFolders. rewrite Hpage.
    by apply list_elem_of_filter. }
  cbn [folders finalMetaInfo].
  eapply (LoopRun_all_named _ _ _ _ _ _ _ _ _ _ _ _ Hfresh Hloop);
    [done| |done].
  intros name Hs. unfold skipped in Hs.
  apply andb_true_iff in Hs as [_ Hhas].
  by apply has_folderNameToKey in Hhas.
Qed.

Lemma every_listed_folder_is_indexed_witness :
  ∃ stored key folderInfo,
    cache (Demo.scan Variants.envMarkedKeys false Demo.worldWithShow).2 !! "/"
    = Some stored
    ∧ folders stored !! key = Some folderInfo
    ∧ folderName folderInfo = "Movie B (2020)".
Proof.
  destruct (every_listed_folder_is_indexed Variants.envMarkedKeys 5
              "task-1"
              "http://openlist.local" "/" "tmdb-key" None "admin" "secret"
              false Demo.worldWithShow
              (Demo.scan Variants.envMarkedKeys false Demo.worldWithShow).2)
    as (stored & Hcache & _ & Hall).
  - intros name keys. exact (markedKey_fresh name keys).
  - intros name keys. exact (markedKey_not_proto name keys).
  - by vm_compute.
  - destruct (Hall 1
                {| Listing.code := 200; Listing.total := 2;
                   Listing.content := [Demo.showFolder; Demo.movieFolder] |}
                Demo.movieFolder)
      as (key & info & Hkey & Hname).
    + vm_compute. repeat constructor.
    + reflexivity.
    + cbn [Listing.content]. apply elem_of_cons. right.
      apply elem_of_cons. by left.
    + reflexivity.
    + exists stored, key, info. split; [exact Hcache|].
      split; [exact Hkey|exact Hname].
Defined.

(** ** Starting a refresh *)

(** X13.  With the configuration complete, [startOpenListRefresh] purges
    the old tasks, creates a task and returns its id whatever becomes of
    the scan it starts: the scan runs on the configured URL and
    credentials, on the root ["/"] when none is configured, and its
    outcome does not reach the caller.  When the scan throws, the failure
    it has just reported to the task tracker is reported a second time,
    with the same message. *)
Theorem refresh_returns_task_id env fuel clearMetaInfo w o :
  OpenListConfig (config w) = Some o →
  Enabled o = true →
  truthy (URL o) = true →
  truthy (Username o) = true →
  truthy (Password o) = true →
  truthy (TMDBApiKey (SiteConfig (config w))) = true →
  let taskId := createScanTask env (trace w ++ [EvCleanupOldTasks]) in
  let scan :=
    performScan env fuel taskId (default "" (URL o))
      (js_or (RootPath o) "/")
      (default "" (TMDBApiKey (SiteConfig (config w))))
      (TMDBProxy (SiteConfig (config w)))
      (default "" (Username o)) (default "" (Password o)) clearMetaInfo
      (log [EvCleanupOldTasks; EvCreateScanTask taskId] w) in
  ∃ w' rest,
    startOpenListRefresh env fuel clearMetaInfo w = (Ret taskId, w')
    ∧ new_events w w'
      = EvCleanupOldTasks :: EvCreateScanTask taskId
        :: EvUpdateScanTaskProgress taskId 0 0 None :: rest
    ∧ match scan.1 with
      | Throw msg =>
          ∃ w0,
            w' = log [EvFailScanTask taskId msg;
                      EvFailScanTask taskId msg] w0
      | _ => w' = scan.2
      end.
Proof.
  intros Ho He Hu Hn Hp Hk taskId scan.
  destruct scan as [r w1] eqn:Hscan.
  destruct (performScan_trace _ _ _ _ _ _ _ _ _ _ _ _ _ Hscan)
    as [rest Htrace].
  cbn [trace log] in Htrace. rewrite <- app_assoc in Htrace.
  cbn [app] in Htrace.
  assert (Hstart :
    startOpenListRefresh env fuel clearMetaInfo w
    = (Ret taskId,
       match r with
       | Throw msg => log [EvFailScanTask taskId msg] w1
       | _ => w1
       end)).
  { cbv beta iota zeta delta
      [startOpenListRefresh bind getConfig cleanupOldTasks createTask
       background try_catch failScanTask emit ret throw].
    rewrite Ho, He, Hu, Hn, Hp, Hk. cbn [negb orb trace log].
    fold taskId.
    replace (log [EvCreateScanTask taskId] (log [EvCleanupOldTasks] w))
      with (log [EvCleanupOldTasks; EvCreateScanTask taskId] w)
      by (by rewrite log_log).
    fold scan. rewrite Hscan. by destruct r as [[]|msg|]. }
  cbn [fst snd].
  destruct r as [[]|msg|].
  - exists w1, rest. split; [done|]. split; [|done].
    by apply new_events_app.
  - destruct (performScan_throws _ _ _ _ _ _ _ _ _ _ _ _ _ Hscan)
      as [w0 ->].
    eexists _, _. split; [exact Hstart|]. split.
    + apply new_events_app. cbn [trace log] in Htrace |- *.
      rewrite Htrace, <- app_assoc. reflexivity.
    + exists w0. by rewrite log_log.
  - exists w1, rest. split; [done|]. split; [|done].
    by apply new_events_app.
Qed.

Lemma refresh_returns_task_id_witness :
  (startOpenListRefresh Variants.envUnreachable 5 false Demo.world).1
  = Ret "task-1"
  ∧ ∃ w0,
      (startOpenListRefresh Variants.envUnreachable 5 false Demo.world).2
      = log [EvFailScanTask "task-1" "connect ECONNREFUSED";
             EvFailScanTask "task-1" "connect ECONNREFUSED"] w0.
Proof.
  destruct (refresh_returns_task_id Variants.envUnreachable 5 false
              Demo.world Demo.settings)
    as (w' & rest & Hstart & _ & Hscan); [done..|].
  rewrite Hstart. split; [done|]. exact Hscan.
Defined.

(** ** Scanning again *)



(** ** Scans that cannot persist *)



(** X16.  The scan starts from an index with a [folders] object, as
    for X15.  When the index has been written and the database then
    rejects the saving of the configuration, the scan throws and reports
    the failure although its result is in place: the store holds the new
    serialised index and the cache of the root the new index, while the
    task is marked failed and completion is never reported. *)
Theorem rejected_config_save_keeps_written_index
    env fuel taskId url rootPath tmdbApiKey tmdbProxy username password
    clearMetaInfo w remoteFolders o msg :
  clearMetaInfo = true
  ∨ is_Some (getGlobalValue_fault env)
  ∨ store w !! "video.metainfo" = None
  ∨ store w !! "video.metainfo" = Some ""
  ∨ (∃ content message,
       store w !! "video.metainfo" = Some content
       ∧ JSON_parse env content = Rejected message)
  ∨ (∃ previous,
       store w !! "video.metainfo" = Some (JSON_stringify env previous)) →
  setGlobalValue_fault env = None →
  saveAdminConfig_fault env = Some msg →
  OpenListConfig (config w) = Some o →
  (listLoop env fuel (scanClient url username password) rootPath 1 [] w).1
    = Ret remoteFolders →
  ∃ w' stored,
    performScan env fuel taskId url rootPath tmdbApiKey tmdbProxy username
      password clearMetaInfo w = (Throw msg, w')
    ∧ last (trace w') = Some (EvFailScanTask taskId msg)
    ∧ store w' = <["video.metainfo" := JSON_stringify env stored]> (store w)
    ∧ cache w' = <[rootPath := stored]> (cache w)
    ∧ ∀ total new existing errors,
        EvCompleteScanTask taskId total new existing errors
          ∉ new_events w w'.
Proof.
  intros _ Hset Hsave Hconfig Hlisted.
  destruct (performScan_persist_throws env fuel taskId url rootPath
              tmdbApiKey tmdbProxy username password clearMetaInfo w
              remoteFolders msg Hlisted)
    as (k & st & evs & pevs & w2 & Hscan & Hpersist & Hevs & Hpevs & Hnew).
  { intros total st evs. by eapply persist_save_rejected. }
  destruct (persist_failed _ _ _ _ _ _ _ _ Hpersist)
    as [(? & _)|(_ & Hstore & Hcache)]; [congruence|].
  cbn [store cache listingWorld] in Hstore, Hcache.
  exists (log [EvFailScanTask taskId msg] w2), (finalMetaInfo env st).
  split; [exact Hscan|].
  split; [eapply last_new_events; rewrite Hnew;
          rewrite app_comm_cons, !app_assoc; reflexivity|].
  cbn [store cache log].
  split; [done|]. split.
  { rewrite Hcache. apply map_eq. intros key.
    destruct (decide (rootPath = key)) as [->|Hne].
    - by rewrite !lookup_insert_eq.
    - by rewrite !lookup_insert_ne, !lookup_delete_ne by done. }
  intros total new existing errors Hin. rewrite Hnew in Hin.
  rewrite Forall_forall in Hevs, Hpevs.
  split_in Hin; try done.
  - apply elem_of_listingEvents in Hin as [?|[?|[?|(? & ? & _)]]]; done.
  - by specialize (Hevs _ Hin).
  - by destruct (Hpevs _ Hin) as (_ & ? & _).
Qed.

Lemma rejected_config_save_keeps_written_index_witness :
  (Demo.scan Variants.envConfigReadOnly false Demo.world).1
  = Throw "READONLY"
  ∧ store (Demo.scan Variants.envConfigReadOnly false Demo.world).2
      !! "video.metainfo"
    = Some "<written>".
Proof.
  destruct (rejected_config_save_keeps_written_index
              Variants.envConfigReadOnly 5 "task-1" "http://openlist.local"
              "/" "tmdb-key" None "admin" "secret" false Demo.world
              [Demo.showFolder; Demo.movieFolder] Demo.settings "READONLY")
    as (w' & stored & Hscan & _ & Hstore & _);
    [do 2 right; left; reflexivity|reflexivity|reflexivity|reflexivity
    |by vm_compute|].
  unfold Demo.scan. rewrite Hscan. split; [reflexivity|].
  cbn [snd]. rewrite Hstore. apply lookup_insert_eq.
Defined.

(** ** What is asked of the catalogue *)

(** X17.  Every search of a scan is made with the configured API key and
    proxy, for a folder whose name the parser accepted: the query is the
    cleaned title, or the raw folder name when the cleaned title is empty,
    so it is empty only for a folder without a name, and the year is
    passed only when it is not 0.  Every season lookup is made with the
    same key and proxy, for a season number other than 0 parsed from the
    folder name, on the id of a TV match the search returned with code
    200. *)
Theorem metadata_requests_follow_the_folder_name
    env fuel taskId url rootPath tmdbApiKey tmdbProxy username password
    clearMetaInfo w r w' :
  performScan env fuel taskId url rootPath tmdbApiKey tmdbProxy username
    password clearMetaInfo w = (r, w') →
  (∀ name apiKey query proxy yr,
     EvSearchTMDB name apiKey query proxy yr ∈ new_events w w' →
     apiKey = tmdbApiKey
     ∧ proxy = tmdbProxy
     ∧ yr ≠ Some 0%Z
     ∧ (name ≠ "" → query ≠ "")
     ∧ ∃ seasonInfo,
         parseSeasonFromTitle env name = Resolved seasonInfo
         ∧ query = (if String.eqb (cleanTitle seasonInfo) "" then name
                    else cleanTitle seasonInfo)
         ∧ (yr = None ∨ yr = year seasonInfo))
  ∧ ∀ name apiKey id season proxy,
      EvGetTVSeasonDetails name apiKey id season proxy ∈ new_events w w' →
      apiKey = tmdbApiKey
      ∧ proxy = tmdbProxy
      ∧ season ≠ 0%Z
      ∧ ∃ j seasonInfo resp result,
          parseSeasonFromTitle env name = Resolved seasonInfo
          ∧ seasonNumber seasonInfo = Some season
          ∧ searchTMDB env j tmdbApiKey
              (js_or (Some (cleanTitle seasonInfo)) name) tmdbProxy
              (num_or_undefined (year seasonInfo)) = Resolved resp
          ∧ Search.code resp = 200%Z
          ∧ Search.result resp = Some result
          ∧ Search.media_type result = "tv"
          ∧ id = Search.id result.
Proof.
  intros Hscan.
  assert (Hloop : ∃ nameToKey total rest st st' evs,
    LoopRun env taskId tmdbApiKey tmdbProxy clearMetaInfo nameToKey total 0
      rest st st' evs
    ∧ ∀ e, isHandlingEvent e = true → e ∈ new_events w w' → e ∈ evs).
  { destruct (scan_calls _ _ _ _ _ _ _ _ _ _ _ _ _ Hscan) as
      [k [(-> & _ & ->)|[(msg & -> & _ & ->)
         |(fs & loaded & st & evs & pevs & r2 & w2 & _ & _ & _ & Hloop & _
           & Hpevs & _ & Hcase)]]].
    - eexists ∅, 0, [], (initialState (emptyMetaInfo env)), _, [].
      split; [constructor|]. intros e He Hin.
      rewrite new_events_app
        with (evs := listingEvents taskId rootPath clearMetaInfo k) in Hin
        by done.
      apply elem_of_listingEvents in Hin
        as [->|[->|[->|(q & -> & ?)]]]; done.
    - eexists ∅, 0, [], (initialState (emptyMetaInfo env)), _, [].
      split; [constructor|]. intros e He Hin.
      rewrite new_events_app
        with (evs := listingEvents taskId rootPath clearMetaInfo k
                     ++ [EvFailScanTask taskId msg]) in Hin by done.
      apply elem_of_app in Hin as [Hin|Hin].
      + apply elem_of_listingEvents in Hin
          as [->|[->|[->|(q & -> & ?)]]]; done.
      + split_in Hin. by subst e.
    - eexists _, _, _, _, _, evs. split; [exact Hloop|].
      intros e He Hin.
      destruct Hcase as [(_ & _ & _ & Hnew)|(msg & _ & _ & _ & Hnew)];
        rewrite Hnew in Hin;
        by eapply handling_events_of_scan in Hin. }
  destruct Hloop as (nameToKey & total & rest & st & st' & evs & Hloop
                     & Hevs).
  split.
  - intros name apiKey query proxy yr Hin. apply Hevs in Hin; [|done].
    destruct (LoopRun_search_args _ _ _ _ _ _ _ _ _ _ _ _ _ _ _ _ _ Hloop
                Hin) as (-> & -> & _ & si & Hparse & -> & ->).
    do 2 (split; [done|]). split; [|split].
    + unfold num_or_undefined, truthy_num.
      destruct (year si) as [y|]; [|done].
      destruct (Z.eqb_spec y 0); cbn [negb]; congruence.
    + intros Hname. by apply js_or_nonempty.
    + exists si. split; [done|]. split; [done|].
      unfold num_or_undefined. destruct (truthy_num (year si)); auto.
  - intros name apiKey id season proxy Hin. apply Hevs in Hin; [|done].
    apply (LoopRun_season_args _ _ _ _ _ _ _ _ _ _ _ _ _ _ _ _ _ Hloop Hin).
Qed.

Lemma metadata_requests_follow_the_folder_name_witness :
  ∃ seasonInfo,
    parseSeasonFromTitle Demo.env "Movie B (2020)" = Resolved seasonInfo
    ∧ "Movie B" = (if String.eqb (cleanTitle seasonInfo) ""
                   then "Movie B (2020)" else cleanTitle seasonInfo)
    ∧ (Some 2020%Z = None ∨ Some 2020%Z = year seasonInfo).
Proof.
  destruct (metadata_requests_follow_the_folder_name Demo.env 5 "task-1"
              "http://openlist.local" "/" "tmdb-key" None "admin" "secret"
              false Demo.worldWithShow _ _
              (surjective_pairing
                 (Demo.scan Demo.env false Demo.worldWithShow)))
    as [Hsearch _].
  destruct (Hsearch "Movie B (2020)" "tmdb-key" "Movie B" None
              (Some 2020%Z)) as (_ & _ & _ & _ & Hquery).
  - vm_compute. repeat constructor.
  - exact Hquery.
Defined.

(** ** The listing loop *)

(** X14.  A listing that returns has only read: it has asked for the
    pages 1 to [k] in order, within the bound on its steps, and changed
    nothing else.  What it returns are the directories of these pages, in
    page order, and nothing but directories.  Every page answered with
    code 200, and the loop stopped at the first page on which the number
    of directories gathered so far reached the total of that page's
    answer. *)
Theorem listing_stops_at_first_full_page
    env fuel client rootPath w remoteFolders w' :
  listLoop env fuel client rootPath 1 [] w = (Ret remoteFolders, w') →
  ∃ k,
    0 < k ≤ fuel
    ∧ w' = log (listEvent rootPath <$> seq 1 k) w
    ∧ remoteFolders
      = concat (pageFolders env client rootPath <$> seq 1 k)
    ∧ Forall (λ item, Listing.is_dir item = true) remoteFolders
    ∧ ∀ page, 1 ≤ page ≤ k →
        ∃ resp,
          listDirectory env client rootPath page pageSize true
          = Resolved resp
          ∧ Listing.code resp = 200%Z
          ∧ (page < k →
             (Z.of_nat
                (List.length
                   (concat (pageFolders env client rootPath
                              <$> seq 1 page)))
              < Listing.total resp)%Z)
          ∧ (page = k →
             (Listing.total resp
              ≤ Z.of_nat (List.length remoteFolders))%Z).
Proof.
  intros Hlist.
  destruct (listLoop_run env client rootPath fuel 1 [] w)
    as (k & r & Hrun & Hlisted & Hfuel & _).
  rewrite Hlist in Hrun. injection Hrun as <- ->.
  destruct (ListRun_folders _ _ _ _ _ _ _ Hlisted _ eq_refl)
    as [Hpos Hfolders].
  exists k. split; [lia|]. split; [done|]. split; [done|].
  split.
  - apply Forall_forall. intros item Hin.
    destruct (ListRun_member _ _ _ _ _ _ _ Hlisted _ Hin)
      as [Hnil|(p & resp & _ & _ & _ & Hdir)];
      [by apply elem_of_nil in Hnil|done].
  - intros page Hrange.
    destruct (ListRun_totals _ _ _ _ _ _ _ Hlisted page)
      as (resp & Hpage & Hcode & Hshort & Hfull); [lia|].
    exists resp. do 2 (split; [done|]). split.
    + intros Hlt. replace page with (S page - 1) at 1 by lia.
      apply Hshort. lia.
    + intros ->. apply Hfull. lia.
Qed.

Lemma listing_stops_at_first_full_page_witness :
  ∃ k,
    0 < k ≤ 5
    ∧ [Demo.showFolder; Demo.movieFolder]
      = concat (pageFolders Demo.env
                  (scanClient "http://openlist.local" "admin" "secret") "/"
                <$> seq 1 k).
Proof.
  destruct (listing_stops_at_first_full_page Demo.env 5
              (scanClient "http://openlist.local" "admin" "secret") "/"
              Demo.world [Demo.showFolder; Demo.movieFolder]
              (listLoop Demo.env 5
                 (scanClient "http://openlist.local" "admin" "secret") "/"
                 1 [] Demo.world).2)
    as (k & Hk & _ & Hfolders & _); [by vm_compute|].
  exists k. split; [exact Hk|exact Hfolders].
Defined.
